(** * notesrole: tenant isolation, ownership and plan limits of the notes API

    A shallow embedding of the route handlers of the multi-tenant notes
    application (notes CRUD, invitation issue and accept), of the
    validation and subscription helpers they call, and of the relational
    store they query, followed by the properties of the specification.

    The store is a record of four tables, each a list of rows in insertion
    order; a handler is a function from the store, the decoded caller and
    the request to the new store and the response. *)

From Stdlib Require Import List ZArith NArith Bool Lia String Ascii.
From Stdlib Require Import DecimalString Permutation Sorted.
Import ListNotations.
Local Open Scope string_scope.
Local Open Scope list_scope.
Local Open Scope Z_scope.

(* ================================================================== *)
(** ** JavaScript strings *)
(* ================================================================== *)

(** A JavaScript string is a sequence of UTF-16 code units; [length],
    [trim] and the regular expressions of the source all work on code
    units. *)
Definition jsstring := list N.

Definition lit (s : string) : jsstring :=
  List.map N_of_ascii (list_ascii_of_string s).

Coercion lit : string >-> jsstring.
Arguments lit : simpl never.

Fixpoint jseqb (a b : jsstring) : bool :=
  match a, b with
  | [], [] => true
  | x :: a', y :: b' => N.eqb x y && jseqb a' b'
  | _, _ => false
  end.

Definition jsappend (a b : jsstring) : jsstring := a ++ b.
Infix "+++" := jsappend (at level 60, right associativity).

(** [Array.prototype.join]. *)
Fixpoint join (sep : jsstring) (l : list jsstring) : jsstring :=
  match l with
  | [] => []
  | [x] => x
  | x :: rest => x +++ sep +++ join sep rest
  end.

(** ECMAScript WhiteSpace and LineTerminator code points, the characters
    removed by [String.prototype.trim] and skipped by [parseInt]. *)
Definition isWhiteSpace (c : N) : bool :=
  ((9 <=? c) && (c <=? 13) || (c =? 32) || (c =? 160) || (c =? 5760)
   || (8192 <=? c) && (c <=? 8202) || (c =? 8232) || (c =? 8233)
   || (c =? 8239) || (c =? 8287) || (c =? 12288) || (c =? 65279))%N.

Fixpoint trimStart (s : jsstring) : jsstring :=
  match s with
  | c :: s' => if isWhiteSpace c then trimStart s' else s
  | [] => []
  end.

Definition trimEnd (s : jsstring) : jsstring := rev (trimStart (rev s)).

Definition trim (s : jsstring) : jsstring := trimEnd (trimStart s).

(** [s.length]. *)
Definition jslength (s : jsstring) : Z := Z.of_nat (List.length s).

(** [Number.prototype.toString] on an integer. *)
Definition Z_toString (z : Z) : jsstring :=
  lit (NilZero.string_of_int (Z.to_int z)).

(** ** Numbers: the code's counters and limits are integers or [Infinity] *)

Inductive num := Fin (z : Z) | Infinity.

Definition num_ltb (a b : num) : bool :=
  match a, b with
  | Fin x, Fin y => x <? y
  | Fin _, Infinity => true
  | Infinity, _ => false
  end.

Definition num_toString (n : num) : jsstring :=
  match n with
  | Fin z => Z_toString z
  | Infinity => lit "Infinity"
  end.

(** ** Values handed to and taken from the JSON layer *)

#[warnings="-register-all"]
Inductive value :=
| JNull
| JBool (b : bool)
| JNum (n : num)
| JStr (s : jsstring)
| JDate (ms : Z)
| JArr (items : list value)
| JObj (fields : list (string * value)).

(** Property read [v.k]; [None] is [undefined]. *)
Fixpoint assoc (k : string) (fields : list (string * value)) : option value :=
  match fields with
  | [] => None
  | (k', v) :: rest => if String.eqb k k' then Some v else assoc k rest
  end.

Definition prop (v : value) (k : string) : option value :=
  match v with
  | JObj fields => assoc k fields
  | _ => None
  end.

(** Path read [v.k1.k2...]. *)
Fixpoint jget (path : list string) (v : value) : option value :=
  match path with
  | [] => Some v
  | k :: rest => match prop v k with
                 | Some v' => jget rest v'
                 | None => None
                 end
  end.

(** [!v] is [negb (truthy v)]; [undefined] is falsy. *)
Definition truthy (v : value) : bool :=
  match v with
  | JNull => false
  | JBool b => b
  | JNum (Fin 0) => false
  | JNum _ => true
  | JStr [] => false
  | JStr _ => true
  | JDate _ | JArr _ | JObj _ => true
  end.

Definition truthy_opt (o : option value) : bool :=
  match o with Some v => truthy v | None => false end.

(** [typeof v === 'object'] *)
Definition isObjectType (v : value) : bool :=
  match v with
  | JNull | JDate _ | JArr _ | JObj _ => true
  | _ => false
  end.

(* ================================================================== *)
(** ** Enumerations and rows *)
(* ================================================================== *)

Inductive Role := ADMIN | MEMBER.
Inductive Plan := FREE | PRO.
Inductive InvitationStatus := PENDING | ACCEPTED | EXPIRED | CANCELLED.

Definition Role_eqb (a b : Role) : bool :=
  match a, b with ADMIN, ADMIN | MEMBER, MEMBER => true | _, _ => false end.

Definition Role_toString (r : Role) : jsstring :=
  match r with ADMIN => lit "ADMIN" | MEMBER => lit "MEMBER" end.

Definition Plan_toString (p : Plan) : jsstring :=
  match p with FREE => lit "FREE" | PRO => lit "PRO" end.

Definition isPENDING (s : InvitationStatus) : bool :=
  match s with PENDING => true | _ => false end.

Definition InvitationStatus_toString (s : InvitationStatus) : jsstring :=
  match s with
  | PENDING => lit "PENDING" | ACCEPTED => lit "ACCEPTED"
  | EXPIRED => lit "EXPIRED" | CANCELLED => lit "CANCELLED"
  end.

Record Tenant := {
  tenant_id : jsstring;
  tenant_slug : jsstring;
  tenant_name : jsstring;
  tenant_plan : Plan
}.

Record User := {
  user_id : jsstring;
  user_email : jsstring;
  user_password : jsstring;
  user_role : Role;
  user_tenantId : jsstring
}.

Record Note := {
  note_id : jsstring;
  note_title : jsstring;
  note_content : jsstring;
  note_authorId : jsstring;
  note_tenantId : jsstring;
  note_createdAt : Z;
  note_updatedAt : Z
}.

Record Invitation := {
  inv_id : jsstring;
  inv_email : jsstring;
  inv_role : Role;
  inv_token : jsstring;
  inv_status : InvitationStatus;
  inv_tenantId : jsstring;
  inv_invitedBy : jsstring;
  inv_expiresAt : Z;
  inv_acceptedAt : option Z
}.

(** The relational store behind [prisma]. *)
Record Db := {
  tenants : list Tenant;
  users : list User;
  notes : list Note;
  invitations : list Invitation
}.

(** The claims of a verified token ([JWTUser], [UserContext]).  A field
    of the payload may be the empty string, which the handlers treat as
    missing. *)
Record UserContext := {
  userId : jsstring;
  email : jsstring;
  role : Role;
  tenantId : jsstring;
  tenantSlug : jsstring
}.

Definition nonEmpty (s : jsstring) : bool :=
  match s with [] => false | _ => true end.

(* ================================================================== *)
(** ** lib/api-response *)
(* ================================================================== *)

Record Response := {
  status : Z;
  body : value;
  headers : list (string * jsstring)
}.

(** [NextResponse.json(body, { status })] *)
Definition NextResponse_json (b : value) (st : Z) : Response :=
  {| status := st; body := b; headers := [] |}.

Definition createApiResponse (data : value) (message : option jsstring)
  (st : Z) : Response :=
  NextResponse_json
    (JObj ([("success", JBool true); ("data", data)]
           ++ match message with
              | Some m => [("message", JStr m)]
              | None => []
              end))
    st.

Definition createApiError (error : jsstring) (st : Z) : Response :=
  NextResponse_json
    (JObj [("success", JBool false); ("error", JStr error)]) st.

Definition createValidationError (message : jsstring) : Response :=
  createApiError message 400.

Definition createUnauthorizedError : Response :=
  createApiError "Unauthorized" 401.

Definition createForbiddenError : Response :=
  createApiError "Forbidden" 403.

Definition createNotFoundError (resource : jsstring) : Response :=
  createApiError (resource +++ " not found") 404.

Definition createInternalServerError : Response :=
  createApiError "Internal server error" 500.

(** [response.headers.set(k, v)] *)
Definition headers_set (k : string) (v : jsstring) (r : Response) : Response :=
  {| status := status r; body := body r;
     headers := List.filter (fun kv => negb (String.eqb (fst kv) k)) (headers r)
                ++ [(k, v)] |}.

(* ================================================================== *)
(** ** lib/authorization *)
(* ================================================================== *)

Inductive Permission :=
| CREATE_NOTE | READ_OWN_NOTES | READ_ALL_NOTES | UPDATE_OWN_NOTES
| UPDATE_ALL_NOTES | DELETE_OWN_NOTES | DELETE_ALL_NOTES
| INVITE_USERS | LIST_USERS | UPDATE_USER_ROLES | DELETE_USERS
| UPGRADE_SUBSCRIPTION | VIEW_TENANT_STATS | MANAGE_TENANT_SETTINGS.

Definition PERMISSIONS (p : Permission) : list Role :=
  match p with
  | CREATE_NOTE => [ADMIN; MEMBER]
  | READ_OWN_NOTES => [ADMIN; MEMBER]
  | READ_ALL_NOTES => [ADMIN]
  | UPDATE_OWN_NOTES => [ADMIN; MEMBER]
  | UPDATE_ALL_NOTES => [ADMIN]
  | DELETE_OWN_NOTES => [ADMIN; MEMBER]
  | DELETE_ALL_NOTES => [ADMIN]
  | INVITE_USERS => [ADMIN]
  | LIST_USERS => [ADMIN]
  | UPDATE_USER_ROLES => [ADMIN]
  | DELETE_USERS => [ADMIN]
  | UPGRADE_SUBSCRIPTION => [ADMIN]
  | VIEW_TENANT_STATS => [ADMIN]
  | MANAGE_TENANT_SETTINGS => [ADMIN]
  end.

Definition hasPermission (r : Role) (permission : Permission) : bool :=
  existsb (fun allowedRole => Role_eqb allowedRole r) (PERMISSIONS permission).

Definition canAccessResource (context : UserContext) (resourceUserId : jsstring)
  : bool :=
  if Role_eqb (role context) ADMIN then true
  else jseqb (userId context) resourceUserId.

(** [resourceOwnerId] is optional; an absent or empty owner id is falsy. *)
Definition canPerformAction (context : UserContext) (permission : Permission)
  (resourceOwnerId : option jsstring) : bool :=
  if negb (hasPermission (role context) permission) then false
  else match resourceOwnerId with
       | None | Some [] => true
       | Some owner =>
           if Role_eqb (role context) ADMIN then true
           else jseqb (userId context) owner
       end.

(* ================================================================== *)
(** ** lib/note-validation *)
(* ================================================================== *)

Record Validation (A : Type) := {
  isValid : bool;
  errors : list jsstring;
  data : option A
}.
Arguments isValid {A} _.
Arguments errors {A} _.
Arguments data {A} _.

Definition invalid {A} (errs : list jsstring) : Validation A :=
  {| isValid := false; errors := errs; data := None |}.

Definition valid {A} (d : A) : Validation A :=
  {| isValid := true; errors := []; data := Some d |}.

Record CreateNoteRequest := {
  cn_title : jsstring;
  cn_content : jsstring;
  cn_tags : list jsstring
}.

Record UpdateNoteRequest := {
  un_title : option jsstring;
  un_content : option jsstring;
  un_tags : option (list jsstring)
}.

(** The loop over the tags: the first offending tag ends it. *)
Fixpoint tagLoopErrors (tags : list value) : list jsstring :=
  match tags with
  | [] => []
  | JStr s :: rest =>
      if jslength s >? 50 then [lit "Each tag must be 50 characters or less"]
      else tagLoopErrors rest
  | _ :: _ => [lit "All tags must be strings"]
  end.

Definition tagsErrors (tags : option value) : list jsstring :=
  match tags with
  | None => []
  | Some (JArr l) =>
      (if Z.of_nat (List.length l) >? 10 then [lit "Maximum 10 tags allowed"] else [])
      ++ tagLoopErrors l
  | Some _ => [lit "Tags must be an array"]
  end.

(** [(requestData.tags as string[]).map(tag => tag.trim())], reached only
    when every tag is a string. *)
Definition trimTags (l : list value) : list jsstring :=
  List.map (fun t => match t with JStr s => trim s | _ => [] end) l.

Definition requiredStringErrors (field : string) (limitText : string)
  (maxLen : Z) (o : option value) : list jsstring :=
  match o with
  | Some (JStr (c :: s)) =>
      if jslength (trim (c :: s)) =? 0 then [lit field +++ lit " cannot be empty"]
      else if jslength (c :: s) >? maxLen
           then [lit field +++ lit " must be " +++ lit limitText +++ lit " characters or less"]
           else []
  | _ => [lit field +++ lit " is required and must be a string"]
  end.

Definition stringOf (o : option value) : jsstring :=
  match o with Some (JStr s) => s | _ => [] end.

Definition validateCreateNote (d : value) : Validation CreateNoteRequest :=
  if negb (truthy d) || negb (isObjectType d)
  then invalid [lit "Request body must be an object"]
  else
    let errs :=
      requiredStringErrors "Title" "200" 200 (prop d "title")
      ++ requiredStringErrors "Content" "10,000" 10000 (prop d "content")
      ++ tagsErrors (prop d "tags") in
    match errs with
    | _ :: _ => invalid errs
    | [] =>
        valid {| cn_title := trim (stringOf (prop d "title"));
                 cn_content := trim (stringOf (prop d "content"));
                 cn_tags := match prop d "tags" with
                            | Some (JArr l) => trimTags l
                            | _ => []
                            end |}
    end.

Definition optionalStringErrors (field : string) (limitText : string)
  (maxLen : Z) (o : option value) : list jsstring :=
  match o with
  | None => []
  | Some (JStr s) =>
      if jslength (trim s) =? 0 then [lit field +++ lit " cannot be empty"]
      else if jslength s >? maxLen
           then [lit field +++ lit " must be " +++ lit limitText +++ lit " characters or less"]
           else []
  | Some _ => [lit field +++ lit " must be a string"]
  end.

Definition validateUpdateNote (d : value) : Validation UpdateNoteRequest :=
  if negb (truthy d) || negb (isObjectType d)
  then invalid [lit "Request body must be an object"]
  else
    let errs :=
      (if negb (truthy_opt (prop d "title")) && negb (truthy_opt (prop d "content"))
          && negb (truthy_opt (prop d "tags"))
       then [lit "At least one field (title, content, or tags) must be provided for update"]
       else [])
      ++ optionalStringErrors "Title" "200" 200 (prop d "title")
      ++ optionalStringErrors "Content" "10,000" 10000 (prop d "content")
      ++ tagsErrors (prop d "tags") in
    match errs with
    | _ :: _ => invalid errs
    | [] =>
        valid {| un_title := option_map (fun v => trim (stringOf (Some v))) (prop d "title");
                 un_content := option_map (fun v => trim (stringOf (Some v))) (prop d "content");
                 un_tags := match prop d "tags" with
                            | Some (JArr l) => Some (trimTags l)
                            | _ => None
                            end |}
    end.

(** [/^c[a-z0-9]{24}$/i]: without the [u] flag the ignore-case match
    only folds the ASCII letters, so the class is the ASCII letters and
    digits and the first character is [c] or [C]. *)
Definition isAlnum (c : N) : bool :=
  ((48 <=? c) && (c <=? 57) || (65 <=? c) && (c <=? 90)
   || (97 <=? c) && (c <=? 122))%N.

Definition validateNoteId (id : jsstring) : bool :=
  match id with
  | c :: rest =>
      ((c =? 99) || (c =? 67))%N
      && Nat.eqb (List.length rest) 24
      && forallb isAlnum rest
  | [] => false
  end.

(** A Number that is an integer or an infinity, as [parseInt] returns
    them; [NaN] is [None] where it can occur, and [-0] is [Integer 0],
    from which no comparison and no JSON text tells it apart. *)
Inductive Number := Integer (z : Z) | PosInfinity | NegInfinity.

(** The double nearest to a natural number, ties to the even mantissa;
    [None] when the nearest value lies beyond the largest double. *)
Definition roundToDouble (n : Z) : option Z :=
  let bits := Z.log2 n + 1 in
  if bits <=? 53 then Some n
  else
    let shift := bits - 53 in
    let q := Z.shiftr n shift in
    let rest := n - Z.shiftl q shift in
    let half := Z.shiftl 1 (shift - 1) in
    let q' := if (half <? rest) || ((rest =? half) && Z.odd q)
              then q + 1 else q in
    let r := Z.shiftl q' shift in
    if Z.shiftl 1 1024 <=? r then None else Some r.

(** The Number value of a mathematical integer. *)
Definition toNumber (z : Z) : Number :=
  if z <? 0
  then match roundToDouble (- z) with
       | Some r => Integer (- r)
       | None => NegInfinity
       end
  else match roundToDouble z with
       | Some r => Integer r
       | None => PosInfinity
       end.

(** [a < b] *)
Definition Number_ltb (a b : Number) : bool :=
  match a, b with
  | Integer x, Integer y => x <? y
  | NegInfinity, NegInfinity => false
  | NegInfinity, _ => true
  | _, NegInfinity => false
  | PosInfinity, _ => false
  | Integer _, PosInfinity => true
  end.

(** [a - b] and [a * b]; [None] is [NaN]. *)
Definition Number_sub (a b : Number) : option Number :=
  match a, b with
  | Integer x, Integer y => Some (toNumber (x - y))
  | PosInfinity, PosInfinity | NegInfinity, NegInfinity => None
  | PosInfinity, _ | _, NegInfinity => Some PosInfinity
  | NegInfinity, _ | _, PosInfinity => Some NegInfinity
  end.

Definition Number_mul (a b : Number) : option Number :=
  let sign n := match n with
                | Integer z => Z.sgn z
                | PosInfinity => 1
                | NegInfinity => -1
                end in
  match a, b with
  | Integer x, Integer y => Some (toNumber (x * y))
  | _, _ =>
      match sign a * sign b with
      | 0 => None
      | Zpos _ => Some PosInfinity
      | Zneg _ => Some NegInfinity
      end
  end.

(** [parseInt(s)] with no radix: leading white space, a sign, an optional
    [0x] prefix, then the longest run of digits; [None] is [NaN].  The
    digits give a mathematical integer, and the result is its Number
    value. *)
Definition digitVal (radix : N) (c : N) : option N :=
  let d := (if (48 <=? c) && (c <=? 57) then Some (c - 48)
            else if (97 <=? c) && (c <=? 122) then Some (c - 87)
            else if (65 <=? c) && (c <=? 90) then Some (c - 55)
            else None)%N in
  match d with
  | Some v => if (v <? radix)%N then Some v else None
  | None => None
  end.

Fixpoint parseDigits (radix : N) (acc : option Z) (s : jsstring) : option Z :=
  match s with
  | c :: s' =>
      match digitVal radix c with
      | Some d =>
          parseDigits radix
            (Some (match acc with Some a => a | None => 0 end * Z.of_N radix
                   + Z.of_N d)) s'
      | None => acc
      end
  | [] => acc
  end.

Definition parseInt (s : jsstring) : option Number :=
  let s1 := trimStart s in
  let '(sign, s2) :=
    match s1 with
    | c :: r => if (c =? 45)%N then (-1, r)
                else if (c =? 43)%N then (1, r) else (1, s1)
    | [] => (1, s1)
    end in
  let '(radix, s3) :=
    match s2 with
    | c0 :: c1 :: r =>
        if ((c0 =? 48) && ((c1 =? 120) || (c1 =? 88)))%N then (16%N, r)
        else (10%N, s2)
    | _ => (10%N, s2)
    end in
  match parseDigits radix None s3 with
  | Some n => Some (toNumber (sign * n))
  | None => None
  end.

(** The query string after [Object.fromEntries(searchParams)]: every
    value present is a string. *)
Record NoteQueryParams := {
  q_page : option jsstring;
  q_limit : option jsstring;
  q_search : option jsstring;
  q_tags : option jsstring;
  q_sortBy : option jsstring;
  q_sortOrder : option jsstring
}.

Definition checkedField (o : option jsstring) (ok : jsstring -> bool)
  (msg : jsstring) : list jsstring * option jsstring :=
  match o with
  | None => ([], None)
  | Some s => if ok s then ([], Some s) else ([msg], None)
  end.

Definition validateNoteQueryParams (query : NoteQueryParams)
  : Validation NoteQueryParams :=
  let page := checkedField (q_page query)
    (fun s => match parseInt s with
              | Some p => negb (Number_ltb p (Integer 1))
              | None => false
              end)
    "Page must be a positive integer" in
  let limit := checkedField (q_limit query)
    (fun s => match parseInt s with
              | Some l => negb (Number_ltb l (Integer 1)
                               || Number_ltb (Integer 100) l)
              | None => false
              end)
    "Limit must be between 1 and 100" in
  let search := checkedField (q_search query)
    (fun s => negb (jslength s >? 200))
    "Search query must be 200 characters or less" in
  let tags := checkedField (q_tags query) (fun _ => true) [] in
  let sortBy := checkedField (q_sortBy query)
    (fun s => jseqb s "createdAt" || jseqb s "updatedAt" || jseqb s "title")
    "SortBy must be one of: createdAt, updatedAt, title" in
  let sortOrder := checkedField (q_sortOrder query)
    (fun s => jseqb s "asc" || jseqb s "desc")
    "SortOrder must be either asc or desc" in
  let errs := fst page ++ fst limit ++ fst search ++ fst tags
              ++ fst sortBy ++ fst sortOrder in
  match errs with
  | _ :: _ => invalid errs
  | [] => valid {| q_page := snd page; q_limit := snd limit;
                   q_search := snd search; q_tags := snd tags;
                   q_sortBy := snd sortBy; q_sortOrder := snd sortOrder |}
  end.

(* ================================================================== *)
(** ** Exceptions and the token *)
(* ================================================================== *)

(** The outcome of a call that may throw; an exception is its
    [message]. *)
Inductive Result (A : Type) :=
| Ok (a : A)
| Throw (message : jsstring).
Arguments Ok {A} a.
Arguments Throw {A} message.

Fixpoint isPrefix (p s : jsstring) : bool :=
  match p, s with
  | [], _ => true
  | x :: p', y :: s' => N.eqb x y && isPrefix p' s'
  | _ :: _, [] => false
  end.

(** [s.includes(needle)] *)
Fixpoint includes (s needle : jsstring) : bool :=
  isPrefix needle s
  || match s with
     | [] => false
     | _ :: s' => includes s' needle
     end.

(** What the [Authorization] header holds once [jwt.verify] has run. *)
Inductive Credentials :=
| NoToken
| BadToken
| Verified (user : UserContext).

(** lib/jwt *)
Definition extractUserFromToken (request : Credentials) : Result UserContext :=
  match request with
  | NoToken => Throw "Authentication token required"
  | BadToken => Throw "Invalid or expired token"
  | Verified user => Ok user
  end.

Definition getUserContextFromToken (request : Credentials) : Result UserContext :=
  match extractUserFromToken request with
  | Ok user => Ok {| userId := userId user; email := email user;
                     role := role user; tenantId := tenantId user;
                     tenantSlug := tenantSlug user |}
  | Throw m => Throw m
  end.

(** [!context.userId || !context.tenantId] *)
Definition missingIdentity (context : UserContext) : bool :=
  negb (nonEmpty (userId context)) || negb (nonEmpty (tenantId context)).

(* ================================================================== *)
(** ** The store's statements *)
(* ================================================================== *)

(** The store enforces its primary keys and foreign keys; a violated
    constraint throws, with the part of the message the handlers test. *)
Definition UniqueConstraintMessage : jsstring :=
  "Unique constraint failed on the fields".
Definition ForeignKeyMessage : jsstring :=
  "Foreign key constraint violated".
Definition UpdateNotFoundMessage : jsstring :=
  "Record to update not found".
Definition DeleteNotFoundMessage : jsstring :=
  "Record to delete does not exist".
Definition UnknownArgumentMessage : jsstring :=
  "Unknown argument `tags`".

Definition tenant_findUnique (db : Db) (id : jsstring) : option Tenant :=
  find (fun t => jseqb (tenant_id t) id) (tenants db).

Definition user_findById (db : Db) (id : jsstring) : option User :=
  find (fun u => jseqb (user_id u) id) (users db).

(** [prisma.user.findFirst({ where: { email, tenantId } })] *)
Definition user_findFirst (db : Db) (mail tid : jsstring) : option User :=
  find (fun u => jseqb (user_email u) mail && jseqb (user_tenantId u) tid)
       (users db).

(** [prisma.user.count({ where: { tenantId } })] *)
Definition user_count (db : Db) (tid : jsstring) : Z :=
  Z.of_nat (List.length
    (List.filter (fun u => jseqb (user_tenantId u) tid) (users db))).

(** [_count.notes] of a tenant. *)
Definition note_count (db : Db) (tid : jsstring) : Z :=
  Z.of_nat (List.length
    (List.filter (fun n => jseqb (note_tenantId n) tid) (notes db))).

(** [prisma.note.findFirst({ where: { id, tenantId } })] *)
Definition note_findFirst (db : Db) (id tid : jsstring) : option Note :=
  find (fun n => jseqb (note_id n) id && jseqb (note_tenantId n) tid)
       (notes db).

Definition set_notes (db : Db) (l : list Note) : Db :=
  {| tenants := tenants db; users := users db; notes := l;
     invitations := invitations db |}.

Definition set_users (db : Db) (l : list User) : Db :=
  {| tenants := tenants db; users := l; notes := notes db;
     invitations := invitations db |}.

Definition set_invitations (db : Db) (l : list Invitation) : Db :=
  {| tenants := tenants db; users := users db; notes := notes db;
     invitations := l |}.

(** [prisma.note.create]: the store supplies the id (a cuid) and the
    timestamps. *)
Definition note_create (db : Db) (newId : jsstring) (now : Z)
  (title content tid author : jsstring) : Result (Db * Note) :=
  if existsb (fun n => jseqb (note_id n) newId) (notes db)
  then Throw UniqueConstraintMessage
  else match tenant_findUnique db tid, user_findById db author with
       | Some _, Some _ =>
           let n := {| note_id := newId; note_title := title;
                       note_content := content; note_authorId := author;
                       note_tenantId := tid; note_createdAt := now;
                       note_updatedAt := now |} in
           Ok (set_notes db (notes db ++ [n]), n)
       | _, _ => Throw ForeignKeyMessage
       end.

Definition applyUpdate (d : UpdateNoteRequest) (now : Z) (n : Note) : Note :=
  {| note_id := note_id n;
     note_title := match un_title d with Some t => t | None => note_title n end;
     note_content := match un_content d with
                     | Some c => c
                     | None => note_content n
                     end;
     note_authorId := note_authorId n;
     note_tenantId := note_tenantId n;
     note_createdAt := note_createdAt n;
     note_updatedAt := now |}.

(** [prisma.note.update({ where: { id }, data })].  The note table has
    no [tags] column, so data carrying [tags] is refused by the client
    before any row is touched. *)
Definition note_update (db : Db) (id : jsstring) (d : UpdateNoteRequest)
  (now : Z) : Result (Db * Note) :=
  match un_tags d with
  | Some _ => Throw UnknownArgumentMessage
  | None =>
      match find (fun n => jseqb (note_id n) id) (notes db) with
      | None => Throw UpdateNotFoundMessage
      | Some n =>
          Ok (set_notes db
                (List.map (fun m => if jseqb (note_id m) id
                                    then applyUpdate d now m else m)
                          (notes db)),
              applyUpdate d now n)
      end
  end.

(** [prisma.note.delete({ where: { id } })] *)
Definition note_delete (db : Db) (id : jsstring) : Result Db :=
  if existsb (fun n => jseqb (note_id n) id) (notes db)
  then Ok (set_notes db
             (List.filter (fun n => negb (jseqb (note_id n) id)) (notes db)))
  else Throw DeleteNotFoundMessage.

(* ================================================================== *)
(** ** lib/subscription *)
(* ================================================================== *)

Record PlanLimits := {
  maxNotes : num;
  maxUsers : num;
  features : list (string * bool)
}.

Definition SUBSCRIPTION_LIMITS (p : Plan) : PlanLimits :=
  match p with
  | FREE => {| maxNotes := Fin 3; maxUsers := Fin 5;
               features := [("basicNotes", true); ("advancedEditor", false);
                            ("apiAccess", false); ("customIntegrations", false);
                            ("prioritySupport", false)] |}
  | PRO => {| maxNotes := Infinity; maxUsers := Infinity;
              features := [("basicNotes", true); ("advancedEditor", true);
                           ("apiAccess", true); ("customIntegrations", true);
                           ("prioritySupport", true)] |}
  end.

Definition canCreateNote (plan : Plan) (currentNoteCount : Z) : bool :=
  let limit := maxNotes (SUBSCRIPTION_LIMITS plan) in
  num_ltb (Fin currentNoteCount) limit.

Definition canInviteUser (plan : Plan) (currentUserCount : Z) : bool :=
  let limit := maxUsers (SUBSCRIPTION_LIMITS plan) in
  num_ltb (Fin currentUserCount) limit.

Definition remainingOf (limit : num) (count : Z) : num :=
  match limit with
  | Fin l => Fin (Z.max 0 (l - count))
  | Infinity => Infinity
  end.

Definition getRemainingNotes (plan : Plan) (currentNoteCount : Z) : num :=
  match plan with
  | PRO => Infinity
  | FREE => remainingOf (maxNotes (SUBSCRIPTION_LIMITS plan)) currentNoteCount
  end.

Definition getRemainingUsers (plan : Plan) (currentUserCount : Z) : num :=
  match plan with
  | PRO => Infinity
  | FREE => remainingOf (maxUsers (SUBSCRIPTION_LIMITS plan)) currentUserCount
  end.

Definition canUpgradePlan (currentPlan : Plan) : bool :=
  match currentPlan with FREE => true | PRO => false end.

Record SubscriptionStatus := {
  ss_plan : Plan;
  limits_maxNotes : num;
  limits_maxUsers : num;
  usage_currentNotes : Z;
  usage_currentUsers : Z;
  remaining_notes : num;
  remaining_users : num;
  ss_features : list (string * bool);
  canUpgrade : bool
}.

Definition getSubscriptionStatus (db : Db) (tid : jsstring)
  : Result SubscriptionStatus :=
  match tenant_findUnique db tid with
  | None => Throw "Tenant not found"
  | Some tenant =>
      let plan := tenant_plan tenant in
      let limits := SUBSCRIPTION_LIMITS plan in
      let currentNotes := note_count db (tenant_id tenant) in
      let currentUsers := user_count db (tenant_id tenant) in
      Ok {| ss_plan := plan;
            limits_maxNotes := maxNotes limits;
            limits_maxUsers := maxUsers limits;
            usage_currentNotes := currentNotes;
            usage_currentUsers := currentUsers;
            remaining_notes := getRemainingNotes plan currentNotes;
            remaining_users := getRemainingUsers plan currentUsers;
            ss_features := features limits;
            canUpgrade := canUpgradePlan plan |}
  end.

Record NoteLimitCheck := {
  canCreate : bool;
  reason : option jsstring;
  currentCount : Z;
  limit : num
}.

Definition checkNoteLimit (db : Db) (tid : jsstring) : Result NoteLimitCheck :=
  match getSubscriptionStatus db tid with
  | Throw m => Throw m
  | Ok st =>
      let can := canCreateNote (ss_plan st) (usage_currentNotes st) in
      Ok {| canCreate := can;
            reason := if can then None
                      else Some ("Note limit reached. Current plan allows "
                                 +++ num_toString (limits_maxNotes st)
                                 +++ " notes.");
            currentCount := usage_currentNotes st;
            limit := limits_maxNotes st |}
  end.

(** lib/subscription-middleware *)
Definition validateNoteCreation (db : Db) (tid : jsstring) : Result unit :=
  match checkNoteLimit db tid with
  | Throw m => Throw m
  | Ok limitCheck =>
      if negb (canCreate limitCheck)
      then Throw (match reason limitCheck with
                  | Some (c :: r) => c :: r
                  | _ => lit "Note creation limit reached. Upgrade to Pro plan for unlimited notes."
                  end)
      else Ok tt
  end.

(* ================================================================== *)
(** ** The notes routes *)
(* ================================================================== *)

(** [include: { author: { select: { id, email, role } } }] *)
Definition authorJson (db : Db) (n : Note) : value :=
  match user_findById db (note_authorId n) with
  | Some u => JObj [("id", JStr (user_id u)); ("email", JStr (user_email u));
                    ("role", JStr (Role_toString (user_role u)))]
  | None => JNull
  end.

Definition noteJson (db : Db) (n : Note) : value :=
  JObj [("id", JStr (note_id n)); ("title", JStr (note_title n));
        ("content", JStr (note_content n));
        ("createdAt", JDate (note_createdAt n));
        ("updatedAt", JDate (note_updatedAt n));
        ("author", authorJson db n)].

Definition subscriptionJson (st : SubscriptionStatus) : value :=
  JObj [("plan", JStr (Plan_toString (ss_plan st)));
        ("notesUsed", JNum (Fin (usage_currentNotes st)));
        ("notesLimit", JNum (limits_maxNotes st));
        ("notesRemaining", JNum (remaining_notes st))].

Definition addSubscriptionHeaders (st : SubscriptionStatus) (r : Response)
  : Response :=
  headers_set "X-Notes-Remaining"
    (match remaining_notes st with
     | Infinity => lit "unlimited"
     | n => num_toString n
     end)
    (headers_set "X-Notes-Limit" (num_toString (limits_maxNotes st))
       (headers_set "X-Notes-Used" (Z_toString (usage_currentNotes st))
          (headers_set "X-Subscription-Plan" (Plan_toString (ss_plan st)) r))).

(** [try { ... } catch (error) { ... }] around a handler whose body ends
    in the store [db'] with a response or an exception. *)
Definition tryCatch (body : Db * Result Response)
  (handler : jsstring -> Response) : Db * Response :=
  match body with
  | (db', Ok r) => (db', r)
  | (db', Throw m) => (db', handler m)
  end.

(** GET /api/notes/[id] *)
Definition GET_note (db : Db) (request : Credentials) (id : jsstring)
  : Response :=
  match getUserContextFromToken request with
  | Throw _ => createApiError "Failed to retrieve note" 500
  | Ok context =>
      if missingIdentity context
      then createApiError "Authentication required" 401
      else if negb (validateNoteId id)
      then createValidationError "Invalid note ID format"
      else match note_findFirst db id (tenantId context) with
           | None => createNotFoundError "Note"
           | Some note =>
               createApiResponse (JObj [("note", noteJson db note)])
                 (Some (lit "Note retrieved successfully")) 200
           end
  end.

(** PUT /api/notes/[id]; [requestBody] is [None] when the body is not
    JSON. *)
Definition PUT_note_body (db : Db) (request : Credentials) (id : jsstring)
  (requestBody : option value) (now : Z) : Db * Result Response :=
  match getUserContextFromToken request with
  | Throw m => (db, Throw m)
  | Ok context =>
      if missingIdentity context
      then (db, Ok (createApiError "Authentication required" 401))
      else if negb (validateNoteId id)
      then (db, Ok (createValidationError "Invalid note ID format"))
      else
        match requestBody with
        | None => (db, Ok (createValidationError "Invalid JSON in request body"))
        | Some rb =>
            let validation := validateUpdateNote rb in
            if negb (isValid validation)
            then (db, Ok (createValidationError
                            ("Validation failed: "
                             +++ join ", " (errors validation))))
            else
              match note_findFirst db id (tenantId context) with
              | None => (db, Ok (createNotFoundError "Note"))
              | Some existingNote =>
                  if negb (jseqb (note_authorId existingNote) (userId context))
                     && negb (Role_eqb (role context) ADMIN)
                  then (db, Ok (createApiError
                                  "You can only edit your own notes" 403))
                  else
                    match data validation with
                    | None => (db, Throw "Cannot read properties of undefined")
                    | Some d =>
                        match note_update db id d now with
                        | Throw m => (db, Throw m)
                        | Ok (db1, updatedNote) =>
                            (db1, Ok (createApiResponse
                                        (JObj [("note", noteJson db1 updatedNote)])
                                        (Some (lit "Note updated successfully"))
                                        200))
                        end
                    end
              end
        end
  end.

Definition PUT_note (db : Db) (request : Credentials) (id : jsstring)
  (requestBody : option value) (now : Z) : Db * Response :=
  tryCatch (PUT_note_body db request id requestBody now)
    (fun message =>
       if includes message "Record to update not found"
       then createNotFoundError "Note"
       else createApiError "Failed to update note" 500).

(** DELETE /api/notes/[id] *)
Definition DELETE_note_body (db : Db) (request : Credentials) (id : jsstring)
  : Db * Result Response :=
  match getUserContextFromToken request with
  | Throw m => (db, Throw m)
  | Ok context =>
      if missingIdentity context
      then (db, Ok (createApiError "Authentication required" 401))
      else if negb (validateNoteId id)
      then (db, Ok (createValidationError "Invalid note ID format"))
      else
        match note_findFirst db id (tenantId context) with
        | None => (db, Ok (createNotFoundError "Note"))
        | Some existingNote =>
            if negb (jseqb (note_authorId existingNote) (userId context))
               && negb (Role_eqb (role context) ADMIN)
            then (db, Ok (createApiError
                            "You can only delete your own notes" 403))
            else
              match note_delete db id with
              | Throw m => (db, Throw m)
              | Ok db1 =>
                  match getSubscriptionStatus db1 (tenantId context) with
                  | Throw m => (db1, Throw m)
                  | Ok subscriptionStatus =>
                      (db1, Ok (addSubscriptionHeaders subscriptionStatus
                        (createApiResponse
                           (JObj [("deletedNote",
                                   JObj [("id", JStr (note_id existingNote));
                                         ("title", JStr (note_title existingNote));
                                         ("author", authorJson db existingNote)]);
                                  ("subscription",
                                   subscriptionJson subscriptionStatus)])
                           (Some (lit "Note deleted successfully")) 200)))
                  end
              end
        end
  end.

Definition DELETE_note (db : Db) (request : Credentials) (id : jsstring)
  : Db * Response :=
  tryCatch (DELETE_note_body db request id)
    (fun message =>
       if includes message "Record to delete does not exist"
       then createNotFoundError "Note"
       else createApiError "Failed to delete note" 500).

(** POST /api/notes; [newId] and [now] are the id and the clock reading
    the store gives the new row. *)
Definition POST_notes_body (db : Db) (request : Credentials)
  (requestBody : option value) (newId : jsstring) (now : Z)
  : Db * Result Response :=
  match getUserContextFromToken request with
  | Throw m => (db, Throw m)
  | Ok context =>
      if missingIdentity context
      then (db, Ok (createApiError "Authentication required" 401))
      else
        match requestBody with
        | None => (db, Ok (createValidationError "Invalid JSON in request body"))
        | Some rb =>
            let validation := validateCreateNote rb in
            if negb (isValid validation)
            then (db, Ok (createValidationError
                            ("Validation failed: "
                             +++ join ", " (errors validation))))
            else
              match data validation with
              | None => (db, Throw "Cannot destructure property of undefined")
              | Some d =>
                  match validateNoteCreation db (tenantId context) with
                  | Throw m => (db, Ok (createApiError m 403))
                  | Ok _ =>
                      match note_create db newId now (cn_title d) (cn_content d)
                              (tenantId context) (userId context) with
                      | Throw m => (db, Throw m)
                      | Ok (db1, note) =>
                          match getSubscriptionStatus db1 (tenantId context) with
                          | Throw m => (db1, Throw m)
                          | Ok subscriptionStatus =>
                              (db1, Ok (addSubscriptionHeaders subscriptionStatus
                                (createApiResponse
                                   (JObj [("note", noteJson db1 note);
                                          ("subscription",
                                           subscriptionJson subscriptionStatus)])
                                   (Some (lit "Note created successfully")) 201)))
                          end
                      end
                  end
              end
        end
  end.

Definition POST_notes (db : Db) (request : Credentials)
  (requestBody : option value) (newId : jsstring) (now : Z) : Db * Response :=
  tryCatch (POST_notes_body db request requestBody newId now)
    (fun message =>
       if includes message "Unique constraint"
       then createApiError "A note with this title already exists" 409
       else if includes message "Foreign key constraint"
       then createApiError "Invalid tenant or user reference" 400
       else createApiError "Failed to create note" 500).

(** GET /api/notes.  Three things are the store's own and stay abstract:
    its case-insensitive substring match, its collation of titles and
    the largest [skip] it accepts. *)
Section NotesList.

Variable icontains : jsstring -> jsstring -> bool.
Variable title_le : jsstring -> jsstring -> bool.
Variable maxSkip : Z.

(** The [where] clause: the tenant, and the search over title and
    content when a non-empty search string is given. *)
Definition noteWhere (tid : jsstring) (search : option jsstring) (n : Note)
  : bool :=
  jseqb (note_tenantId n) tid
  && match search with
     | Some (c :: s) =>
         icontains (note_title n) (c :: s) || icontains (note_content n) (c :: s)
     | _ => true
     end.

Inductive SortField := ByCreatedAt | ByUpdatedAt | ByTitle.

Definition sortField (sortBy : jsstring) : option SortField :=
  if jseqb sortBy "createdAt" then Some ByCreatedAt
  else if jseqb sortBy "updatedAt" then Some ByUpdatedAt
  else if jseqb sortBy "title" then Some ByTitle
  else None.

Definition note_le (f : SortField) (desc : bool) (a b : Note) : bool :=
  let le x y :=
    match f with
    | ByCreatedAt => note_createdAt x <=? note_createdAt y
    | ByUpdatedAt => note_updatedAt x <=? note_updatedAt y
    | ByTitle => title_le (note_title x) (note_title y)
    end in
  if desc then le b a else le a b.

Fixpoint insertBy (le : Note -> Note -> bool) (x : Note) (l : list Note)
  : list Note :=
  match l with
  | [] => [x]
  | y :: l' => if le x y then x :: l else y :: insertBy le x l'
  end.

(** [ORDER BY]; rows that compare equal keep their table order. *)
Definition sortBy (le : Note -> Note -> bool) (l : list Note) : list Note :=
  fold_right (insertBy le) [] l.

(** [prisma.note.findMany({ where, orderBy, skip, take })]; the client
    refuses a [skip] or [take] that is [NaN] or an infinity, and a [skip]
    beyond the largest it can pass on. *)
Definition note_findMany (db : Db) (whereClause : Note -> bool)
  (orderBy : SortField) (desc : bool) (skip : option Number) (take : Number)
  : Result (list Note) :=
  match skip, take with
  | Some (Integer skip), Integer take =>
      if skip >? maxSkip then Throw "Unable to fit integer value into skip"
      else Ok (firstn (Z.to_nat take)
                 (skipn (Z.to_nat skip)
                    (sortBy (note_le orderBy desc)
                       (List.filter whereClause (notes db)))))
  | _, _ => Throw "Invalid value provided for the query"
  end.

(** A Number as a field of a body.  [-Infinity] has no place among the
    [num] of the bodies and is given as the [null] that JSON writes for
    it; no page or limit that passed the validation is negative. *)
Definition Number_json (n : Number) : value :=
  match n with
  | Integer z => JNum (Fin z)
  | PosInfinity => JNum Infinity
  | NegInfinity => JNull
  end.

Definition orDefault (o : option jsstring) (d : jsstring) : jsstring :=
  match o with Some s => s | None => d end.

Definition GET_notes_body (db : Db) (request : Credentials)
  (query : NoteQueryParams) : Result Response :=
  match getUserContextFromToken request with
  | Throw m => Throw m
  | Ok context =>
      if missingIdentity context
      then Ok (createApiError "Authentication required" 401)
      else
        let queryValidation := validateNoteQueryParams query in
        if negb (isValid queryValidation)
        then Ok (createValidationError
                   ("Query validation failed: "
                    +++ join ", " (errors queryValidation)))
        else
          let q := match data queryValidation with
                   | Some q => q
                   | None => {| q_page := None; q_limit := None;
                                q_search := None; q_tags := None;
                                q_sortBy := None; q_sortOrder := None |}
                   end in
          let page := orDefault (q_page q) "1" in
          let limitStr := orDefault (q_limit q) "10" in
          let search := q_search q in
          let sortByStr := orDefault (q_sortBy q) "createdAt" in
          let sortOrder := orDefault (q_sortOrder q) "desc" in
          match parseInt page, parseInt limitStr, sortField sortByStr with
          | Some pageNum, Some limitNum, Some orderBy =>
              let skip := match Number_sub pageNum (Integer 1) with
                          | Some before => Number_mul before limitNum
                          | None => None
                          end in
              let whereClause := noteWhere (tenantId context) search in
              match note_findMany db whereClause orderBy (jseqb sortOrder "desc")
                      skip limitNum with
              | Throw m => Throw m
              | Ok rows =>
                  let totalCount :=
                    Z.of_nat (List.length (List.filter whereClause (notes db))) in
                  (* Math.ceil(totalCount / limitNum); the query has
                     returned, so limitNum is an integer *)
                  let totalPages :=
                    match limitNum with
                    | Integer limitNum =>
                        (totalCount + limitNum - 1) / limitNum
                    | _ => 0
                    end in
                  let hasNextPage := Number_ltb pageNum (Integer totalPages) in
                  let hasPrevPage := Number_ltb (Integer 1) pageNum in
                  match getSubscriptionStatus db (tenantId context) with
                  | Throw m => Throw m
                  | Ok subscriptionStatus =>
                      Ok (addSubscriptionHeaders subscriptionStatus
                        (createApiResponse
                           (JObj [("notes", JArr (List.map (noteJson db) rows));
                                  ("pagination",
                                   JObj [("page", Number_json pageNum);
                                         ("limit", Number_json limitNum);
                                         ("totalCount", JNum (Fin totalCount));
                                         ("totalPages", JNum (Fin totalPages));
                                         ("hasNextPage", JBool hasNextPage);
                                         ("hasPrevPage", JBool hasPrevPage)]);
                                  ("subscription",
                                   subscriptionJson subscriptionStatus)])
                           (Some (lit "Notes retrieved successfully")) 200))
                  end
              end
          | _, _, _ => Throw "Invalid value provided for the query"
          end
  end.

Definition GET_notes (db : Db) (request : Credentials)
  (query : NoteQueryParams) : Response :=
  match GET_notes_body db request query with
  | Ok r => r
  | Throw _ => createApiError "Failed to retrieve notes" 500
  end.

End NotesList.

(* ================================================================== *)
(** ** The invitation routes *)
(* ================================================================== *)

(** A statement against the store: it ends in a store and a value or an
    exception.  Outside a transaction the writes made before an
    exception stay. *)
Definition Stmt (A : Type) := Db -> Db * Result A.

Definition ret {A} (a : A) : Stmt A := fun db => (db, Ok a).

Definition bind {A B} (s : Stmt A) (k : A -> Stmt B) : Stmt B :=
  fun db =>
    match s db with
    | (db1, Ok a) => k a db1
    | (db1, Throw m) => (db1, Throw m)
    end.

Notation "x <- s ;; k" := (bind s (fun x => k))
  (at level 61, s at next level, right associativity).

(** [prisma.$transaction(async tx => ...)]: the writes of the callback
    are committed together when it returns and all undone when it
    throws. *)
Definition transaction {A} (callback : Stmt A) : Stmt A :=
  fun db =>
    match callback db with
    | (db1, Ok a) => (db1, Ok a)
    | (_, Throw m) => (db, Throw m)
    end.

(** A statement the store fails to execute (lost connection, timeout). *)
Definition storeFailure {A} : Stmt A :=
  fun db => (db, Throw "Can't reach database server").

Definition invitation_findPending (db : Db) (mail tid : jsstring)
  : option Invitation :=
  find (fun i => jseqb (inv_email i) mail && jseqb (inv_tenantId i) tid
                 && isPENDING (inv_status i))
       (invitations db).

(** [prisma.invitation.findFirst({ where: { token, status: 'PENDING' } })] *)
Definition invitation_findByToken (db : Db) (token : jsstring)
  : option Invitation :=
  find (fun i => jseqb (inv_token i) token && isPENDING (inv_status i))
       (invitations db).

(** [prisma.invitation.count({ where: { tenantId, status: 'PENDING' } })] *)
Definition invitation_countPending (db : Db) (tid : jsstring) : Z :=
  Z.of_nat (List.length
    (List.filter (fun i => jseqb (inv_tenantId i) tid && isPENDING (inv_status i))
                 (invitations db))).

(** [prisma.invitation.create]: ids and tokens are unique, the tenant and
    the inviter must exist. *)
Definition invitation_create (i : Invitation) : Stmt Invitation :=
  fun db =>
    if existsb (fun j => jseqb (inv_id j) (inv_id i)
                         || jseqb (inv_token j) (inv_token i))
               (invitations db)
    then (db, Throw UniqueConstraintMessage)
    else match tenant_findUnique db (inv_tenantId i),
               user_findById db (inv_invitedBy i) with
         | Some _, Some _ =>
             (set_invitations db (invitations db ++ [i]), Ok i)
         | _, _ => (db, Throw ForeignKeyMessage)
         end.

(** The table after the row with the given id has been rewritten. *)
Definition markAll (id : jsstring) (f : Invitation -> Invitation)
  (l : list Invitation) : list Invitation :=
  List.map (fun j => if jseqb (inv_id j) id then f j else j) l.

(** [prisma.invitation.update({ where: { id }, data })] *)
Definition invitation_update (id : jsstring) (f : Invitation -> Invitation)
  : Stmt Invitation :=
  fun db =>
    match find (fun i => jseqb (inv_id i) id) (invitations db) with
    | None => (db, Throw UpdateNotFoundMessage)
    | Some i =>
        (set_invitations db (markAll id f (invitations db)), Ok (f i))
    end.

(** [prisma.user.create]: ids are unique, emails are unique within a
    tenant, the tenant must exist. *)
Definition user_create (u : User) : Stmt User :=
  fun db =>
    if existsb (fun v => jseqb (user_id v) (user_id u)
                         || jseqb (user_email v) (user_email u)
                            && jseqb (user_tenantId v) (user_tenantId u))
               (users db)
    then (db, Throw UniqueConstraintMessage)
    else match tenant_findUnique db (user_tenantId u) with
         | Some _ => (set_users db (users db ++ [u]), Ok u)
         | None => (db, Throw ForeignKeyMessage)
         end.

Definition setStatus (s : InvitationStatus) (acceptedAt : option Z)
  (i : Invitation) : Invitation :=
  {| inv_id := inv_id i; inv_email := inv_email i; inv_role := inv_role i;
     inv_token := inv_token i; inv_status := s;
     inv_tenantId := inv_tenantId i; inv_invitedBy := inv_invitedBy i;
     inv_expiresAt := inv_expiresAt i;
     inv_acceptedAt := match acceptedAt with
                       | Some t => Some t
                       | None => inv_acceptedAt i
                       end |}.

Definition errorJson (message : jsstring) : value :=
  JObj [("error", JStr message)].

Definition issueJson (issue : jsstring * jsstring) : value :=
  JObj [("field", JStr (fst issue)); ("message", JStr (snd issue))].

(** The two zod schemas.  Whether a body is accepted is modelled here;
    the pattern behind [z.string().email()] and the wording of the
    issues reported on a rejected body are zod's own and stay abstract. *)
Section Invitations.

Variable isEmail : jsstring -> bool.
Variable zodIssues : value -> list (jsstring * jsstring).

(** The time zone of the server: [LocalTZA t true] is the offset of local
    time from UTC, in milliseconds, at the UTC time [t], and
    [LocalTZA t false] the offset at the local time [t] (ECMAScript's
    LocalTZA(t, isUTC)).  It changes with daylight saving. *)
Variable LocalTZA : Z -> bool -> Z.

(** [z.object({ email, role }).strict()]: an object with no key besides
    the two. *)
Definition inviteRequestSchema (b : value) : option (jsstring * Role) :=
  match b with
  | JObj fields =>
      if forallb (fun kv => String.eqb (fst kv) "email"
                            || String.eqb (fst kv) "role") fields
      then match assoc "email" fields, assoc "role" fields with
           | Some (JStr e), Some (JStr r) =>
               if isEmail e
               then if jseqb r "ADMIN" then Some (e, ADMIN)
                    else if jseqb r "MEMBER" then Some (e, MEMBER)
                    else None
               else None
           | _, _ => None
           end
      else None
  | _ => None
  end.

(** [z.object({ token, password, confirmPassword }).refine(...)]; the
    result is the token and the password. *)
Definition acceptInvitationSchema (b : value) : option (jsstring * jsstring) :=
  match b with
  | JObj fields =>
      match assoc "token" fields, assoc "password" fields,
            assoc "confirmPassword" fields with
      | Some (JStr token), Some (JStr password), Some (JStr confirmPassword) =>
          if (1 <=? jslength token) && (8 <=? jslength password)
             && (1 <=? jslength confirmPassword)
             && jseqb password confirmPassword
          then Some (token, password)
          else None
      | _, _, _ => None
      end
  | _ => None
  end.

Definition invalidRequestData (b : value) : Response :=
  NextResponse_json
    (JObj [("error", JStr "Invalid request data");
           ("details", JArr (List.map issueJson (zodIssues b)))])
    400.

Definition generateInvitationLink (appUrl : option jsstring) (token : jsstring)
  : jsstring :=
  match appUrl with
  | Some (c :: u) => c :: u
  | _ => lit "http://localhost:3000"
  end +++ "/invite/accept?token=" +++ token.

(** The arithmetic of [Date] on time values, in milliseconds. *)
Definition msPerDay : Z := 86400000.
Definition Day (t : Z) : Z := t / msPerDay.
Definition TimeWithinDay (t : Z) : Z := t mod msPerDay.
Definition MakeDate (day time : Z) : Z := day * msPerDay + time.
Definition LocalTime (t : Z) : Z := t + LocalTZA t true.
Definition UTC (t : Z) : Z := t - LocalTZA t false.

(** [expiresAt.setDate(expiresAt.getDate() + 7)] on [new Date()], read
    at the time [now].  [setDate] works on the local time: it keeps the
    time within the day and replaces the day by the one that
    [MakeDay(year, month, getDate() + 7)] gives, which is the day of the
    local time plus 7 (a day of the month past the end of the month
    runs on into the next), and turns the result back into UTC.  The
    same wall-clock time a week later is 167 or 169 hours away when the
    clocks change in between.  [now] is the reading of the clock, far
    inside the range of [Date], where [TimeClip] changes nothing. *)
Definition getExpirationDate (now : Z) : Z :=
  let t := LocalTime now in
  let newDate := MakeDate (Day t + 7) (TimeWithinDay t) in
  UTC newDate.

(** POST /api/users/invite.  [token] is the random token drawn for the
    invitation, [newId] the id the store gives the row, [appUrl] the
    configured public address.  [getUserContextFromToken] returns an
    object or throws, so the route's [!userContext] branch is never
    taken; a missing token ends in the [catch]. *)
Definition POST_invite_body (db : Db) (request : Credentials)
  (requestBody : option value) (token newId : jsstring) (now : Z)
  (appUrl : option jsstring) : Db * Result Response :=
  match getUserContextFromToken request with
  | Throw m => (db, Throw m)
  | Ok userContext =>
      if negb (Role_eqb (role userContext) ADMIN)
      then (db, Ok (NextResponse_json
                      (errorJson "Admin access required. Only administrators can invite users.")
                      403))
      else
        match requestBody with
        | None => (db, Throw "Unexpected token in JSON")
        | Some b =>
            match inviteRequestSchema b with
            | None => (db, Ok (invalidRequestData b))
            | Some (mail, r) =>
                match user_findFirst db mail (tenantId userContext) with
                | Some _ =>
                    (db, Ok (NextResponse_json
                               (errorJson "User already exists in this organization")
                               409))
                | None =>
                    match invitation_findPending db mail (tenantId userContext) with
                    | Some _ =>
                        (db, Ok (NextResponse_json
                                   (errorJson "Invitation already sent to this email address")
                                   409))
                    | None =>
                        match tenant_findUnique db (tenantId userContext) with
                        | None =>
                            (db, Ok (NextResponse_json
                                       (errorJson "Tenant not found") 404))
                        | Some tenant =>
                            let currentUserCount :=
                              user_count db (tenantId userContext) in
                            let pendingInvitationCount :=
                              invitation_countPending db (tenantId userContext) in
                            let totalPotentialUsers :=
                              currentUserCount + pendingInvitationCount + 1 in
                            if match tenant_plan tenant with
                               | FREE => true
                               | PRO => false
                               end && (totalPotentialUsers >? 5)
                            then
                              (db, Ok (NextResponse_json
                                (JObj [("error", JStr "User limit exceeded");
                                       ("message", JStr "FREE plan allows up to 5 users. Upgrade to PRO for unlimited users.");
                                       ("currentUsers", JNum (Fin currentUserCount));
                                       ("pendingInvitations",
                                        JNum (Fin pendingInvitationCount));
                                       ("limit", JNum (Fin 5))])
                                403))
                            else
                              let expiresAt := getExpirationDate now in
                              match invitation_create
                                      {| inv_id := newId; inv_email := mail;
                                         inv_role := r; inv_token := token;
                                         inv_status := PENDING;
                                         inv_tenantId := tenantId userContext;
                                         inv_invitedBy := userId userContext;
                                         inv_expiresAt := expiresAt;
                                         inv_acceptedAt := None |} db with
                              | (db1, Throw m) => (db1, Throw m)
                              | (db1, Ok invitation) =>
                                  match tenant_findUnique db1 (inv_tenantId invitation),
                                        user_findById db1 (inv_invitedBy invitation) with
                                  | Some t, Some inviter =>
                                      (db1, Ok (NextResponse_json
                                        (JObj [("message", JStr "Invitation sent successfully");
                                               ("invitation",
                                                JObj [("id", JStr (inv_id invitation));
                                                      ("email", JStr (inv_email invitation));
                                                      ("role", JStr (Role_toString (inv_role invitation)));
                                                      ("status", JStr (InvitationStatus_toString (inv_status invitation)));
                                                      ("expiresAt", JDate (inv_expiresAt invitation));
                                                      ("tenantName", JStr (tenant_name t));
                                                      ("invitedBy", JStr (user_email inviter));
                                                      ("invitationToken", JStr token);
                                                      ("invitationLink",
                                                       JStr (generateInvitationLink appUrl token))])])
                                        201))
                                  | _, _ =>
                                      (db1, Throw "Cannot read properties of null")
                                  end
                              end
                        end
                    end
                end
            end
        end
  end.

Definition internalServerError : Response :=
  NextResponse_json (errorJson "Internal server error") 500.

Definition POST_invite (db : Db) (request : Credentials)
  (requestBody : option value) (token newId : jsstring) (now : Z)
  (appUrl : option jsstring) : Db * Response :=
  tryCatch (POST_invite_body db request requestBody token newId now appUrl)
    (fun _ => internalServerError).

(** The store failing on one of the two statements of the accept
    transaction. *)
Inductive StoreFault := NoFault | UserCreateFails | InvitationUpdateFails.

(** The callback of the accept transaction: create the user, then mark
    the invitation accepted. *)
Definition acceptTransaction (fault : StoreFault) (invitation : Invitation)
  (hashedPassword newUserId : jsstring) (now : Z) : Stmt User :=
  newUser <- match fault with
             | UserCreateFails => storeFailure
             | _ => user_create
                      {| user_id := newUserId;
                         user_email := inv_email invitation;
                         user_password := hashedPassword;
                         user_role := inv_role invitation;
                         user_tenantId := inv_tenantId invitation |}
             end ;;
  _ <- match fault with
       | InvitationUpdateFails => storeFailure
       | _ => invitation_update (inv_id invitation)
                (setStatus ACCEPTED (Some now))
       end ;;
  ret newUser.

(** POST /api/users/invite/accept.  [hash] stands for
    [bcrypt.hash(password, 12)], [newUserId] for the id the store gives
    the user row, [now] for [new Date()]. *)
Definition POST_accept_body (hash : jsstring -> jsstring) (fault : StoreFault)
  (db : Db) (requestBody : option value) (newUserId : jsstring) (now : Z)
  : Db * Result Response :=
  match requestBody with
  | None => (db, Throw "Unexpected token in JSON")
  | Some b =>
      match acceptInvitationSchema b with
      | None => (db, Ok (invalidRequestData b))
      | Some (token, password) =>
          match invitation_findByToken db token with
          | None =>
              (db, Ok (NextResponse_json
                         (errorJson "Invalid or expired invitation token") 404))
          | Some invitation =>
              if inv_expiresAt invitation <? now
              then
                match invitation_update (inv_id invitation)
                        (setStatus EXPIRED None) db with
                | (db1, Throw m) => (db1, Throw m)
                | (db1, Ok _) =>
                    (db1, Ok (NextResponse_json
                                (errorJson "Invitation has expired") 410))
                end
              else
                match user_findFirst db (inv_email invitation)
                        (inv_tenantId invitation) with
                | Some existingUser =>
                    match invitation_update (inv_id invitation)
                            (setStatus ACCEPTED (Some now)) db with
                    | (db1, Throw m) => (db1, Throw m)
                    | (db1, Ok _) =>
                        (db1, Ok (NextResponse_json
                                    (errorJson "User already exists in this organization")
                                    409))
                    end
                | None =>
                    match tenant_findUnique db (inv_tenantId invitation) with
                    | None => (db, Throw "Cannot read properties of null")
                    | Some tenant =>
                        let currentUserCount :=
                          user_count db (inv_tenantId invitation) in
                        if match tenant_plan tenant with
                           | FREE => true
                           | PRO => false
                           end && (5 <=? currentUserCount)
                        then
                          (db, Ok (NextResponse_json
                            (JObj [("error", JStr "User limit exceeded");
                                   ("message", JStr "This organization has reached its user limit. Please contact an administrator to upgrade the plan.");
                                   ("currentUsers", JNum (Fin currentUserCount));
                                   ("limit", JNum (Fin 5))])
                            403))
                        else
                          let hashedPassword := hash password in
                          match transaction
                                  (acceptTransaction fault invitation
                                     hashedPassword newUserId now) db with
                          | (db1, Throw m) => (db1, Throw m)
                          | (db1, Ok result) =>
                              (db1, Ok (NextResponse_json
                                (JObj [("message", JStr "Account created successfully");
                                       ("user",
                                        JObj [("id", JStr (user_id result));
                                              ("email", JStr (user_email result));
                                              ("role", JStr (Role_toString (user_role result)));
                                              ("tenantId", JStr (user_tenantId result));
                                              ("tenantName", JStr (tenant_name tenant));
                                              ("tenantSlug", JStr (tenant_slug tenant))])])
                                201))
                          end
                    end
                end
          end
      end
  end.

Definition POST_accept (hash : jsstring -> jsstring) (fault : StoreFault)
  (db : Db) (requestBody : option value) (newUserId : jsstring) (now : Z)
  : Db * Response :=
  tryCatch (POST_accept_body hash fault db requestBody newUserId now)
    (fun _ => internalServerError).

End Invitations.

(** GET /api/users/invite/accept?token=...: the invitation a token
    designates.  An expired invitation is set to EXPIRED here too. *)
Definition GET_accept_body (db : Db) (token : option jsstring) (now : Z)
  : Db * Result Response :=
  match token with
  | None | Some [] =>
      (db, Ok (NextResponse_json (errorJson "Token is required") 400))
  | Some token =>
      match invitation_findByToken db token with
      | None =>
          (db, Ok (NextResponse_json (errorJson "Invalid invitation token") 404))
      | Some invitation =>
          if inv_expiresAt invitation <? now
          then
            match invitation_update (inv_id invitation)
                    (setStatus EXPIRED None) db with
            | (db1, Throw m) => (db1, Throw m)
            | (db1, Ok _) =>
                (db1, Ok (NextResponse_json
                            (errorJson "Invitation has expired") 410))
            end
          else
            match user_findFirst db (inv_email invitation)
                    (inv_tenantId invitation) with
            | Some existingUser =>
                (db, Ok (NextResponse_json
                           (errorJson "User already exists in this organization")
                           409))
            | None =>
                match tenant_findUnique db (inv_tenantId invitation),
                      user_findById db (inv_invitedBy invitation) with
                | Some tenant, Some inviter =>
                    (db, Ok (NextResponse_json
                      (JObj [("invitation",
                              JObj [("email", JStr (inv_email invitation));
                                    ("role", JStr (Role_toString (inv_role invitation)));
                                    ("tenantName", JStr (tenant_name tenant));
                                    ("invitedBy", JStr (user_email inviter));
                                    ("expiresAt", JDate (inv_expiresAt invitation))])])
                      200))
                | _, _ => (db, Throw "Cannot read properties of null")
                end
            end
      end
  end.

Definition GET_accept (db : Db) (token : option jsstring) (now : Z)
  : Db * Response :=
  tryCatch (GET_accept_body db token now) (fun _ => internalServerError).

(* ================================================================== *)
(** ** lib/authorization: the checks that throw *)
(* ================================================================== *)

Definition Permission_toString (p : Permission) : jsstring :=
  match p with
  | CREATE_NOTE => lit "CREATE_NOTE"
  | READ_OWN_NOTES => lit "READ_OWN_NOTES"
  | READ_ALL_NOTES => lit "READ_ALL_NOTES"
  | UPDATE_OWN_NOTES => lit "UPDATE_OWN_NOTES"
  | UPDATE_ALL_NOTES => lit "UPDATE_ALL_NOTES"
  | DELETE_OWN_NOTES => lit "DELETE_OWN_NOTES"
  | DELETE_ALL_NOTES => lit "DELETE_ALL_NOTES"
  | INVITE_USERS => lit "INVITE_USERS"
  | LIST_USERS => lit "LIST_USERS"
  | UPDATE_USER_ROLES => lit "UPDATE_USER_ROLES"
  | DELETE_USERS => lit "DELETE_USERS"
  | UPGRADE_SUBSCRIPTION => lit "UPGRADE_SUBSCRIPTION"
  | VIEW_TENANT_STATS => lit "VIEW_TENANT_STATS"
  | MANAGE_TENANT_SETTINGS => lit "MANAGE_TENANT_SETTINGS"
  end.

Definition requireAdmin (context : UserContext) : Result unit :=
  if negb (Role_eqb (role context) ADMIN)
  then Throw "Admin role required for this action"
  else Ok tt.

Definition requireMemberOrAdmin (context : UserContext) : Result unit :=
  if negb (Role_eqb (role context) ADMIN)
     && negb (Role_eqb (role context) MEMBER)
  then Throw "Member or Admin role required for this action"
  else Ok tt.

Definition requireResourceAccess (context : UserContext)
  (resourceUserId : jsstring) : Result unit :=
  if negb (canAccessResource context resourceUserId)
  then Throw "Insufficient permissions to access this resource"
  else Ok tt.

Definition requirePermission (context : UserContext) (permission : Permission)
  : Result unit :=
  if negb (hasPermission (role context) permission)
  then Throw ("Permission '" +++ Permission_toString permission
              +++ "' required. Current role: "
              +++ Role_toString (role context))
  else Ok tt.

Definition requireAction (context : UserContext) (permission : Permission)
  (resourceOwnerId : option jsstring) : Result unit :=
  if negb (canPerformAction context permission resourceOwnerId)
  then Throw (match resourceOwnerId with
              | Some (c :: owner) =>
                  "Cannot perform '" +++ Permission_toString permission
                  +++ "' on resource owned by " +++ (c :: owner)
              | _ =>
                  "Permission '" +++ Permission_toString permission
                  +++ "' required"
              end)
  else Ok tt.

(** lib/tenant-context: the same two checks over the role as the header
    carries it, a string. *)
Record TenantContext := {
  tc_tenantId : jsstring;
  tc_tenantSlug : jsstring;
  tc_userId : jsstring;
  tc_userRole : jsstring
}.

Definition validateAdminRole (context : TenantContext) : Result unit :=
  if negb (jseqb (tc_userRole context) "ADMIN")
  then Throw "Admin role required"
  else Ok tt.

Definition validateUserAccess (context : TenantContext)
  (resourceUserId : jsstring) : Result unit :=
  if negb (jseqb (tc_userRole context) "ADMIN")
     && negb (jseqb (tc_userId context) resourceUserId)
  then Throw "Insufficient permissions to access resource"
  else Ok tt.

(* ================================================================== *)
(** ** The upgrade route *)
(* ================================================================== *)

(** [prisma.tenant.findUnique({ where: { slug } })] *)
Definition tenant_findBySlug (db : Db) (slug : jsstring) : option Tenant :=
  find (fun t => jseqb (tenant_slug t) slug) (tenants db).

Definition set_tenants (db : Db) (l : list Tenant) : Db :=
  {| tenants := l; users := users db; notes := notes db;
     invitations := invitations db |}.

Definition setPlan (p : Plan) (t : Tenant) : Tenant :=
  {| tenant_id := tenant_id t; tenant_slug := tenant_slug t;
     tenant_name := tenant_name t; tenant_plan := p |}.

(** [prisma.tenant.update({ where: { id }, data })] *)
Definition tenant_update (id : jsstring) (f : Tenant -> Tenant) : Stmt Tenant :=
  fun db =>
    match tenant_findUnique db id with
    | None => (db, Throw UpdateNotFoundMessage)
    | Some t =>
        (set_tenants db
           (List.map (fun u => if jseqb (tenant_id u) id then f u else u)
              (tenants db)),
         Ok (f t))
    end.

Definition getPlanDisplayName (plan : Plan) : jsstring :=
  match plan with FREE => lit "Free Plan" | PRO => lit "Pro Plan" end.

Record UpgradeResult := {
  ur_success : bool;
  oldPlan : Plan;
  newPlan : Plan;
  timestamp : Z;
  notesUnlocked : bool;
  usersUnlocked : bool;
  featuresUnlocked : list string
}.

(** [features[feature]] on one of the two feature tables; a key that is
    not there reads [undefined]. *)
Fixpoint featureOf (k : string) (l : list (string * bool)) : option bool :=
  match l with
  | [] => None
  | (k', b) :: rest => if String.eqb k k' then Some b else featureOf k rest
  end.

(** The features PRO switches on that FREE has off. *)
Definition newFeatures : list string :=
  List.map fst
    (List.filter
       (fun fe => snd fe
                  && negb (match featureOf (fst fe)
                                   (features (SUBSCRIPTION_LIMITS FREE)) with
                           | Some b => b
                           | None => false
                           end))
       (features (SUBSCRIPTION_LIMITS PRO))).

(** lib/subscription [upgradeTenant]; [now] is [new Date()]. *)
Definition upgradeTenant (tenantId : jsstring) (now : Z) : Stmt UpgradeResult :=
  fun db =>
    match tenant_findUnique db tenantId with
    | None => (db, Throw "Tenant not found")
    | Some tenant =>
        let old := tenant_plan tenant in
        match old with
        | PRO => (db, Throw "Tenant is already on PRO plan")
        | FREE =>
            match tenant_update tenantId (setPlan PRO) db with
            | (db1, Throw m) => (db1, Throw m)
            | (db1, Ok updatedTenant) =>
                (db1,
                 Ok {| ur_success := true;
                       oldPlan := old;
                       newPlan := tenant_plan updatedTenant;
                       timestamp := now;
                       notesUnlocked :=
                         num_ltb (maxNotes (SUBSCRIPTION_LIMITS FREE))
                           (maxNotes (SUBSCRIPTION_LIMITS PRO));
                       usersUnlocked :=
                         num_ltb (maxUsers (SUBSCRIPTION_LIMITS FREE))
                           (maxUsers (SUBSCRIPTION_LIMITS PRO));
                       featuresUnlocked := newFeatures |})
            end
        end
    end.

Definition planLimit (plan : Plan) (n : Z) : value :=
  match plan with FREE => JNum (Fin n) | PRO => JNum Infinity end.

Definition unlimitedJson : value :=
  JObj [("notes", JStr "unlimited"); ("users", JStr "unlimited")].

(** [tenant._count]: the rows of the two tables that point at the
    tenant. *)
Definition currentUsageJson (db : Db) (tenant : Tenant) : value :=
  JObj [("notes", JNum (Fin (note_count db (tenant_id tenant))));
        ("users", JNum (Fin (user_count db (tenant_id tenant))))].

(** POST /api/tenants/[slug]/upgrade.  The timestamp of the answer is
    the ISO string of [JDate], as a date is once in JSON. *)
Definition POST_upgrade_body (db : Db) (request : Credentials)
  (slug : jsstring) (now : Z) : Db * Result Response :=
  match getUserContextFromToken request with
  | Throw m => (db, Throw m)
  | Ok context =>
      match requirePermission context UPGRADE_SUBSCRIPTION with
      | Throw _ => (db, Ok createForbiddenError)
      | Ok _ =>
          match tenant_findBySlug db slug with
          | None => (db, Ok (createApiError "Tenant not found" 404))
          | Some tenant =>
              if negb (jseqb (tenant_id tenant) (tenantId context))
              then (db, Ok createForbiddenError)
              else
                match upgradeTenant (tenant_id tenant) now db with
                | (db1, Ok upgradeResult) =>
                    (db1,
                     Ok (createApiResponse
                       (JObj
                          [("message",
                            JStr "Tenant successfully upgraded to PRO plan");
                           ("tenant",
                            JObj [("id", JStr (tenant_id tenant));
                                  ("slug", JStr (tenant_slug tenant));
                                  ("name", JStr (tenant_name tenant));
                                  ("plan",
                                   JStr (Plan_toString (newPlan upgradeResult)))]);
                           ("upgrade",
                            JObj [("from",
                                   JStr (Plan_toString (oldPlan upgradeResult)));
                                  ("to",
                                   JStr (Plan_toString (newPlan upgradeResult)));
                                  ("timestamp", JDate (timestamp upgradeResult));
                                  ("upgradedBy",
                                   JObj [("userId", JStr (userId context));
                                         ("email", JStr (email context))]);
                                  ("benefits",
                                   JObj [("notesUnlocked",
                                          JBool (notesUnlocked upgradeResult));
                                         ("usersUnlocked",
                                          JBool (usersUnlocked upgradeResult));
                                         ("featuresUnlocked",
                                          JArr (List.map
                                                  (fun f => JStr (lit f))
                                                  (featuresUnlocked
                                                     upgradeResult)))])]);
                           ("limits",
                            JObj [("before",
                                   JObj [("notes",
                                          planLimit (oldPlan upgradeResult) 3);
                                         ("users",
                                          planLimit (oldPlan upgradeResult) 5)]);
                                  ("after", unlimitedJson)]);
                           ("currentUsage", currentUsageJson db tenant)])
                       (Some (lit "Upgrade completed successfully")) 200))
                | (db1, Throw m) =>
                    (db1,
                     Ok (if includes m "already on PRO plan"
                         then createApiError "Tenant is already on PRO plan" 400
                         else createApiError m 400))
                end
          end
      end
  end.

Definition POST_upgrade (db : Db) (request : Credentials) (slug : jsstring)
  (now : Z) : Db * Response :=
  tryCatch (POST_upgrade_body db request slug now)
    (fun message =>
       if includes message "Missing user context"
       then createApiError "Authentication required" 401
       else createApiError "Internal server error during upgrade" 500).

(** GET /api/tenants/[slug]/upgrade: the eligibility of the tenant. *)
Definition GET_upgrade_body (db : Db) (request : Credentials) (slug : jsstring)
  : Result Response :=
  match getUserContextFromToken request with
  | Throw m => Throw m
  | Ok context =>
      match tenant_findBySlug db slug with
      | None => Ok (createApiError "Tenant not found" 404)
      | Some tenant =>
          if negb (jseqb (tenant_id tenant) (tenantId context))
          then Ok createForbiddenError
          else
            let tenantPlan := tenant_plan tenant in
            let canUpgrade := canUpgradePlan tenantPlan in
            Ok (createApiResponse
              (JObj
                 [("tenant",
                   JObj [("id", JStr (tenant_id tenant));
                         ("slug", JStr (tenant_slug tenant));
                         ("name", JStr (tenant_name tenant));
                         ("plan", JStr (Plan_toString (tenant_plan tenant)));
                         ("planDisplayName",
                          JStr (getPlanDisplayName tenantPlan))]);
                  ("upgrade",
                   JObj ([("eligible", JBool canUpgrade);
                          ("currentPlan",
                           JStr (Plan_toString (tenant_plan tenant)));
                          ("targetPlan",
                           JStr (if canUpgrade then lit "PRO"
                                 else Plan_toString (tenant_plan tenant)))]
                         ++ (if canUpgrade then []
                             else [("reason",
                                    JStr "Tenant is already on the highest plan")])));
                  ("currentUsage", currentUsageJson db tenant);
                  ("limits",
                   JObj [("current",
                          JObj [("notes",
                                 match tenant_plan tenant with
                                 | FREE => JNum (Fin 3)
                                 | PRO => JStr "unlimited"
                                 end);
                                ("users",
                                 match tenant_plan tenant with
                                 | FREE => JNum (Fin 5)
                                 | PRO => JStr "unlimited"
                                 end)]);
                         ("afterUpgrade", unlimitedJson)])])
              None 200)
      end
  end.

Definition GET_upgrade (db : Db) (request : Credentials) (slug : jsstring)
  : Response :=
  match GET_upgrade_body db request slug with
  | Ok r => r
  | Throw _ => createApiError "Failed to check upgrade eligibility" 500
  end.

(* ================================================================== *)
(** ** lib/subscription: the user limit; lib/subscription-middleware *)
(* ================================================================== *)

Record UserLimitCheck := {
  canInvite : bool;
  ul_reason : option jsstring;
  ul_currentCount : Z;
  ul_limit : num
}.

Definition checkUserLimit (db : Db) (tid : jsstring) : Result UserLimitCheck :=
  match getSubscriptionStatus db tid with
  | Throw m => Throw m
  | Ok st =>
      let can := canInviteUser (ss_plan st) (usage_currentUsers st) in
      Ok {| canInvite := can;
            ul_reason := if can then None
                         else Some ("User limit reached. Current plan allows "
                                    +++ num_toString (limits_maxUsers st)
                                    +++ " users.");
            ul_currentCount := usage_currentUsers st;
            ul_limit := limits_maxUsers st |}
  end.

Module SubscriptionMiddleware.

Record SubscriptionContext := {
  sc_tenantId : jsstring;
  sc_plan : Plan;
  sc_noteCount : Z;
  sc_canCreateNote : bool;
  sc_isProPlan : bool
}.

Inductive Action := CREATE_NOTE | BULK_IMPORT | ADVANCED_FEATURES.

Definition isPRO (p : Plan) : bool :=
  match p with PRO => true | FREE => false end.

(** The context both functions of the middleware build from the status:
    [plan === Plan.PRO || remaining.notes > 0]. *)
Definition contextOfStatus (tid : jsstring) (st : SubscriptionStatus)
  : SubscriptionContext :=
  {| sc_tenantId := tid;
     sc_plan := ss_plan st;
     sc_noteCount := usage_currentNotes st;
     sc_canCreateNote :=
       isPRO (ss_plan st) || num_ltb (Fin 0) (remaining_notes st);
     sc_isProPlan := isPRO (ss_plan st) |}.

Definition requireSubscriptionAccess (db : Db) (tid : jsstring) (action : Action)
  : Result SubscriptionContext :=
  let attempt :=
    match getSubscriptionStatus db tid with
    | Throw m => Throw m
    | Ok subscriptionStatus =>
        let c := contextOfStatus tid subscriptionStatus in
        match action with
        | CREATE_NOTE =>
            if negb (sc_canCreateNote c)
            then Throw "Note limit reached. Free plan allows maximum 3 notes. Upgrade to Pro for unlimited notes."
            else Ok c
        | BULK_IMPORT =>
            if negb (isPRO (sc_plan c))
            then Throw "Bulk import is only available for Pro plan subscribers"
            else Ok c
        | ADVANCED_FEATURES =>
            if negb (isPRO (sc_plan c))
            then Throw "Advanced features are only available for Pro plan subscribers"
            else Ok c
        end
    end in
  match attempt with
  | Ok c => Ok c
  | Throw m => Throw ("Subscription access denied: " +++ m)
  end.

Definition getSubscriptionContext (db : Db) (tid : jsstring)
  : Result SubscriptionContext :=
  match getSubscriptionStatus db tid with
  | Throw m => Throw m
  | Ok subscriptionStatus => Ok (contextOfStatus tid subscriptionStatus)
  end.

End SubscriptionMiddleware.

(* ================================================================== *)
(** ** lib/tenant-repository *)
(* ================================================================== *)

Module TenantAwareRepository.
Section Repository.

(** [this.tenantId] *)
Variable this_tenantId : jsstring.

Definition findUserById (db : Db) (userId : jsstring) : option User :=
  find (fun u => jseqb (user_id u) userId
                 && jseqb (user_tenantId u) this_tenantId)
       (users db).

Definition findNoteById (db : Db) (noteId : jsstring) : option Note :=
  note_findFirst db noteId this_tenantId.

Definition createNote (db : Db) (title content authorId newId : jsstring)
  (now : Z) : Result (Db * Note) :=
  match findUserById db authorId with
  | None => Throw "Author not found or does not belong to tenant"
  | Some _ => note_create db newId now title content this_tenantId authorId
  end.

Definition ownRow (noteId : jsstring) (n : Note) : bool :=
  jseqb (note_id n) noteId && jseqb (note_tenantId n) this_tenantId.

(** [prisma.note.update({ where: { id, tenantId }, data })] *)
Definition updateNote (db : Db) (noteId : jsstring)
  (title content : option jsstring) (now : Z) : Result (Db * Note) :=
  let d := {| un_title := title; un_content := content; un_tags := None |} in
  match find (ownRow noteId) (notes db) with
  | None => Throw UpdateNotFoundMessage
  | Some n =>
      Ok (set_notes db
            (List.map (fun m => if ownRow noteId m then applyUpdate d now m
                                else m)
               (notes db)),
          applyUpdate d now n)
  end.

(** [prisma.note.delete({ where: { id, tenantId } })] *)
Definition deleteNote (db : Db) (noteId : jsstring) : Result (Db * Note) :=
  match find (ownRow noteId) (notes db) with
  | None => Throw DeleteNotFoundMessage
  | Some n =>
      Ok (set_notes db
            (List.filter (fun m => negb (ownRow noteId m)) (notes db)),
          n)
  end.

(** [countNotes(authorId?)]: a non-empty author id narrows the count. *)
Definition countNotes (db : Db) (authorId : option jsstring) : Z :=
  Z.of_nat (List.length
    (List.filter
       (fun n => jseqb (note_tenantId n) this_tenantId
                 && match authorId with
                    | Some (c :: a) => jseqb (note_authorId n) (c :: a)
                    | _ => true
                    end)
       (notes db))).

Definition getTenant (db : Db) : option Tenant :=
  tenant_findUnique db this_tenantId.

Definition canCreateNote (db : Db) : Result bool :=
  match getTenant db with
  | None => Throw "Tenant not found"
  | Some tenant =>
      match tenant_plan tenant with
      | PRO => Ok true
      | FREE => Ok (countNotes db None <? 3)
      end
  end.

Definition getRemainingNotes (db : Db) : Result num :=
  match getTenant db with
  | None => Throw "Tenant not found"
  | Some tenant =>
      match tenant_plan tenant with
      | PRO => Ok Infinity
      | FREE => Ok (Fin (Z.max 0 (3 - countNotes db None)))
      end
  end.

End Repository.
End TenantAwareRepository.

(* ================================================================== *)
(** ** lib/auth and the login route *)
(* ================================================================== *)

(** The pieces of the route's regular expression, as the remainders each
    can leave of a string: one or more units of a class, and one given
    unit. *)
Fixpoint many1 (p : N -> bool) (s : jsstring) : list jsstring :=
  match s with
  | c :: r => if p c then r :: many1 p r else []
  | [] => []
  end.

Definition oneChar (c : N) (s : jsstring) : list jsstring :=
  match s with
  | c' :: r => if (c' =? c)%N then [r] else []
  | [] => []
  end.

(** [[^\s@]] *)
Definition notSpaceOrAt (c : N) : bool :=
  negb (isWhiteSpace c) && negb (c =? 64)%N.

(** [/^[^\s@]+@[^\s@]+\.[^\s@]+$/.test(s)] *)
Definition emailRegex_test (s : jsstring) : bool :=
  existsb (fun r => match r with [] => true | _ => false end)
    (flat_map (many1 notSpaceOrAt)
       (flat_map (oneChar 46)
          (flat_map (many1 notSpaceOrAt)
             (flat_map (oneChar 64) (many1 notSpaceOrAt s))))).

(** [prisma.user.findFirst({ where: { email } })]: the first row with
    the address, whatever its tenant. *)
Definition user_findByEmail (db : Db) (mail : jsstring) : option User :=
  find (fun u => jseqb (user_email u) mail) (users db).

Record AuthenticatedUser := {
  au_user : User;
  au_tenant : Tenant;
  au_token : jsstring
}.

Section Login.

(** [bcrypt.compare(password, hash)], [jwt.sign(payload, secret, ...)] at
    a given time, and [process.env.JWT_SECRET]. *)
Variable compare : jsstring -> jsstring -> bool.
Variable sign : UserContext -> jsstring -> Z -> jsstring.
Variable JWT_SECRET : option jsstring.

Definition getJWTSecret : Result jsstring :=
  match JWT_SECRET with
  | Some (c :: s) => Ok (c :: s)
  | _ => Throw "JWT_SECRET environment variable is not set"
  end.

Definition generateJWT (payload : UserContext) (now : Z) : Result jsstring :=
  match getJWTSecret with
  | Ok secret => Ok (sign payload secret now)
  | Throw m => Throw m
  end.

(** [authenticateUser]; every exception inside ends in [null]. *)
Definition authenticateUser (db : Db) (mail password : jsstring) (now : Z)
  : option AuthenticatedUser :=
  match user_findByEmail db mail with
  | None => None
  | Some user =>
      if negb (compare password (user_password user)) then None
      else
        match tenant_findUnique db (user_tenantId user) with
        | None => None
        | Some tenant =>
            let jwtPayload :=
              {| userId := user_id user; email := user_email user;
                 role := user_role user; tenantId := user_tenantId user;
                 tenantSlug := tenant_slug tenant |} in
            match generateJWT jwtPayload now with
            | Throw _ => None
            | Ok token =>
                Some {| au_user := user; au_tenant := tenant;
                        au_token := token |}
            end
        end
  end.

(** POST /api/auth/login; [None] is a body that is not JSON. *)
Definition POST_login (db : Db) (requestBody : option value) (now : Z)
  : Response :=
  match requestBody with
  | None => createValidationError "Invalid JSON in request body"
  | Some JNull => createApiError "Internal server error during login" 500
  | Some b =>
      let mail := prop b "email" in
      let password := prop b "password" in
      if negb (truthy_opt mail) || negb (truthy_opt password)
      then createValidationError "Email and password are required"
      else
        match mail, password with
        | Some (JStr mail), Some (JStr password) =>
            if negb (emailRegex_test mail)
            then createValidationError "Invalid email format"
            else if jslength password <? 1
            then createValidationError "Password cannot be empty"
            else
              match authenticateUser db mail password now with
              | None => createApiError "Invalid email or password" 401
              | Some authResult =>
                  createApiResponse
                    (JObj [("message", JStr "Login successful");
                           ("user",
                            JObj [("id", JStr (user_id (au_user authResult)));
                                  ("email",
                                   JStr (user_email (au_user authResult)));
                                  ("role",
                                   JStr (Role_toString
                                           (user_role (au_user authResult))));
                                  ("tenantId",
                                   JStr (user_tenantId (au_user authResult)))]);
                           ("tenant",
                            JObj [("id", JStr (tenant_id (au_tenant authResult)));
                                  ("slug",
                                   JStr (tenant_slug (au_tenant authResult)));
                                  ("name",
                                   JStr (tenant_name (au_tenant authResult)));
                                  ("plan",
                                   JStr (Plan_toString
                                           (tenant_plan (au_tenant authResult))))]);
                           ("token", JStr (au_token authResult));
                           ("expiresIn", JStr "24h")])
                    None 200
              end
        | _, _ => createValidationError "Email and password must be strings"
        end
  end.

End Login.

(* ================================================================== *)
(** ** middleware *)
(* ================================================================== *)

Module Middleware.

Record JWTPayload := {
  jp_userId : jsstring;
  jp_email : jsstring;
  jp_role : jsstring;
  jp_tenantId : jsstring;
  jp_tenantSlug : jsstring
}.

(** What the middleware reads of a request: the path, the method, the
    [origin] and [authorization] headers, the [auth_token] cookie, and
    the scheme, host and port of [request.url], which is where
    [new URL('/login', request.url)] points. *)
Record Request := {
  pathname : jsstring;
  method : jsstring;
  origin : option jsstring;
  authorization : option jsstring;
  auth_token : option jsstring;
  base : jsstring
}.

(** A header list; [Headers] keeps names in lower case. *)
Definition Headers := list (string * jsstring).

Definition set (k : string) (v : jsstring) (h : Headers) : Headers :=
  List.filter (fun kv => negb (String.eqb (fst kv) k)) h ++ [(k, v)].

Definition has (k : string) (h : Headers) : bool :=
  existsb (fun kv => String.eqb (fst kv) k) h.

(** A response as the middleware builds it: the status, the body (none
    for [NextResponse.next()], [new Response(null)] and a redirect), the
    headers, and the cookies it tells the browser to drop.  The
    [set-cookie] text by which Next.js expresses a deletion is its own
    and is kept apart from the headers here. *)
Record Response := {
  res_status : Z;
  res_body : option value;
  res_headers : Headers;
  res_deleted : list jsstring
}.

(** [NextResponse.next()]: Next.js marks the response that lets the
    request continue with the header [x-middleware-next: 1]. *)
Definition NextResponse_next : Response :=
  {| res_status := 200; res_body := None;
     res_headers := [("x-middleware-next"%string, lit "1")];
     res_deleted := [] |}.

(** [new Response(null, { status, headers })] *)
Definition new_Response (st : Z) (h : Headers) : Response :=
  {| res_status := st; res_body := None; res_headers := h;
     res_deleted := [] |}.

(** [NextResponse.json(body, { status, headers })]: the headers given,
    with [content-type: application/json] unless they name a content
    type. *)
Definition NextResponse_json (b : value) (st : Z) (h : Headers) : Response :=
  {| res_status := st; res_body := Some b;
     res_headers := if has "content-type" h then h
                    else set "content-type" "application/json" h;
     res_deleted := [] |}.

(** [NextResponse.redirect(url)]: status 307 and the [location]. *)
Definition NextResponse_redirect (url : jsstring) : Response :=
  {| res_status := 307; res_body := None;
     res_headers := [("location"%string, url)];
     res_deleted := [] |}.

(** [response.headers.set(k, v)] and [response.cookies.delete(name)] *)
Definition headers_set (k : string) (v : jsstring) (r : Response) : Response :=
  {| res_status := res_status r; res_body := res_body r;
     res_headers := set k v (res_headers r);
     res_deleted := res_deleted r |}.

Definition cookies_delete (name : jsstring) (r : Response) : Response :=
  {| res_status := res_status r; res_body := res_body r;
     res_headers := res_headers r;
     res_deleted := res_deleted r ++ [name] |}.

(** [s.split(sep)] for a separator of one unit *)
Fixpoint split (sep : N) (s : jsstring) : list jsstring :=
  match s with
  | [] => [[]]
  | c :: r =>
      if (c =? sep)%N then [] :: split sep r
      else match split sep r with
           | p :: ps => (c :: p) :: ps
           | [] => [[c]]
           end
  end.

(** [s.replace(pattern, replacement)] for a string pattern: the first
    occurrence *)
Fixpoint replace (pattern replacement s : jsstring) : jsstring :=
  if isPrefix pattern s
  then replacement ++ skipn (List.length pattern) s
  else match s with
       | [] => []
       | c :: r => c :: replace pattern replacement r
       end.

Definition endsWith (s suffix : jsstring) : bool :=
  isPrefix (rev suffix) (rev s).

(** [/\.(png|jpg|jpeg|gif|svg|css|js|ico|woff|woff2|ttf|eot)$/] *)
Definition staticExtension (path : jsstring) : bool :=
  existsb (fun e => endsWith path ("." +++ lit e))
    ["png"; "jpg"; "jpeg"; "gif"; "svg"; "css"; "js"; "ico"; "woff"; "woff2";
     "ttf"; "eot"]%string.

Definition isStatic (path : jsstring) : bool :=
  isPrefix "/_next" path || includes path "/favicon.ico"
  || staticExtension path.

Definition isPublic (path : jsstring) : bool :=
  jseqb path "/login" || jseqb path "/api/auth/login"
  || jseqb path "/api/auth/verify" || jseqb path "/api/health".

Section Run.

(** [process.env.CORS_ORIGINS], and [jwt.verify(token, secret)], which
    returns the payload or throws. *)
Variable CORS_ORIGINS : option jsstring.
Variable verify : jsstring -> option JWTPayload.

Definition corsOrigins : list jsstring :=
  match CORS_ORIGINS with
  | Some s => split 44 s
  | None => [lit "http://localhost:3000"]
  end.

(** The CORS headers, set on the response that has been created. *)
Definition setCors (request : Request) (response : Response) : Response :=
  let response :=
    match origin request with
    | Some (c :: o) =>
        if existsb (jseqb (c :: o)) corsOrigins
        then headers_set "access-control-allow-origin" (c :: o) response
        else if existsb (jseqb "*") corsOrigins
        then headers_set "access-control-allow-origin" "*" response
        else response
    | _ =>
        if existsb (jseqb "*") corsOrigins
        then headers_set "access-control-allow-origin" "*" response
        else response
    end in
  headers_set "access-control-allow-credentials" "true"
    (headers_set "access-control-allow-headers"
       "Content-Type, Authorization, x-tenant-slug"
       (headers_set "access-control-allow-methods"
          "GET, POST, PUT, DELETE, OPTIONS" response)).

(** The preflight answer and the two 401 answers are new responses given
    the headers of [response], the [NextResponse.next()] object: they
    carry its [x-middleware-next] along with the CORS headers.  The
    identity of a verified token is set as headers of [response]
    itself. *)
Definition middleware (request : Request) : Response :=
  let response := setCors request NextResponse_next in
  if jseqb (method request) "OPTIONS"
  then new_Response 200 (res_headers response)
  else if isStatic (pathname request) then response
  else if isPublic (pathname request) then response
  else if isPrefix "/api" (pathname request)
  then
    match option_map (replace "Bearer " "") (authorization request) with
    | Some (c :: token) =>
        match verify (c :: token) with
        | Some decoded =>
            headers_set "x-tenant-slug" (jp_tenantSlug decoded)
              (headers_set "x-tenant-id" (jp_tenantId decoded)
                 (headers_set "x-user-role" (jp_role decoded)
                    (headers_set "x-user-email" (jp_email decoded)
                       (headers_set "x-user-id" (jp_userId decoded)
                          response))))
        | None =>
            NextResponse_json (JObj [("error", JStr "Invalid token")]) 401
              (res_headers response)
        end
    | _ =>
        NextResponse_json (JObj [("error", JStr "Authentication required")])
          401 (res_headers response)
    end
  else
    match auth_token request with
    | Some (c :: token) =>
        match verify (c :: token) with
        | Some _ => response
        | None =>
            let redirectResponse :=
              cookies_delete "auth_token"
                (NextResponse_redirect (base request +++ "/login")) in
            fold_left
              (fun redirectResponse kv =>
                 if String.prefix "access-control-" (fst kv)
                 then headers_set (fst kv) (snd kv) redirectResponse
                 else redirectResponse)
              (res_headers response) redirectResponse
        end
    | _ => NextResponse_redirect (base request +++ "/login")
    end.

End Run.
End Middleware.

(* ================================================================== *)
(** ** Notions used by the properties *)
(* ================================================================== *)

(** Primary keys of the note and invitation tables. *)
Definition uniqueNoteIds (db : Db) : Prop :=
  NoDup (List.map note_id (notes db)).

Definition uniqueInvitationIds (db : Db) : Prop :=
  NoDup (List.map inv_id (invitations db)).

(** The note objects a response hands out: [data.note] of a get and the
    elements of [data.notes] of a list. *)
Definition returnedNotes (r : Response) : list value :=
  match jget ["data"; "note"] (body r) with
  | Some v => [v]
  | None => []
  end
  ++ match jget ["data"; "notes"] (body r) with
     | Some (JArr l) => l
     | _ => []
     end.

Definition idOf (v : value) : list jsstring :=
  match prop v "id" with
  | Some (JStr s) => [s]
  | _ => []
  end.

Definition returnedNoteIds (r : Response) : list jsstring :=
  flat_map idOf (returnedNotes r).

(** A request body with a title and a content. *)
Definition noteBody (title content : jsstring) : value :=
  JObj [("title", JStr title); ("content", JStr content)].

(** The create/get round trip read literally: the note read back carries
    the title and the content exactly as they were submitted. *)
Definition roundtrip_as_stated : Prop :=
  forall (db : Db) (context reader : UserContext)
         (title content newId : jsstring) (now : Z) (db1 : Db) (r1 : Response),
    POST_notes db (Verified context) (Some (noteBody title content)) newId now
    = (db1, r1) ->
    status r1 = 201 ->
    validateNoteId newId = true ->
    missingIdentity reader = false ->
    tenantId reader = tenantId context ->
    let r2 := GET_note db1 (Verified reader) newId in
    jget ["data"; "note"; "title"] (body r2) = Some (JStr title)
    /\ jget ["data"; "note"; "content"] (body r2) = Some (JStr content)
    /\ jget ["data"; "note"; "author"; "id"] (body r2)
       = Some (JStr (userId context)).

(** One request to a notes route that writes. *)
Inductive notesStep : Db -> Db -> Prop :=
| step_POST_notes db request requestBody newId now :
    notesStep db (fst (POST_notes db request requestBody newId now))
| step_PUT_note db request id requestBody now :
    notesStep db (fst (PUT_note db request id requestBody now))
| step_DELETE_note db request id :
    notesStep db (fst (DELETE_note db request id)).

(** The invitation an accept request designates: the first PENDING one
    carrying the token of a body that passes the schema. *)
Definition matchedInvitation (db : Db) (requestBody : option value)
  : option Invitation :=
  match requestBody with
  | Some b =>
      match acceptInvitationSchema b with
      | Some (token, _) => invitation_findByToken db token
      | None => None
      end
  | None => None
  end.

(** The state in which an accept request reaches the transaction: the
    designated invitation has not expired, its address has no user in
    its tenant yet, the tenant has room, and the id drawn for the user
    row is free. *)
Definition acceptable (db : Db) (requestBody : option value)
  (newUserId : jsstring) (now : Z) : Prop :=
  exists invitation tenant,
    matchedInvitation db requestBody = Some invitation
    /\ now <= inv_expiresAt invitation
    /\ user_findFirst db (inv_email invitation) (inv_tenantId invitation) = None
    /\ tenant_findUnique db (inv_tenantId invitation) = Some tenant
    /\ (tenant_plan tenant = PRO \/ user_count db (inv_tenantId invitation) < 5)
    /\ existsb (fun v => jseqb (user_id v) newUserId) (users db) = false.

(** The row the invite route writes, given the expiry it computed. *)
Definition issuedInvitation (context : UserContext) (mail : jsstring) (r : Role)
  (token newId : jsstring) (expiresAt : Z) : Invitation :=
  {| inv_id := newId; inv_email := mail; inv_role := r; inv_token := token;
     inv_status := PENDING; inv_tenantId := tenantId context;
     inv_invitedBy := userId context;
     inv_expiresAt := expiresAt;
     inv_acceptedAt := None |}.

(** Every ACCEPTED invitation has a user row with its address in its
    tenant. *)
Definition acceptedHaveUser (db : Db) : Prop :=
  forall i, In i (invitations db) -> inv_status i = ACCEPTED ->
    exists u, In u (users db) /\ user_email u = inv_email i
              /\ user_tenantId u = inv_tenantId i.

(** One request to an invitation route, and the stores reached by a
    sequence of them. *)
Inductive invitationStep : Db -> Db -> Prop :=
| step_POST_invite isEmail zodIssues LocalTZA db request requestBody token newId now appUrl :
    invitationStep db
      (fst (POST_invite isEmail zodIssues LocalTZA db request requestBody token newId
              now appUrl))
| step_POST_accept zodIssues hash fault db requestBody newUserId now :
    invitationStep db
      (fst (POST_accept zodIssues hash fault db requestBody newUserId now))
| step_GET_accept db token now :
    invitationStep db (fst (GET_accept db token now)).

Inductive invitationReachable (db0 : Db) : Db -> Prop :=
| reach_start : invitationReachable db0 db0
| reach_step db db' :
    invitationReachable db0 db -> invitationStep db db' ->
    invitationReachable db0 db'.






(** The invitation cap read literally: in a FREE-plan tenant an invite
    request is answered 403, with no invitation row written, exactly
    when users + pending invitations + 1 exceeds 5. *)
Definition invitation_cap_as_stated : Prop :=
  forall (isEmail : jsstring -> bool)
         (zodIssues : value -> list (jsstring * jsstring))
         (LocalTZA : Z -> bool -> Z) (db : Db) (context : UserContext)
         (requestBody : option value) (tenant : Tenant)
         (token newId : jsstring) (now : Z) (appUrl : option jsstring),
    tenant_findUnique db (tenantId context) = Some tenant ->
    tenant_plan tenant = FREE ->
    let result := POST_invite isEmail zodIssues LocalTZA db (Verified context)
                    requestBody token newId now appUrl in
    (status (snd result) = 403 /\ invitations (fst result) = invitations db)
    <-> 5 < user_count db (tenantId context)
            + invitation_countPending db (tenantId context) + 1.

(** Atomic acceptance read literally: an accept request that designates
    an invitation adds a user row exactly when it leaves that invitation
    ACCEPTED. *)
Definition atomic_accept_as_stated : Prop :=
  forall (zodIssues : value -> list (jsstring * jsstring))
         (hash : jsstring -> jsstring) (fault : StoreFault) (db : Db)
         (requestBody : option value) (newUserId : jsstring) (now : Z)
         (invitation : Invitation),
    uniqueInvitationIds db ->
    matchedInvitation db requestBody = Some invitation ->
    let db1 := fst (POST_accept zodIssues hash fault db requestBody newUserId
                      now) in
    users db1 <> users db
    <-> exists j, In j (invitations db1) /\ inv_id j = inv_id invitation
                  /\ inv_status j = ACCEPTED.

(** The note cap read literally: in a FREE-plan tenant holding exactly
    three notes every create request of an authenticated caller is
    answered 403 and persists no note. *)
Definition note_cap_as_stated : Prop :=
  forall (db : Db) (context : UserContext) (tenant : Tenant)
         (requestBody : option value) (newId : jsstring) (now : Z),
    missingIdentity context = false ->
    tenant_findUnique db (tenantId context) = Some tenant ->
    tenant_plan tenant = FREE ->
    note_count db (tenantId context) = 3 ->
    let result := POST_notes db (Verified context) requestBody newId now in
    status (snd result) = 403 /\ notes (fst result) = notes db.

(** The ownership restriction read literally: an update or a delete by a
    MEMBER of a note of the caller's tenant that another user wrote is
    answered 403 and changes nothing. *)
Definition member_restriction_as_stated : Prop :=
  forall (db : Db) (context : UserContext) (id : jsstring) (note : Note)
         (requestBody : option value) (now : Z),
    role context = MEMBER ->
    missingIdentity context = false ->
    validateNoteId id = true ->
    note_findFirst db id (tenantId context) = Some note ->
    note_authorId note <> userId context ->
    let put := PUT_note db (Verified context) id requestBody now in
    let del := DELETE_note db (Verified context) id in
    status (snd put) = 403 /\ fst put = db
    /\ status (snd del) = 403 /\ fst del = db.

(* ================================================================== *)
(** ** A sample store *)
(* ================================================================== *)

(** Two tenants with the users of the seed script, three notes of the
    FREE tenant and one of the PRO tenant. *)
Definition acmeTenant : Tenant :=
  {| tenant_id := "ctenantacme00000000000001"; tenant_slug := "acme";
     tenant_name := "Acme"; tenant_plan := FREE |}.

Definition globexTenant : Tenant :=
  {| tenant_id := "ctenantglobex000000000002"; tenant_slug := "globex";
     tenant_name := "Globex"; tenant_plan := PRO |}.

Definition acmeAdmin : User :=
  {| user_id := "cuseracmeadmin00000000001"; user_email := "admin@acme.test";
     user_password := "$2a$12$hash"; user_role := ADMIN;
     user_tenantId := tenant_id acmeTenant |}.

Definition acmeUser : User :=
  {| user_id := "cuseracmeuser000000000002"; user_email := "user@acme.test";
     user_password := "$2a$12$hash"; user_role := MEMBER;
     user_tenantId := tenant_id acmeTenant |}.

Definition globexAdmin : User :=
  {| user_id := "cuserglobexadmin000000003"; user_email := "admin@globex.test";
     user_password := "$2a$12$hash"; user_role := ADMIN;
     user_tenantId := tenant_id globexTenant |}.

Definition mkNote (id title content : jsstring) (author : User) (t : Z) : Note :=
  {| note_id := id; note_title := title; note_content := content;
     note_authorId := user_id author; note_tenantId := user_tenantId author;
     note_createdAt := t; note_updatedAt := t |}.

Definition acmeNote1 : Note :=
  mkNote "cnote00000000000000000001" "Welcome to Acme Notes" "First note"
    acmeAdmin 1000.
Definition acmeNote2 : Note :=
  mkNote "cnote00000000000000000002" "Admin Note" "Second note" acmeAdmin 2000.
Definition acmeNote3 : Note :=
  mkNote "cnote00000000000000000003" "Member Note" "Third note" acmeUser 3000.
Definition globexNote1 : Note :=
  mkNote "cnote00000000000000000004" "Welcome to Globex Notes" "Globex"
    globexAdmin 4000.

Definition sampleDb : Db :=
  {| tenants := [acmeTenant; globexTenant];
     users := [acmeAdmin; acmeUser; globexAdmin];
     notes := [acmeNote1; acmeNote2; acmeNote3; globexNote1];
     invitations := [] |}.

(** The same store without notes. *)
Definition freshDb : Db := set_notes sampleDb [].

Definition contextOf (u : User) (slug : jsstring) : UserContext :=
  {| userId := user_id u; email := user_email u; role := user_role u;
     tenantId := user_tenantId u; tenantSlug := slug |}.

Definition acmeAdminContext : UserContext := contextOf acmeAdmin "acme".
Definition acmeUserContext : UserContext := contextOf acmeUser "acme".
Definition globexAdminContext : UserContext := contextOf globexAdmin "globex".

(** A store comparing code units: ASCII case folding for the search and
    the code-unit order for titles. *)
Definition asciiLower (c : N) : N :=
  if ((65 <=? c) && (c <=? 90))%N then (c + 32)%N else c.

Definition sample_icontains (s needle : jsstring) : bool :=
  includes (List.map asciiLower s) (List.map asciiLower needle).

Fixpoint sample_title_le (a b : jsstring) : bool :=
  match a, b with
  | [], _ => true
  | _ :: _, [] => false
  | x :: a', y :: b' =>
      if (x <? y)%N then true
      else if (y <? x)%N then false
      else sample_title_le a' b'
  end.

Definition noQuery : NoteQueryParams :=
  {| q_page := None; q_limit := None; q_search := None; q_tags := None;
     q_sortBy := None; q_sortOrder := None |}.

(** Pending invitations of the FREE tenant: one for a new address, one
    for an address that has a user already, and a third that fills the
    tenant. *)
Definition mkInvitation (id mail token : jsstring) (expiresAt : Z) : Invitation :=
  {| inv_id := id; inv_email := mail; inv_role := MEMBER; inv_token := token;
     inv_status := PENDING; inv_tenantId := tenant_id acmeTenant;
     inv_invitedBy := user_id acmeAdmin; inv_expiresAt := expiresAt;
     inv_acceptedAt := None |}.

Definition newcomerInvitation : Invitation :=
  mkInvitation "cinvite000000000000000001" "new@acme.test" "4f2a9c" 10000.

Definition duplicateInvitation : Invitation :=
  mkInvitation "cinvite000000000000000002" "user@acme.test" "77b0e1" 10000.

Definition thirdInvitation : Invitation :=
  mkInvitation "cinvite000000000000000003" "third@acme.test" "c0ffee" 10000.

Definition inviteDb : Db :=
  set_invitations sampleDb [newcomerInvitation; duplicateInvitation].

Definition crowdedDb : Db :=
  set_invitations sampleDb
    [newcomerInvitation; duplicateInvitation; thirdInvitation].

Definition acceptBody (token password : jsstring) : value :=
  JObj [("token", JStr token); ("password", JStr password);
        ("confirmPassword", JStr password)].

Definition inviteBody (mail r : jsstring) : value :=
  JObj [("email", JStr mail); ("role", JStr r)].

Definition sample_hash (password : jsstring) : jsstring :=
  "$2a$12$" +++ password.

Definition sample_isEmail (s : jsstring) : bool := includes s "@".

Definition sample_zodIssues (b : value) : list (jsstring * jsstring) :=
  [(lit "token", lit "Required")].

(** A server two hours ahead of UTC whose clocks go back an hour at the
    UTC time 100000000; a local time that occurs twice is read as the
    earlier one. *)
Definition sample_LocalTZA (t : Z) (isUTC : bool) : Z :=
  if isUTC
  then if t <? 100000000 then 7200000 else 3600000
  else if t - 7200000 <? 100000000 then 7200000 else 3600000.

(* ================================================================== *)
(** ** Notions used by the further properties *)
(* ================================================================== *)

(** A string that does not start with white space. *)
Definition headOk (s : jsstring) : bool :=
  match s with
  | [] => true
  | c :: _ => negb (isWhiteSpace c)
  end.

(** A validated create request, as a request body again. *)
Definition createNoteJson (d : CreateNoteRequest) : value :=
  JObj [("title", JStr (cn_title d)); ("content", JStr (cn_content d));
        ("tags", JArr (List.map JStr (cn_tags d)))].


(** No FREE tenant holds more than three notes. *)
Definition withinNoteCap (db : Db) : Prop :=
  forall tid t, tenant_findUnique db tid = Some t -> tenant_plan t = FREE ->
                note_count db tid <= 3.

(** The stores reached by a sequence of requests to the notes routes. *)
Inductive notesReachable (db0 : Db) : Db -> Prop :=
| notes_start : notesReachable db0 db0
| notes_step db db' :
    notesReachable db0 db -> notesStep db db' -> notesReachable db0 db'.

(** In no FREE tenant do the users and the pending invitations together
    exceed five. *)
Definition withinUserCap (db : Db) : Prop :=
  forall tid t, tenant_findUnique db tid = Some t -> tenant_plan t = FREE ->
                user_count db tid + invitation_countPending db tid <= 5.

(** Invitation tokens are unique. *)
Definition uniqueInvitationTokens (db : Db) : Prop :=
  NoDup (List.map inv_token (invitations db)).

(** The pending invitations of a tenant in a table. *)
Definition pendingOf (tid : jsstring) (i : Invitation) : bool :=
  jseqb (inv_tenantId i) tid && isPENDING (inv_status i).

(** The order a listing is asked in, and the rows it selects from. *)
Definition listOrder (title_le : jsstring -> jsstring -> bool)
  (query : NoteQueryParams) (a b : Note) : Prop :=
  match sortField (orDefault (q_sortBy query) "createdAt") with
  | Some f =>
      note_le title_le f (jseqb (orDefault (q_sortOrder query) "desc") "desc")
        a b = true
  | None => False
  end.

Definition listMatches (icontains : jsstring -> jsstring -> bool) (db : Db)
  (context : UserContext) (query : NoteQueryParams) : list Note :=
  List.filter (noteWhere icontains (tenantId context) (q_search query))
    (notes db).

(** A comparison under which any two titles are ordered one way or the
    other. *)
Definition totalOrder (le : jsstring -> jsstring -> bool) : Prop :=
  forall a b, le a b = true \/ le b a = true.

(** Primary key of the tenant table. *)
Definition uniqueTenantIds (db : Db) : Prop :=
  NoDup (List.map tenant_id (tenants db)).

(** The store after the tenant with the given id has been put on PRO. *)
Definition raisedToPro (db : Db) (tid : jsstring) : Db :=
  set_tenants db
    (List.map (fun u => if jseqb (tenant_id u) tid then setPlan PRO u else u)
       (tenants db)).

(** The four permissions a MEMBER holds. *)
Definition ownNotePermission (p : Permission) : bool :=
  match p with
  | CREATE_NOTE | READ_OWN_NOTES | UPDATE_OWN_NOTES | DELETE_OWN_NOTES => true
  | _ => false
  end.

(** The context lib/tenant-context reads from the headers the middleware
    writes for a token's claims. *)
Definition tenantContextOf (context : UserContext) : TenantContext :=
  {| tc_tenantId := tenantId context; tc_tenantSlug := tenantSlug context;
     tc_userId := userId context;
     tc_userRole := Role_toString (role context) |}.

(** Every note's author is a user of the note's tenant. *)
Definition authorsInTenant (db : Db) : Prop :=
  forall n, In n (notes db) ->
    exists u, In u (users db) /\ user_id u = note_authorId n
              /\ user_tenantId u = note_tenantId n.

(** The rows of the note table that belong to other tenants, in table
    order. *)
Definition foreignNotes (tid : jsstring) (db : Db) : list Note :=
  List.filter (fun n => negb (jseqb (note_tenantId n) tid)) (notes db).

(** One successful write of a repository bound to a tenant. *)
Inductive repositoryWrite (tid : jsstring) : Db -> Db -> Prop :=
| write_createNote db title content authorId newId now db1 n :
    TenantAwareRepository.createNote tid db title content authorId newId now
    = Ok (db1, n) ->
    repositoryWrite tid db db1
| write_updateNote db noteId title content now db1 n :
    TenantAwareRepository.updateNote tid db noteId title content now
    = Ok (db1, n) ->
    repositoryWrite tid db db1
| write_deleteNote db noteId db1 n :
    TenantAwareRepository.deleteNote tid db noteId = Ok (db1, n) ->
    repositoryWrite tid db db1.

(** The claims the login signs for a user row and its tenant. *)
Definition loginClaims (u : User) (t : Tenant) : UserContext :=
  {| userId := user_id u; email := user_email u; role := user_role u;
     tenantId := user_tenantId u; tenantSlug := tenant_slug t |}.

(** A login body. *)
Definition loginBody (mail password : jsstring) : value :=
  JObj [("email", JStr mail); ("password", JStr password)].

(** The headers of an answer of the middleware, and the value of its
    [access-control-allow-origin], if it has one. *)
Definition headersOf (r : Middleware.Response) : Middleware.Headers :=
  Middleware.res_headers r.

Fixpoint header (k : string) (h : Middleware.Headers) : option jsstring :=
  match h with
  | [] => None
  | (k', v) :: rest => if String.eqb k k' then Some v else header k rest
  end.

(** A store-free stand-in for the password hash, the signature and the
    token check in examples. *)
Definition sample_compare (password hashed : jsstring) : bool :=
  jseqb (sample_hash password) hashed.

Definition sample_sign (payload : UserContext) (secret : jsstring) (now : Z)
  : jsstring :=
  userId payload +++ "." +++ tenantId payload +++ "." +++ secret.

Definition sample_verify (token : jsstring) : option Middleware.JWTPayload :=
  if jseqb token "good-token"
  then Some {| Middleware.jp_userId := user_id acmeUser;
               Middleware.jp_email := user_email acmeUser;
               Middleware.jp_role := "MEMBER";
               Middleware.jp_tenantId := user_tenantId acmeUser;
               Middleware.jp_tenantSlug := "acme" |}
  else None.

(** A store in which two tenants each have a user with the same
    address, as the schema allows. *)
Definition globexTwin : User :=
  {| user_id := "cuserglobextwin000000005"; user_email := "user@acme.test";
     user_password := "$2a$12$other"; user_role := MEMBER;
     user_tenantId := tenant_id globexTenant |}.

Definition sharedEmailDb : Db :=
  set_users sampleDb [acmeAdmin; acmeUser; globexAdmin; globexTwin].

(** A request to the middleware with no credentials. *)
Definition anonymous (path verb : jsstring) (from : option jsstring)
  : Middleware.Request :=
  {| Middleware.pathname := path; Middleware.method := verb;
     Middleware.origin := from; Middleware.authorization := None;
     Middleware.auth_token := None;
     Middleware.base := "http://localhost:3000" |}.

(** A Number that is not below one: an integer from one on, or
    [+Infinity]. *)
Definition atLeastOne (p : Number) : Prop :=
  (exists z, p = Integer z /\ 1 <= z) \/ p = PosInfinity.

(** One request to a route that can write to the store: a notes route,
    an invitation route or the upgrade route; and the stores reached by
    a sequence of such requests. *)
Inductive requestStep : Db -> Db -> Prop :=
| request_notes db db' : notesStep db db' -> requestStep db db'
| request_invitation db db' : invitationStep db db' -> requestStep db db'
| request_upgrade db request slug now :
    requestStep db (fst (POST_upgrade db request slug now)).

Inductive requestsReachable (db0 : Db) : Db -> Prop :=
| requests_start : requestsReachable db0 db0
| requests_step db db' :
    requestsReachable db0 db -> requestStep db db' ->
    requestsReachable db0 db'.

(** A token that is spent: a row carries it, and no row carrying it is
    PENDING. *)
Definition tokenSpent (token : jsstring) (db : Db) : Prop :=
  In token (List.map inv_token (invitations db))
  /\ forall j, In j (invitations db) -> inv_token j = token ->
               isPENDING (inv_status j) = false.

(* ================================================================== *)
(** * Properties *)
(* ================================================================== *)


(** ** Strings, lookups *)

(** Splits a conjunction of implications and closes what follows from
    the hypotheses by computation or congruence. *)
Ltac settle :=
  repeat match goal with
         | |- _ /\ _ => split
         | |- _ <-> _ => split
         | |- forall _, _ => intro
         | H : _ /\ _ |- _ => destruct H
         | H : exists _, _ |- _ => destruct H
         end;
  try discriminate; try congruence; eauto.


Lemma jseqb_eq (a b : jsstring) : jseqb a b = true <-> a = b.
Proof.
  revert b; induction a as [|x a IH]; intros [|y b]; simpl; split;
    try congruence; try reflexivity.
  - intros H. apply andb_true_iff in H as [Hx Hr].
    apply N.eqb_eq in Hx. apply IH in Hr. congruence.
  - intros H. injection H as -> ->. apply andb_true_iff. split.
    + apply N.eqb_refl.
    + now apply IH.
Qed.

Lemma jseqb_refl (a : jsstring) : jseqb a a = true.
Proof. now apply jseqb_eq. Qed.

Lemma jseqb_neq (a b : jsstring) : a <> b -> jseqb a b = false.
Proof.
  intros H. destruct (jseqb a b) eqn:E; [|reflexivity].
  apply jseqb_eq in E. contradiction.
Qed.

Lemma note_findFirst_some db id tid n :
  note_findFirst db id tid = Some n ->
  In n (notes db) /\ note_id n = id /\ note_tenantId n = tid.
Proof.
  unfold note_findFirst. intros H. apply find_some in H as [Hin Hp].
  apply andb_true_iff in Hp as [H1 H2].
  apply jseqb_eq in H1, H2. auto.
Qed.

Lemma tenant_findUnique_some db tid t :
  tenant_findUnique db tid = Some t -> In t (tenants db) /\ tenant_id t = tid.
Proof.
  unfold tenant_findUnique. intros H. apply find_some in H as [Hin Hp].
  apply jseqb_eq in Hp. auto.
Qed.

Lemma user_findById_some db id u :
  user_findById db id = Some u -> In u (users db) /\ user_id u = id.
Proof.
  unfold user_findById. intros H. apply find_some in H as [Hin Hp].
  apply jseqb_eq in Hp. auto.
Qed.

(** ** The id gate *)

(** The regular expression, spelled out. *)
Lemma validateNoteId_spec (id : jsstring) :
  validateNoteId id = true <->
  exists c rest, id = c :: rest /\ (c = 99%N \/ c = 67%N)
                 /\ List.length rest = 24%nat
                 /\ Forall (fun x => isAlnum x = true) rest.
Proof.
  unfold validateNoteId. split.
  - destruct id as [|c rest]; [discriminate|]. intros H.
    apply andb_true_iff in H as [H Hall].
    apply andb_true_iff in H as [Hc Hlen].
    exists c, rest. repeat split.
    + apply orb_true_iff in Hc as [Hc|Hc]; apply N.eqb_eq in Hc; auto.
    + now apply Nat.eqb_eq.
    + apply Forall_forall. now apply forallb_forall.
  - intros (c & rest & -> & Hc & Hlen & Hall).
    apply andb_true_iff; split; [apply andb_true_iff; split|].
    + apply orb_true_iff. destruct Hc as [->| ->]; auto.
    + now apply Nat.eqb_eq.
    + apply forallb_forall. now apply Forall_forall.
Qed.

(** C9 -- For a caller whose token carries a user id and a tenant id, a
    note get, update or delete whose id does not match the cuid pattern
    is answered with the 400 validation error, whatever the store holds
    (no lookup has taken place) and whatever the body; the store is left
    as it was.  A well-formed id with no row in the caller's tenant is
    answered with 404 instead. *)
Theorem note_id_format_gate (db : Db) (context : UserContext) (id : jsstring)
  (requestBody : option value) (now : Z) :
  missingIdentity context = false ->
  validateNoteId id = false ->
  GET_note db (Verified context) id
    = createValidationError "Invalid note ID format"
  /\ PUT_note db (Verified context) id requestBody now
     = (db, createValidationError "Invalid note ID format")
  /\ DELETE_note db (Verified context) id
     = (db, createValidationError "Invalid note ID format")
  /\ status (createValidationError "Invalid note ID format") = 400
  /\ (forall id', validateNoteId id' = true ->
        note_findFirst db id' (tenantId context) = None ->
        GET_note db (Verified context) id' = createNotFoundError "Note"
        /\ status (createNotFoundError "Note") = 404).
Proof.
  intros Hid Hbad.
  assert (Hctx : getUserContextFromToken (Verified context) = Ok context)
    by (destruct context; reflexivity).
  repeat split.
  - unfold GET_note. rewrite Hctx, Hid, Hbad. reflexivity.
  - unfold PUT_note, PUT_note_body. rewrite Hctx, Hid, Hbad. reflexivity.
  - unfold DELETE_note, DELETE_note_body. rewrite Hctx, Hid, Hbad. reflexivity.
  - unfold GET_note. rewrite Hctx, Hid, H, H0. reflexivity.
Qed.

Lemma note_id_format_gate_witness :
  validateNoteId "42" = false
  /\ GET_note sampleDb (Verified acmeUserContext) "42"
     = createValidationError "Invalid note ID format"
  /\ DELETE_note sampleDb (Verified acmeUserContext) "42"
     = (sampleDb, createValidationError "Invalid note ID format")
  /\ GET_note sampleDb (Verified acmeUserContext) "cnote00000000000000000009"
     = createNotFoundError "Note".
Proof.
  pose proof (note_id_format_gate sampleDb acmeUserContext "42" None 0
                eq_refl eq_refl) as (Hget & _ & Hdel & _ & Habsent).
  split; [reflexivity|]. split; [exact Hget|]. split; [exact Hdel|].
  exact (proj1 (Habsent "cnote00000000000000000009" eq_refl eq_refl)).
Defined.

(** ** The FREE-plan note cap *)

Lemma getUserContextFromToken_verified (context : UserContext) :
  getUserContextFromToken (Verified context) = Ok context.
Proof. destruct context; reflexivity. Qed.

Lemma validateNoteCreation_full db tid tenant :
  tenant_findUnique db tid = Some tenant ->
  tenant_plan tenant = FREE ->
  3 <= note_count db tid ->
  validateNoteCreation db tid
  = Throw (lit "Note limit reached. Current plan allows 3 notes.").
Proof.
  intros Hfind Hplan Hcount.
  pose proof (tenant_findUnique_some _ _ _ Hfind) as [_ Hid].
  unfold validateNoteCreation, checkNoteLimit, getSubscriptionStatus.
  rewrite Hfind, Hplan, Hid. cbn [ss_plan usage_currentNotes limits_maxNotes].
  unfold canCreateNote. cbn [SUBSCRIPTION_LIMITS maxNotes num_ltb].
  replace (note_count db tid <? 3) with false
    by (symmetry; apply Z.ltb_ge; exact Hcount).
  reflexivity.
Qed.


Lemma validateCreateNote_data (rb : value) :
  isValid (validateCreateNote rb) = true ->
  exists d, data (validateCreateNote rb) = Some d
            /\ cn_title d = trim (stringOf (prop rb "title"))
            /\ cn_content d = trim (stringOf (prop rb "content")).
Proof.
  unfold validateCreateNote.
  destruct (negb (truthy rb) || negb (isObjectType rb)); [discriminate|].
  destruct (_ ++ _); [|discriminate].
  intros _. eexists. cbn. repeat split.
Qed.

(** C2 (as stated) fails: in a FREE-plan tenant holding exactly three
    notes a create request whose body is the empty object is answered
    with the 400 of the validation, which runs before the limit check,
    not with 403. *)
Lemma note_cap_counterexample :
  let result := POST_notes sampleDb (Verified acmeUserContext)
                  (Some (JObj [])) "cnote00000000000000000005" 5000 in
  tenant_findUnique sampleDb (tenantId acmeUserContext) = Some acmeTenant
  /\ tenant_plan acmeTenant = FREE
  /\ note_count sampleDb (tenantId acmeUserContext) = 3
  /\ status (snd result) = 400
  /\ ~ note_cap_as_stated.
Proof.
  intros result.
  split; [reflexivity|]. split; [reflexivity|]. split; [reflexivity|].
  split; [reflexivity|].
  intros H.
  specialize (H sampleDb acmeUserContext acmeTenant (Some (JObj []))
                "cnote00000000000000000005" 5000
                eq_refl eq_refl eq_refl eq_refl).
  destruct H as [H _]. vm_compute in H. discriminate.
Qed.

(** C2 (as amended) -- In a FREE-plan tenant holding exactly three notes
    no create request persists a note: the store is unchanged and the
    answer is an error, 401, 400 or 403, with [success: false].  For a
    caller with a user id and a tenant id the answer is 403, with the
    message Note limit reached. Current plan allows 3 notes., exactly
    when the request has a body that passes validateCreateNote; a
    request without a readable body, or with one that does not pass, is
    answered 400 by the checks that run before the limit check. *)
Theorem free_plan_note_cap (db : Db) (context : UserContext) (tenant : Tenant)
  (requestBody : option value) (newId : jsstring) (now : Z) :
  tenant_findUnique db (tenantId context) = Some tenant ->
  tenant_plan tenant = FREE ->
  note_count db (tenantId context) = 3 ->
  let result := POST_notes db (Verified context) requestBody newId now in
  let r := snd result in
  fst result = db
  /\ notes (fst result) = notes db
  /\ (status r = 401 \/ status r = 400 \/ status r = 403)
  /\ prop (body r) "success" = Some (JBool false)
  /\ (missingIdentity context = true -> status r = 401)
  /\ (missingIdentity context = false ->
      (forall rb, requestBody = Some rb ->
         isValid (validateCreateNote rb) = true ->
         status r = 403
         /\ body r
            = JObj [("success", JBool false);
                    ("error",
                     JStr "Note limit reached. Current plan allows 3 notes.")])
      /\ (requestBody = None ->
          status r = 400
          /\ prop (body r) "error" = Some (JStr "Invalid JSON in request body"))
      /\ (forall rb, requestBody = Some rb ->
            isValid (validateCreateNote rb) = false ->
            status r = 400
            /\ prop (body r) "error"
               = Some (JStr ("Validation failed: "
                             +++ join ", " (errors (validateCreateNote rb)))))
      /\ (status r = 403 <->
          exists rb, requestBody = Some rb
                     /\ isValid (validateCreateNote rb) = true)).
Proof.
  intros Hfind Hplan Hcount result r.
  assert (Hfull := validateNoteCreation_full db _ _ Hfind Hplan
                     ltac:(rewrite Hcount; reflexivity)).
  subst r result. unfold POST_notes, POST_notes_body.
  rewrite getUserContextFromToken_verified.
  destruct (missingIdentity context) eqn:Hmiss.
  { cbn. settle. }
  destruct requestBody as [rb|].
  2:{ cbn. settle. }
  destruct (isValid (validateCreateNote rb)) eqn:Hvalid.
  2:{ cbn. settle. }
  destruct (validateCreateNote_data rb Hvalid) as (d & Hd & _).
  rewrite Hd, Hfull. cbn. settle.
Qed.

Lemma free_plan_note_cap_witness :
  let create body := POST_notes sampleDb (Verified acmeUserContext) (Some body)
                       "cnote00000000000000000005" 5000 in
  tenant_findUnique sampleDb (tenantId acmeUserContext) = Some acmeTenant
  /\ note_count sampleDb (tenantId acmeUserContext) = 3
  /\ status (snd (create (noteBody "Fourth" "One too many"))) = 403
  /\ fst (create (noteBody "Fourth" "One too many")) = sampleDb
  /\ status (snd (create (JObj []))) = 400
  /\ fst (create (JObj [])) = sampleDb.
Proof.
  intros create.
  split; [reflexivity|]. split; [reflexivity|].
  pose proof (free_plan_note_cap sampleDb acmeUserContext acmeTenant
                (Some (noteBody "Fourth" "One too many"))
                "cnote00000000000000000005" 5000
                eq_refl eq_refl eq_refl) as (Hdb & _ & _ & _ & _ & Hcap).
  pose proof (free_plan_note_cap sampleDb acmeUserContext acmeTenant
                (Some (JObj []))
                "cnote00000000000000000005" 5000
                eq_refl eq_refl eq_refl) as (Hdb' & _ & _ & _ & _ & Hbad).
  destruct (Hcap eq_refl) as (H403 & _).
  destruct (Hbad eq_refl) as (_ & _ & H400 & _).
  split; [exact (proj1 (H403 _ eq_refl eq_refl))|]. split; [exact Hdb|].
  split; [exact (proj1 (H400 _ eq_refl eq_refl))|exact Hdb'].
Defined.

(** ** Ownership *)

Lemma canPerformAction_member (context : UserContext) (p : Permission)
  (owner : jsstring) :
  role context = MEMBER ->
  nonEmpty owner = true ->
  canPerformAction context p (Some owner)
  = hasPermission MEMBER p && jseqb (userId context) owner.
Proof.
  intros Hrole Hne. unfold canPerformAction. rewrite Hrole.
  destruct (hasPermission MEMBER p); [|reflexivity].
  destruct owner; [discriminate|]. reflexivity.
Qed.

(** C3 (as stated) fails for the update: the body is validated before
    the ownership check, so a MEMBER's update of another user's note
    with the empty object as body is answered 400, not 403. *)
Lemma member_restriction_counterexample :
  let put := PUT_note sampleDb (Verified acmeUserContext) (note_id acmeNote1)
               (Some (JObj [])) 6000 in
  role acmeUserContext = MEMBER
  /\ note_findFirst sampleDb (note_id acmeNote1) (tenantId acmeUserContext)
     = Some acmeNote1
  /\ note_authorId acmeNote1 <> userId acmeUserContext
  /\ status (snd put) = 400
  /\ ~ member_restriction_as_stated.
Proof.
  intros put.
  assert (Hne : note_authorId acmeNote1 <> userId acmeUserContext)
    by (vm_compute; discriminate).
  split; [reflexivity|]. split; [reflexivity|]. split; [exact Hne|].
  split; [reflexivity|].
  intros H.
  specialize (H sampleDb acmeUserContext (note_id acmeNote1) acmeNote1
                (Some (JObj [])) 6000 eq_refl eq_refl eq_refl eq_refl Hne).
  destruct H as [H _]. vm_compute in H. discriminate.
Qed.

(** C3 (as amended) -- For a MEMBER caller and a note of the caller's
    tenant, update and delete answer 200 only if the caller is the
    author.  On another user's note the delete is answered 403 with the
    message You can only delete your own notes; the update is answered
    403, with the message You can only edit your own notes, exactly when
    the request has a body that passes validateUpdateNote, and 400
    otherwise, the body being validated before the ownership check.  In
    each of these cases the store is unchanged, so the note is still
    found as it was.  The helper [canPerformAction] denies the same
    combinations. *)
Theorem member_ownership_restriction (db : Db) (context : UserContext)
  (id : jsstring) (note : Note) (requestBody : option value) (now : Z) :
  role context = MEMBER ->
  missingIdentity context = false ->
  validateNoteId id = true ->
  note_findFirst db id (tenantId context) = Some note ->
  let put := PUT_note db (Verified context) id requestBody now in
  let del := DELETE_note db (Verified context) id in
  (status (snd put) = 200 -> note_authorId note = userId context)
  /\ (status (snd del) = 200 -> note_authorId note = userId context)
  /\ (note_authorId note <> userId context ->
      status (snd del) = 403
      /\ body (snd del)
         = JObj [("success", JBool false);
                 ("error", JStr "You can only delete your own notes")]
      /\ fst del = db
      /\ note_findFirst (fst del) id (tenantId context) = Some note
      /\ fst put = db
      /\ note_findFirst (fst put) id (tenantId context) = Some note
      /\ (forall rb, requestBody = Some rb ->
            isValid (validateUpdateNote rb) = true ->
            status (snd put) = 403
            /\ body (snd put)
               = JObj [("success", JBool false);
                       ("error", JStr "You can only edit your own notes")])
      /\ (requestBody = None -> status (snd put) = 400)
      /\ (forall rb, requestBody = Some rb ->
            isValid (validateUpdateNote rb) = false ->
            status (snd put) = 400)
      /\ (status (snd put) = 403 <->
          exists rb, requestBody = Some rb
                     /\ isValid (validateUpdateNote rb) = true)
      /\ (nonEmpty (note_authorId note) = true ->
          canPerformAction context UPDATE_OWN_NOTES (Some (note_authorId note))
          = false
          /\ canPerformAction context DELETE_OWN_NOTES (Some (note_authorId note))
             = false)).
Proof.
  intros Hrole Hmiss Hid Hfind put del.
  assert (Hcheck : note_authorId note <> userId context ->
            negb (jseqb (note_authorId note) (userId context))
            && negb (Role_eqb (role context) ADMIN) = true).
  { intros Hne. rewrite Hrole, (jseqb_neq _ _ Hne). reflexivity. }
  assert (Hown : negb (jseqb (note_authorId note) (userId context))
                 && negb (Role_eqb (role context) ADMIN) = false ->
                 note_authorId note = userId context).
  { rewrite Hrole. cbn. rewrite andb_true_r. intros H.
    apply negb_false_iff in H. now apply jseqb_eq. }
  subst put del.
  unfold PUT_note, PUT_note_body, DELETE_note, DELETE_note_body.
  rewrite getUserContextFromToken_verified, Hmiss, Hid, Hfind. cbn [negb].
  destruct (negb (jseqb (note_authorId note) (userId context))
            && negb (Role_eqb (role context) ADMIN)) eqn:Hc.
  - split; [|split].
    + destruct requestBody as [rb|]; [|cbn; discriminate].
      destruct (isValid (validateUpdateNote rb)); cbn; discriminate.
    + cbn. discriminate.
    + intros Hne.
      split; [reflexivity|]. split; [reflexivity|]. split; [reflexivity|].
      split; [exact Hfind|].
      assert (Hput : fst (tryCatch
                (match requestBody with
                 | Some rb =>
                     if negb (isValid (validateUpdateNote rb))
                     then (db, Ok (createValidationError
                                     ("Validation failed: "
                                      +++ join ", "
                                            (errors (validateUpdateNote rb)))))
                     else (db, Ok (createApiError
                                     "You can only edit your own notes" 403))
                 | None =>
                     (db, Ok (createValidationError
                                "Invalid JSON in request body"))
                 end)
                (fun message =>
                   if includes message "Record to update not found"
                   then createNotFoundError "Note"
                   else createApiError "Failed to update note" 500)) = db).
      { destruct requestBody as [rb|]; [|reflexivity].
        destruct (isValid (validateUpdateNote rb)); reflexivity. }
      split; [exact Hput|]. split; [rewrite Hput; exact Hfind|].
      split; [|split; [|split; [|split]]].
      * intros rb -> Hv. rewrite Hv. split; reflexivity.
      * intros ->. reflexivity.
      * intros rb -> Hv. rewrite Hv. reflexivity.
      * split.
        -- destruct requestBody as [rb|]; [|cbn; discriminate].
           destruct (isValid (validateUpdateNote rb)) eqn:Hv;
             [|cbn; discriminate].
           intros _. exists rb. auto.
        -- intros (rb & -> & Hv). rewrite Hv. reflexivity.
      * intros Hnonempty.
        rewrite !(canPerformAction_member _ _ _ Hrole Hnonempty).
        assert (jseqb (userId context) (note_authorId note) = false) as ->
          by (apply jseqb_neq; congruence).
        split; reflexivity.
  - specialize (Hown eq_refl). split; [|split]; auto.
    intros Hne. contradiction.
Qed.

Lemma member_ownership_restriction_witness :
  let put body := PUT_note sampleDb (Verified acmeUserContext)
                    (note_id acmeNote1) (Some body) 6000 in
  let del := DELETE_note sampleDb (Verified acmeUserContext)
               (note_id acmeNote1) in
  note_findFirst sampleDb (note_id acmeNote1) (tenantId acmeUserContext)
  = Some acmeNote1
  /\ note_authorId acmeNote1 <> userId acmeUserContext
  /\ status (snd del) = 403
  /\ fst del = sampleDb
  /\ status (snd (put (JObj [("title", JStr "Taken over")]))) = 403
  /\ fst (put (JObj [("title", JStr "Taken over")])) = sampleDb
  /\ status (snd (put (JObj []))) = 400.
Proof.
  intros put del.
  assert (Hne : note_authorId acmeNote1 <> userId acmeUserContext)
    by (vm_compute; discriminate).
  split; [reflexivity|]. split; [exact Hne|].
  pose proof (member_ownership_restriction sampleDb acmeUserContext
                (note_id acmeNote1) acmeNote1
                (Some (JObj [("title", JStr "Taken over")])) 6000
                eq_refl eq_refl eq_refl eq_refl) as (_ & _ & H).
  pose proof (member_ownership_restriction sampleDb acmeUserContext
                (note_id acmeNote1) acmeNote1
                (Some (JObj [])) 6000
                eq_refl eq_refl eq_refl eq_refl) as (_ & _ & H').
  destruct (H Hne) as (Hdel & _ & Hdeldb & _ & Hputdb & _ & Hput & _).
  destruct (H' Hne) as (_ & _ & _ & _ & _ & _ & _ & _ & Hbad & _).
  split; [exact Hdel|]. split; [exact Hdeldb|].
  split; [exact (proj1 (Hput _ eq_refl eq_refl))|]. split; [exact Hputdb|].
  exact (Hbad _ eq_refl eq_refl).
Defined.

(** ** Tenant isolation *)

Lemma In_insertBy le x y l : In y (insertBy le x l) -> y = x \/ In y l.
Proof.
  induction l as [|z l IH]; simpl.
  - intros [->|[]]. now left.
  - destruct (le x z); simpl.
    + intros [->|H]; auto.
    + intros [->|H]; auto. destruct (IH H); auto.
Qed.

Lemma In_sortBy le y l : In y (sortBy le l) -> In y l.
Proof.
  induction l as [|x l IH]; simpl; [auto|].
  intros H. apply In_insertBy in H as [->|H]; auto.
Qed.

Lemma In_firstn_in {A} n (l : list A) x : In x (firstn n l) -> In x l.
Proof.
  revert l; induction n as [|n IH]; intros [|a l]; simpl; try tauto.
  intros [->|H]; auto.
Qed.

Lemma In_skipn_in {A} n (l : list A) x : In x (skipn n l) -> In x l.
Proof.
  revert l; induction n as [|n IH]; intros [|a l]; simpl; try tauto.
  intros H. right. now apply IH.
Qed.

Lemma note_findMany_filters icontains title_le maxSkip db tid search
  f desc skip take rows row :
  note_findMany title_le maxSkip db (noteWhere icontains tid search)
    f desc skip take = Ok rows ->
  In row rows -> In row (notes db) /\ note_tenantId row = tid.
Proof.
  unfold note_findMany.
  destruct skip as [[skip| |]|]; try discriminate.
  destruct take as [take| |]; try discriminate.
  destruct (skip >? maxSkip); [discriminate|].
  intros [= <-] Hin.
  apply In_firstn_in, In_skipn_in, In_sortBy, filter_In in Hin as [Hin Hw].
  split; [exact Hin|].
  unfold noteWhere in Hw. apply andb_true_iff in Hw as [Hw _].
  now apply jseqb_eq.
Qed.

Lemma returnedNotes_error m st : returnedNotes (createApiError m st) = [].
Proof. reflexivity. Qed.

Lemma GET_note_reads_own_tenant db request id v :
  In v (returnedNotes (GET_note db request id)) ->
  exists context row,
    request = Verified context /\ In row (notes db)
    /\ note_tenantId row = tenantId context /\ v = noteJson db row.
Proof.
  unfold GET_note.
  destruct request as [| |context]; try (cbn; tauto).
  rewrite getUserContextFromToken_verified.
  destruct (missingIdentity context); [cbn; tauto|].
  destruct (validateNoteId id); [|cbn; tauto]. cbn [negb].
  destruct (note_findFirst db id (tenantId context)) as [note|] eqn:Hfind;
    [|cbn; tauto].
  apply note_findFirst_some in Hfind as (Hin & _ & Htid).
  cbn. intros [<-|[]]. exists context, note. auto.
Qed.

Lemma GET_notes_reads_own_tenant icontains title_le maxSkip db request query v :
  In v (returnedNotes
          (GET_notes icontains title_le maxSkip db request query)) ->
  exists context row,
    request = Verified context /\ In row (notes db)
    /\ note_tenantId row = tenantId context /\ v = noteJson db row.
Proof.
  unfold GET_notes, GET_notes_body.
  destruct request as [| |context]; try (cbn; tauto).
  rewrite getUserContextFromToken_verified.
  destruct (missingIdentity context); [cbn; tauto|].
  destruct (negb (isValid (validateNoteQueryParams query))); [cbn; tauto|].
  destruct (parseInt _) as [pageNum|]; [|cbn; tauto].
  destruct (parseInt _) as [limitNum|]; [|cbn; tauto].
  destruct (sortField _) as [orderBy|]; [|cbn; tauto].
  destruct (note_findMany _ _ _ _ _ _ _ _) as [rows|] eqn:Hrows; [|cbn; tauto].
  destruct (getSubscriptionStatus db (tenantId context)); [|cbn; tauto].
  cbn. intros Hin.
  apply in_map_iff in Hin as (row & <- & Hin).
  destruct (note_findMany_filters _ _ _ _ _ _ _ _ _ _ _ _ Hrows Hin).
  exists context, row. auto.
Qed.

Lemma NoDup_map_inj {A B} (f : A -> B) (l : list A) a b :
  NoDup (List.map f l) -> In a l -> In b l -> f a = f b -> a = b.
Proof.
  induction l as [|x l IH]; simpl; [tauto|].
  intros Hnd Ha Hb Hf. inversion Hnd as [|? ? Hnotin Hnd']; subst.
  destruct Ha as [->|Ha], Hb as [->|Hb]; auto.
  - exfalso. apply Hnotin. rewrite Hf. now apply in_map.
  - exfalso. apply Hnotin. rewrite <- Hf. now apply in_map.
Qed.

Lemma foreign_id_not_returned db context n r :
  uniqueNoteIds db ->
  In n (notes db) ->
  note_tenantId n <> tenantId context ->
  (forall v, In v (returnedNotes r) ->
     exists row, In row (notes db) /\ note_tenantId row = tenantId context
                 /\ v = noteJson db row) ->
  ~ In (note_id n) (returnedNoteIds r).
Proof.
  intros Huniq Hin Hother Hreads Hret.
  unfold returnedNoteIds in Hret.
  apply in_flat_map in Hret as (v & Hv & Hid).
  destruct (Hreads v Hv) as (row & Hrow & Htid & ->).
  cbn in Hid. destruct Hid as [Hid|[]].
  assert (row = n) by (eapply NoDup_map_inj; eauto).
  subst row. contradiction.
Qed.

Lemma NoDup_snoc {A} (l : list A) (x : A) :
  NoDup l -> ~ In x l -> NoDup (l ++ [x]).
Proof.
  induction l as [|y l IH]; cbn; intros Hnd Hx.
  - constructor; [tauto|constructor].
  - inversion Hnd as [|? ? Hy Hl]; subst. constructor.
    + intros H. apply in_app_or in H as [H|[->|[]]]; tauto.
    + apply IH; tauto.
Qed.

(** Note ids stay unique, and a note keeps its tenant, through every
    request to the notes routes. *)

Lemma POST_notes_store db request requestBody newId now :
  let db1 := fst (POST_notes db request requestBody newId now) in
  db1 = db
  \/ exists n, note_id n = newId
               /\ existsb (fun m => jseqb (note_id m) newId) (notes db) = false
               /\ db1 = set_notes db (notes db ++ [n]).
Proof.
  unfold POST_notes, POST_notes_body.
  destruct (getUserContextFromToken request) as [context|]; [|cbn; auto].
  destruct (missingIdentity context); [cbn; auto|].
  destruct requestBody as [rb|]; [|cbn; auto].
  destruct (negb _); [cbn; auto|].
  destruct (data _) as [d|]; [|cbn; auto].
  destruct (validateNoteCreation _ _); [|cbn; auto].
  unfold note_create.
  destruct (existsb _ _) eqn:Hfresh; [cbn; auto|].
  destruct (tenant_findUnique _ _); [|cbn; auto].
  destruct (user_findById _ _); [|cbn; auto].
  destruct (getSubscriptionStatus _ _); cbn; right; eexists;
    repeat split; eauto.
Qed.

Lemma PUT_note_store db request id requestBody now :
  let db1 := fst (PUT_note db request id requestBody now) in
  db1 = db
  \/ exists d, db1 = set_notes db
                       (List.map (fun m => if jseqb (note_id m) id
                                           then applyUpdate d now m else m)
                                 (notes db)).
Proof.
  unfold PUT_note, PUT_note_body.
  destruct (getUserContextFromToken request) as [context|]; [|cbn; auto].
  destruct (missingIdentity context); [cbn; auto|].
  destruct (negb (validateNoteId id)); [cbn; auto|].
  destruct requestBody as [rb|]; [|cbn; auto].
  destruct (negb _); [cbn; auto|].
  destruct (note_findFirst _ _ _) as [existingNote|]; [|cbn; auto].
  destruct (_ && _); [cbn; auto|].
  destruct (data _) as [d|]; [|cbn; auto].
  unfold note_update.
  destruct (un_tags d); [cbn; auto|].
  destruct (find _ _); cbn; eauto.
Qed.

Lemma DELETE_note_store db request id :
  let db1 := fst (DELETE_note db request id) in
  db1 = db
  \/ db1 = set_notes db
             (List.filter (fun n => negb (jseqb (note_id n) id)) (notes db)).
Proof.
  unfold DELETE_note, DELETE_note_body.
  destruct (getUserContextFromToken request) as [context|]; [|cbn; auto].
  destruct (missingIdentity context); [cbn; auto|].
  destruct (negb (validateNoteId id)); [cbn; auto|].
  destruct (note_findFirst _ _ _) as [existingNote|]; [|cbn; auto].
  destruct (_ && _); [cbn; auto|].
  unfold note_delete.
  destruct (existsb _ _); [|cbn; auto].
  destruct (getSubscriptionStatus _ _); cbn; auto.
Qed.

Lemma NoDup_map_filter {A B} (f : A -> B) (p : A -> bool) (l : list A) :
  NoDup (List.map f l) -> NoDup (List.map f (List.filter p l)).
Proof.
  induction l as [|x l IH]; cbn; [auto|].
  intros H. inversion H as [|? ? Hx Hl]; subst.
  destruct (p x); cbn; [constructor|]; auto.
  intros Hin. apply Hx. apply in_map_iff in Hin as (y & Hy & Hin).
  apply filter_In in Hin as [Hin _]. apply in_map_iff. eauto.
Qed.

Lemma notesStep_uniqueNoteIds :
  forall db0 db1, notesStep db0 db1 -> uniqueNoteIds db0 -> uniqueNoteIds db1.
Proof.
  unfold uniqueNoteIds.
  intros db0 db1 [db request requestBody newId now
                 |db request id requestBody now
                 |db request id] Huniq.
  - destruct (POST_notes_store db request requestBody newId now)
      as [->|(n & Hid & Hfresh & ->)]; [exact Huniq|].
    cbn. rewrite map_app. cbn. apply NoDup_snoc; [exact Huniq|].
    intros Hin. apply in_map_iff in Hin as (m & Hm & Hin).
    assert (existsb (fun m0 => jseqb (note_id m0) newId) (notes db) = true).
    { apply existsb_exists. exists m. split; [exact Hin|].
      apply jseqb_eq. congruence. }
    congruence.
  - destruct (PUT_note_store db request id requestBody now) as [->|(d & ->)];
      [exact Huniq|].
    cbn. rewrite map_map.
    erewrite map_ext; [exact Huniq|].
    intros m. destruct (jseqb (note_id m) id); reflexivity.
  - destruct (DELETE_note_store db request id) as [->| ->]; [exact Huniq|].
    cbn. now apply NoDup_map_filter.
Qed.

Lemma notesStep_keeps_tenant :
  forall db0 db1, notesStep db0 db1 -> uniqueNoteIds db0 ->
  forall n n', In n (notes db0) -> In n' (notes db1) ->
               note_id n' = note_id n ->
               note_tenantId n' = note_tenantId n.
Proof.
  intros db0 db1 [db request requestBody newId now
                 |db request id requestBody now
                 |db request id] Huniq n n' Hn Hn' Hid.
  - destruct (POST_notes_store db request requestBody newId now)
      as [E|(m & Hm & Hfresh & E)]; rewrite E in Hn'.
    + now rewrite (NoDup_map_inj note_id (notes db) n' n Huniq Hn' Hn Hid).
    + cbn in Hn'. apply in_app_or in Hn' as [Hn'|[<-|[]]].
      * now rewrite (NoDup_map_inj note_id (notes db) n' n Huniq Hn' Hn Hid).
      * exfalso.
        assert (existsb (fun m0 => jseqb (note_id m0) newId) (notes db) = true).
        { apply existsb_exists. exists n. split; [exact Hn|].
          apply jseqb_eq. congruence. }
        congruence.
  - destruct (PUT_note_store db request id requestBody now) as [E|(d & E)];
      rewrite E in Hn'.
    + now rewrite (NoDup_map_inj note_id (notes db) n' n Huniq Hn' Hn Hid).
    + cbn in Hn'. apply in_map_iff in Hn' as (m & Hm & Hin).
      assert (Hsame : note_id n' = note_id m /\ note_tenantId n' = note_tenantId m).
      { subst n'. destruct (jseqb (note_id m) id); split; reflexivity. }
      destruct Hsame as [Hi Ht]. rewrite Ht.
      now rewrite (NoDup_map_inj note_id (notes db) m n Huniq Hin Hn
                     ltac:(congruence)).
  - destruct (DELETE_note_store db request id) as [E|E]; rewrite E in Hn'.
    + now rewrite (NoDup_map_inj note_id (notes db) n' n Huniq Hn' Hn Hid).
    + cbn in Hn'. apply filter_In in Hn' as [Hn' _].
      now rewrite (NoDup_map_inj note_id (notes db) n' n Huniq Hn' Hn Hid).
Qed.

(** C1 -- Every note object returned by the get and list routes is the
    view of a row whose tenantId is the caller's.  Hence, note ids being
    unique, a note of tenant T1 is never among the notes returned to a
    caller of tenant T2 <> T1, and asking for it by id is answered like
    an absent row. *)
Theorem tenant_isolation (icontains title_le : jsstring -> jsstring -> bool)
  (maxSkip : Z) (db : Db) (context : UserContext) (n : Note)
  (id : jsstring) (query : NoteQueryParams) :
  uniqueNoteIds db ->
  In n (notes db) ->
  note_tenantId n <> tenantId context ->
  let got := GET_note db (Verified context) id in
  let listed :=
    GET_notes icontains title_le maxSkip db (Verified context) query in
  (forall v, In v (returnedNotes got) \/ In v (returnedNotes listed) ->
     exists row, In row (notes db) /\ note_tenantId row = tenantId context
                 /\ v = noteJson db row)
  /\ ~ In (note_id n) (returnedNoteIds got)
  /\ ~ In (note_id n) (returnedNoteIds listed)
  /\ (id = note_id n -> missingIdentity context = false ->
      validateNoteId id = true -> got = createNotFoundError "Note").
Proof.
  intros Huniq Hin Hother got listed.
  assert (Hgot : forall v, In v (returnedNotes got) ->
            exists row, In row (notes db)
                        /\ note_tenantId row = tenantId context
                        /\ v = noteJson db row).
  { intros v Hv. apply GET_note_reads_own_tenant in Hv
      as (c & row & [= <-] & H1 & H2 & H3). eauto. }
  assert (Hlisted : forall v, In v (returnedNotes listed) ->
            exists row, In row (notes db)
                        /\ note_tenantId row = tenantId context
                        /\ v = noteJson db row).
  { intros v Hv. apply GET_notes_reads_own_tenant in Hv
      as (c & row & [= <-] & H1 & H2 & H3). eauto. }
  split; [intros v [Hv|Hv]; auto|].
  split; [eapply foreign_id_not_returned; eauto|].
  split; [eapply foreign_id_not_returned; eauto|].
  intros -> Hmiss Hvalid. subst got. unfold GET_note.
  rewrite getUserContextFromToken_verified, Hmiss, Hvalid. cbn [negb].
  destruct (note_findFirst db (note_id n) (tenantId context)) as [row|] eqn:Hf;
    [|reflexivity].
  apply note_findFirst_some in Hf as (Hrow & Hid & Htid).
  assert (row = n) by (eapply NoDup_map_inj; eauto).
  subst row. contradiction.
Qed.

Lemma sampleDb_uniqueNoteIds : uniqueNoteIds sampleDb.
Proof.
  unfold uniqueNoteIds. vm_compute.
  repeat (constructor; [simpl; intuition discriminate|]). constructor.
Qed.

Lemma tenant_isolation_witness :
  let listed := GET_notes sample_icontains sample_title_le 1000000 sampleDb
                  (Verified acmeUserContext) noQuery in
  note_tenantId globexNote1 <> tenantId acmeUserContext
  /\ returnedNoteIds listed
     = [note_id acmeNote3; note_id acmeNote2; note_id acmeNote1]
  /\ ~ In (note_id globexNote1) (returnedNoteIds listed)
  /\ GET_note sampleDb (Verified acmeUserContext) (note_id globexNote1)
     = createNotFoundError "Note".
Proof.
  intros listed.
  assert (Hother : note_tenantId globexNote1 <> tenantId acmeUserContext)
    by (vm_compute; discriminate).
  assert (Hin : In globexNote1 (notes sampleDb))
    by (simpl; auto).
  pose proof (tenant_isolation sample_icontains sample_title_le 1000000
                sampleDb acmeUserContext globexNote1 (note_id globexNote1)
                noQuery sampleDb_uniqueNoteIds Hin Hother)
    as (_ & _ & Hlist & Hget).
  split; [exact Hother|]. split; [reflexivity|].
  split; [exact Hlist|]. exact (Hget eq_refl eq_refl eq_refl).
Defined.

(** ** Create, then get *)

Lemma requiredStringErrors_nil field limitText maxLen o :
  requiredStringErrors field limitText maxLen o = [] ->
  exists s, o = Some (JStr s).
Proof.
  unfold requiredStringErrors.
  destruct o as [[| | |[|c s]| | |]|]; try discriminate; eauto.
Qed.

Lemma validateCreateNote_fields (rb : value) :
  isValid (validateCreateNote rb) = true ->
  exists title content,
    prop rb "title" = Some (JStr title)
    /\ prop rb "content" = Some (JStr content).
Proof.
  unfold validateCreateNote.
  destruct (negb (truthy rb) || negb (isObjectType rb)); [discriminate|].
  destruct (_ ++ _) eqn:E; [|discriminate]. intros _.
  apply app_eq_nil in E as [E1 E2]. apply app_eq_nil in E2 as [E2 _].
  apply requiredStringErrors_nil in E1 as [t Ht], E2 as [c Hc]. eauto.
Qed.

Lemma find_app_skip {A} (f : A -> bool) (l l' : list A) :
  existsb f l = false -> find f (l ++ l') = find f l'.
Proof.
  induction l as [|x l IH]; simpl; [reflexivity|].
  intros H. apply orb_false_iff in H as [Hx Hl]. rewrite Hx. auto.
Qed.

Lemma existsb_weaken {A} (f g : A -> bool) (l : list A) :
  (forall x, g x = true -> f x = true) ->
  existsb f l = false -> existsb g l = false.
Proof.
  intros Hfg. induction l as [|x l IH]; simpl; [reflexivity|].
  intros H. apply orb_false_iff in H as [Hx Hl].
  rewrite (IH Hl), orb_false_r.
  destruct (g x) eqn:E; [|reflexivity]. apply Hfg in E. congruence.
Qed.

(** What a 201 from the create route says about the call. *)
Lemma POST_notes_created db context requestBody newId now db1 r1 :
  POST_notes db (Verified context) requestBody newId now = (db1, r1) ->
  status r1 = 201 ->
  exists rb d u,
    requestBody = Some rb
    /\ isValid (validateCreateNote rb) = true
    /\ data (validateCreateNote rb) = Some d
    /\ existsb (fun m => jseqb (note_id m) newId) (notes db) = false
    /\ user_findById db (userId context) = Some u
    /\ let n := {| note_id := newId; note_title := cn_title d;
                   note_content := cn_content d;
                   note_authorId := userId context;
                   note_tenantId := tenantId context;
                   note_createdAt := now; note_updatedAt := now |} in
       db1 = set_notes db (notes db ++ [n])
       /\ jget ["data"; "note"] (body r1) = Some (noteJson db1 n).
Proof.
  unfold POST_notes, POST_notes_body.
  rewrite getUserContextFromToken_verified.
  destruct (missingIdentity context); [cbn; intros [= <- <-]; discriminate|].
  destruct requestBody as [rb|]; [|cbn; intros [= <- <-]; discriminate].
  destruct (isValid (validateCreateNote rb)) eqn:Hvalid;
    [|cbn; intros [= <- <-]; discriminate].
  destruct (validateCreateNote_data rb Hvalid) as (d & Hd & _).
  rewrite Hd. cbn [negb].
  destruct (validateNoteCreation db (tenantId context));
    [|cbn; intros [= <- <-]; discriminate].
  unfold note_create.
  destruct (existsb _ (notes db)) eqn:Hfresh;
    [cbn; intros [= <- <-]; discriminate|].
  destruct (tenant_findUnique db (tenantId context));
    [|cbn; intros [= <- <-]; discriminate].
  destruct (user_findById db (userId context)) as [u|];
    [|cbn; intros [= <- <-]; discriminate].
  destruct (getSubscriptionStatus _ _).
  2:{ unfold tryCatch. intros [= <- <-].
      destruct (includes message _); [discriminate|].
      destruct (includes message _); discriminate. }
  cbn. intros [= <- <-] _. exists rb, d, u. repeat split; auto.
Qed.

(** C7 (as amended) -- After a create answered with 201 and the id n, a
    get of n by an authenticated caller of the same tenant is answered
    with 200 and a note whose title and content are those of the request
    with leading and trailing white space removed, and whose author id
    is the creating caller's user id. *)
Theorem create_get_roundtrip (db : Db) (context reader : UserContext)
  (requestBody : option value) (newId : jsstring) (now : Z)
  (db1 : Db) (r1 : Response) :
  POST_notes db (Verified context) requestBody newId now = (db1, r1) ->
  status r1 = 201 ->
  validateNoteId newId = true ->
  missingIdentity reader = false ->
  tenantId reader = tenantId context ->
  exists rb title content,
    requestBody = Some rb
    /\ prop rb "title" = Some (JStr title)
    /\ prop rb "content" = Some (JStr content)
    /\ jget ["data"; "note"; "id"] (body r1) = Some (JStr newId)
    /\ let r2 := GET_note db1 (Verified reader) newId in
       status r2 = 200
       /\ jget ["data"; "note"; "id"] (body r2) = Some (JStr newId)
       /\ jget ["data"; "note"; "title"] (body r2) = Some (JStr (trim title))
       /\ jget ["data"; "note"; "content"] (body r2)
          = Some (JStr (trim content))
       /\ jget ["data"; "note"; "author"; "id"] (body r2)
          = Some (JStr (userId context)).
Proof.
  intros Hpost H201 Hcuid Hreader Htenant.
  destruct (POST_notes_created _ _ _ _ _ _ _ Hpost H201)
    as (rb & d & u & -> & Hvalid & Hd & Hfresh & Hu & Hdb1 & Hbody).
  cbv zeta in Hdb1, Hbody.
  destruct (validateCreateNote_fields rb Hvalid) as (title & content & Ht & Hc).
  destruct (validateCreateNote_data rb Hvalid) as (d' & Hd' & Htitle & Hcontent).
  rewrite Hd in Hd'. injection Hd' as <-.
  rewrite Ht in Htitle. rewrite Hc in Hcontent. cbn in Htitle, Hcontent.
  exists rb, title, content.
  split; [reflexivity|]. split; [exact Ht|]. split; [exact Hc|]. split.
  - destruct (body r1); try discriminate.
    cbn in Hbody |- *. destruct (assoc "data" fields) as [dv|]; [|discriminate].
    destruct (prop dv "note") as [nv|]; [|discriminate].
    injection Hbody as ->. reflexivity.
  - unfold GET_note.
    rewrite getUserContextFromToken_verified, Hreader, Hcuid, Htenant.
    cbn [negb]. subst db1. unfold note_findFirst. cbn [notes set_notes].
    rewrite find_app_skip.
    2:{ eapply existsb_weaken; [|exact Hfresh].
        intros x Hx. now apply andb_true_iff in Hx as [Hx _]. }
    cbn [find note_id note_tenantId]. rewrite !jseqb_refl. cbn [andb].
    unfold noteJson, authorJson, user_findById.
    cbn [users set_notes note_authorId note_id note_title note_content].
    fold (user_findById db (userId context)). rewrite Hu.
    apply user_findById_some in Hu as [_ Hu]. rewrite Hu, Htitle, Hcontent.
    cbn. repeat split.
Qed.

(** C7 (as stated) fails: the create route stores the trimmed title, so
    a title submitted with a leading space is not read back as it was
    submitted. *)
Lemma roundtrip_counterexample :
  let created := POST_notes sampleDb (Verified globexAdminContext)
                   (Some (noteBody " T" "C")) "cnote00000000000000000005" 5000 in
  status (snd created) = 201
  /\ jget ["data"; "note"; "title"]
       (body (GET_note (fst created) (Verified globexAdminContext)
                "cnote00000000000000000005"))
     = Some (JStr "T")
  /\ ~ roundtrip_as_stated.
Proof.
  intros created. split; [reflexivity|]. split; [reflexivity|].
  intros H.
  specialize (H sampleDb globexAdminContext globexAdminContext " T" "C"
                "cnote00000000000000000005" 5000 (fst created) (snd created)
                (surjective_pairing _) eq_refl eq_refl eq_refl eq_refl).
  destruct H as [H _]. vm_compute in H. discriminate.
Qed.

Lemma create_get_roundtrip_witness :
  let created := POST_notes sampleDb (Verified globexAdminContext)
                   (Some (noteBody "  Plan " "Ship it ")) "cnote00000000000000000005"
                   5000 in
  let r2 := GET_note (fst created) (Verified globexAdminContext)
              "cnote00000000000000000005" in
  status (snd created) = 201
  /\ jget ["data"; "note"; "title"] (body r2) = Some (JStr "Plan")
  /\ jget ["data"; "note"; "content"] (body r2) = Some (JStr "Ship it")
  /\ jget ["data"; "note"; "author"; "id"] (body r2)
     = Some (JStr (userId globexAdminContext)).
Proof.
  intros created r2.
  destruct (create_get_roundtrip sampleDb globexAdminContext globexAdminContext
              (Some (noteBody "  Plan " "Ship it ")) "cnote00000000000000000005"
              5000 (fst created) (snd created)
              (surjective_pairing _) eq_refl eq_refl eq_refl eq_refl)
    as (rb & title & content & Hrb & Ht & Hc & _ & _ & _ & H1 & H2 & H3).
  injection Hrb as <-. cbn in Ht, Hc.
  injection Ht as <-. injection Hc as <-.
  split; [reflexivity|]. split; [exact H1|]. split; [exact H2|]. exact H3.
Defined.

(** ** Accepting an invitation *)

Lemma invitation_findByToken_some db token i :
  invitation_findByToken db token = Some i ->
  In i (invitations db) /\ inv_token i = token /\ inv_status i = PENDING.
Proof.
  unfold invitation_findByToken. intros H. apply find_some in H as [Hin Hp].
  apply andb_true_iff in Hp as [H1 H2]. apply jseqb_eq in H1.
  repeat split; auto. destruct (inv_status i); auto; discriminate.
Qed.

Lemma invitation_update_cases id f db :
  invitation_update id f db = (db, Throw UpdateNotFoundMessage)
  \/ exists i, invitation_update id f db
               = (set_invitations db (markAll id f (invitations db)), Ok (f i)).
Proof.
  unfold invitation_update. destruct (find _ _) as [i|]; eauto.
Qed.

Lemma invitation_update_found i f db :
  In i (invitations db) ->
  exists i', invitation_update (inv_id i) f db
             = (set_invitations db (markAll (inv_id i) f (invitations db)),
                Ok (f i')).
Proof.
  intros Hin. unfold invitation_update.
  destruct (find _ _) as [i'|] eqn:E; [eauto|].
  eapply find_none in E; [|exact Hin]. cbn in E.
  rewrite jseqb_refl in E. discriminate.
Qed.

Lemma In_markAll i f l :
  In i l -> In (f i) (markAll (inv_id i) f l).
Proof.
  intros Hin. unfold markAll.
  apply in_map_iff. exists i. rewrite jseqb_refl. auto.
Qed.

Lemma user_create_cases u db :
  (exists m, user_create u db = (db, Throw m))
  \/ user_create u db = (set_users db (users db ++ [u]), Ok u).
Proof.
  unfold user_create. destruct (existsb _ _); [eauto|].
  destruct (tenant_findUnique _ _); eauto.
Qed.

Lemma user_create_fresh u db tenant :
  existsb (fun v => jseqb (user_id v) (user_id u)) (users db) = false ->
  user_findFirst db (user_email u) (user_tenantId u) = None ->
  tenant_findUnique db (user_tenantId u) = Some tenant ->
  user_create u db = (set_users db (users db ++ [u]), Ok u).
Proof.
  intros Hid Hmail Htenant. unfold user_create. rewrite Htenant.
  replace (existsb _ (users db)) with false; [reflexivity|].
  symmetry. unfold user_findFirst in Hmail.
  induction (users db) as [|v l IH]; [reflexivity|].
  cbn in Hid, Hmail |- *. apply orb_false_iff in Hid as [Hv Hl].
  destruct (jseqb (user_email v) (user_email u)
            && jseqb (user_tenantId v) (user_tenantId u)); [discriminate|].
  rewrite Hv. cbn. auto.
Qed.

(** The transaction either commits both writes or leaves the store as it
    found it. *)
Lemma acceptTransaction_atomic fault invitation hashed newUserId now db :
  In invitation (invitations db) ->
  let newUser := {| user_id := newUserId;
                    user_email := inv_email invitation;
                    user_password := hashed;
                    user_role := inv_role invitation;
                    user_tenantId := inv_tenantId invitation |} in
  (fault = NoFault
   /\ user_create newUser db = (set_users db (users db ++ [newUser]), Ok newUser)
   /\ transaction (acceptTransaction fault invitation hashed newUserId now) db
      = ({| tenants := tenants db; users := users db ++ [newUser];
            notes := notes db;
            invitations := markAll (inv_id invitation)
                             (setStatus ACCEPTED (Some now)) (invitations db) |},
         Ok newUser))
  \/ ((fault <> NoFault
       \/ exists m, user_create newUser db = (db, Throw m))
      /\ exists m,
        transaction (acceptTransaction fault invitation hashed newUserId now) db
        = (db, Throw m)).
Proof.
  intros Hin newUser.
  unfold transaction, acceptTransaction, bind, storeFailure, ret.
  fold newUser.
  destruct fault.
  - destruct (user_create_cases newUser db) as [[m Hm]|Hok].
    + right. rewrite Hm. split; eauto.
    + left. rewrite Hok.
      destruct (invitation_update_found invitation
                  (setStatus ACCEPTED (Some now))
                  (set_users db (users db ++ [newUser])) Hin) as [i' Hi'].
      rewrite Hi'. auto.
  - right. split; [left; discriminate|]. eauto.
  - right. split; [left; discriminate|].
    destruct (user_create newUser db) as [db1 [u|m]]; eauto.
Qed.

Lemma tenant_findUnique_set_invitations db l id :
  tenant_findUnique (set_invitations db l) id = tenant_findUnique db id.
Proof. reflexivity. Qed.

Lemma user_findById_set_invitations db l id :
  user_findById (set_invitations db l) id = user_findById db id.
Proof. reflexivity. Qed.

(** ** Accepted invitations have their user: an invariant of the
    invitation routes *)

Lemma user_findFirst_some db mail tid u :
  user_findFirst db mail tid = Some u ->
  In u (users db) /\ user_email u = mail /\ user_tenantId u = tid.
Proof.
  unfold user_findFirst. intros H. apply find_some in H as [Hin Hp].
  apply andb_true_iff in Hp as [H1 H2]. apply jseqb_eq in H1, H2. auto.
Qed.

Lemma In_markAll_inv id f l i :
  In i (markAll id f l) ->
  exists j, In j l /\ ((inv_id j = id /\ i = f j) \/ i = j).
Proof.
  unfold markAll. intros H. apply in_map_iff in H as (j & <- & Hj).
  exists j. split; [exact Hj|].
  destruct (jseqb (inv_id j) id) eqn:E; [left|right; reflexivity].
  apply jseqb_eq in E. auto.
Qed.

Lemma map_id_markAll id s t l :
  List.map inv_id (markAll id (setStatus s t) l) = List.map inv_id l.
Proof.
  unfold markAll. rewrite map_map. apply map_ext.
  intros j. destruct (jseqb (inv_id j) id); reflexivity.
Qed.

Lemma acceptedHaveUser_mark db invitation s t us :
  uniqueInvitationIds db ->
  acceptedHaveUser db ->
  In invitation (invitations db) ->
  (forall u, In u (users db) -> In u us) ->
  (s = ACCEPTED ->
   exists u, In u us /\ user_email u = inv_email invitation
             /\ user_tenantId u = inv_tenantId invitation) ->
  acceptedHaveUser
    {| tenants := tenants db; users := us; notes := notes db;
       invitations := markAll (inv_id invitation) (setStatus s t)
                        (invitations db) |}.
Proof.
  intros Huniq Hinv Hin Hkeep Hnew i Hi Hacc. cbn in Hi |- *.
  apply In_markAll_inv in Hi as (j & Hj & [[Hid ->]| ->]).
  - assert (j = invitation) by (eapply NoDup_map_inj; eauto).
    subst j. cbn in Hacc. exact (Hnew Hacc).
  - destruct (Hinv j Hj Hacc) as (u & Hu & He & Ht). eauto.
Qed.

Lemma invitation_update_preserves invitation s t db :
  uniqueInvitationIds db ->
  acceptedHaveUser db ->
  In invitation (invitations db) ->
  (s = ACCEPTED ->
   exists u, In u (users db) /\ user_email u = inv_email invitation
             /\ user_tenantId u = inv_tenantId invitation) ->
  let db1 := fst (invitation_update (inv_id invitation) (setStatus s t) db) in
  uniqueInvitationIds db1 /\ acceptedHaveUser db1.
Proof.
  intros Huniq Hinv Hin Hnew db1. subst db1.
  destruct (invitation_update_cases (inv_id invitation) (setStatus s t) db)
    as [H|[i H]]; rewrite H; cbn [fst]; [auto|].
  split.
  - unfold uniqueInvitationIds. cbn. now rewrite map_id_markAll.
  - apply (acceptedHaveUser_mark db invitation s t (users db)); auto.
Qed.

Lemma POST_accept_preserves zodIssues hash fault db requestBody newUserId now :
  uniqueInvitationIds db ->
  acceptedHaveUser db ->
  let db1 := fst (POST_accept zodIssues hash fault db requestBody newUserId now) in
  uniqueInvitationIds db1 /\ acceptedHaveUser db1.
Proof.
  intros Huniq Hinv db1. subst db1.
  unfold POST_accept, POST_accept_body.
  destruct requestBody as [b|]; [|cbn; auto].
  destruct (acceptInvitationSchema b) as [[token password]|]; [|cbn; auto].
  destruct (invitation_findByToken db token) as [invitation|] eqn:Hfind;
    [|cbn; auto].
  pose proof (invitation_findByToken_some _ _ _ Hfind) as (Hin & _ & _).
  destruct (inv_expiresAt invitation <? now).
  { pose proof (invitation_update_preserves invitation EXPIRED None db
                  Huniq Hinv Hin ltac:(discriminate)) as H.
    destruct (invitation_update _ _ db) as [db1 [i|m]]; exact H. }
  destruct (user_findFirst db (inv_email invitation) (inv_tenantId invitation))
    as [existingUser|] eqn:Huser.
  { apply user_findFirst_some in Huser as (Hu & He & Ht).
    pose proof (invitation_update_preserves invitation ACCEPTED (Some now) db
                  Huniq Hinv Hin ltac:(eauto)) as H.
    destruct (invitation_update _ _ db) as [db1 [i|m]]; exact H. }
  destruct (tenant_findUnique db (inv_tenantId invitation)) as [tenant|];
    [|cbn; auto].
  destruct (_ && _); [cbn; auto|].
  destruct (acceptTransaction_atomic fault invitation (hash password)
              newUserId now db Hin) as [(_ & _ & Htx)|(_ & m & Htx)];
    rewrite Htx; cbn [tryCatch fst]; [|auto].
  split.
  - unfold uniqueInvitationIds. cbn. now rewrite map_id_markAll.
  - apply acceptedHaveUser_mark; auto.
    + intros u Hu. apply in_or_app. now left.
    + intros _. eexists. split; [apply in_or_app; right; left; reflexivity|].
      split; reflexivity.
Qed.

Lemma GET_accept_preserves db token now :
  uniqueInvitationIds db ->
  acceptedHaveUser db ->
  let db1 := fst (GET_accept db token now) in
  uniqueInvitationIds db1 /\ acceptedHaveUser db1.
Proof.
  intros Huniq Hinv db1. subst db1. unfold GET_accept, GET_accept_body.
  destruct token as [[|c token]|]; try (cbn; auto; fail).
  destruct (invitation_findByToken db (c :: token)) as [invitation|] eqn:Hfind;
    [|cbn; auto].
  pose proof (invitation_findByToken_some _ _ _ Hfind) as (Hin & _ & _).
  destruct (inv_expiresAt invitation <? now).
  { pose proof (invitation_update_preserves invitation EXPIRED None db
                  Huniq Hinv Hin ltac:(discriminate)) as H.
    destruct (invitation_update _ _ db) as [db1 [i|m]]; exact H. }
  destruct (user_findFirst _ _ _); [cbn; auto|].
  destruct (tenant_findUnique _ _); [|cbn; auto].
  destruct (user_findById _ _); cbn; auto.
Qed.

Lemma POST_invite_preserves isEmail zodIssues LocalTZA db request requestBody token
  newId now appUrl :
  uniqueInvitationIds db ->
  acceptedHaveUser db ->
  let db1 := fst (POST_invite isEmail zodIssues LocalTZA db request requestBody token
                    newId now appUrl) in
  uniqueInvitationIds db1 /\ acceptedHaveUser db1.
Proof.
  intros Huniq Hinv db1. subst db1. unfold POST_invite, POST_invite_body.
  destruct (getUserContextFromToken request) as [userContext|]; [|cbn; auto].
  destruct (negb _); [cbn; auto|].
  destruct requestBody as [b|]; [|cbn; auto].
  destruct (inviteRequestSchema isEmail b) as [[mail r]|]; [|cbn; auto].
  destruct (user_findFirst _ _ _); [cbn; auto|].
  destruct (invitation_findPending _ _ _); [cbn; auto|].
  destruct (tenant_findUnique db (tenantId userContext)) as [tenant|] eqn:Ht;
    [|cbn; auto].
  destruct (_ && _); [cbn; auto|].
  unfold invitation_create. cbn [inv_id inv_token inv_tenantId inv_invitedBy].
  destruct (existsb _ (invitations db)) eqn:Hfresh; [cbn; auto|].
  rewrite Ht.
  destruct (user_findById db (userId userContext)) as [inviter|] eqn:Hi;
    [|cbn; auto].
  rewrite tenant_findUnique_set_invitations, user_findById_set_invitations.
  cbn [inv_tenantId inv_invitedBy]. rewrite Ht, Hi. cbn [tryCatch fst].
  split.
  - unfold uniqueInvitationIds. cbn. rewrite map_app. cbn.
    apply NoDup_snoc; [exact Huniq|].
    intros Hdup. apply in_map_iff in Hdup as (j & Hid & Hj).
    assert (existsb (fun j0 => jseqb (inv_id j0) newId
                               || jseqb (inv_token j0) token)
              (invitations db) = true).
    { apply existsb_exists. exists j. split; [exact Hj|].
      rewrite Hid, jseqb_refl. reflexivity. }
    congruence.
  - intros i Hin Hacc. cbn in Hin |- *.
    apply in_app_or in Hin as [Hin|[<-|[]]]; [auto|discriminate].
Qed.

(** Through any sequence of requests to the invitation routes, every
    ACCEPTED invitation keeps a user row with its address. *)
Lemma invitationReachable_acceptedHaveUser db0 db :
  uniqueInvitationIds db0 ->
  acceptedHaveUser db0 ->
  invitationReachable db0 db ->
  uniqueInvitationIds db /\ acceptedHaveUser db.
Proof.
  intros Huniq Hinv Hreach.
  induction Hreach as [|db db' _ IH Hstep]; [auto|].
  destruct IH as [Hu Ha].
  destruct Hstep.
  - now apply POST_invite_preserves.
  - now apply POST_accept_preserves.
  - now apply GET_accept_preserves.
Qed.

Ltac not_acceptable :=
  let inv0 := fresh "inv0" in
  let t0 := fresh "t0" in
  let Hm := fresh "Hm" in
  let Hle := fresh "Hle" in
  let Hu := fresh "Hu" in
  let Ht := fresh "Ht" in
  let Hcap := fresh "Hcap" in
  let Hfresh := fresh "Hfresh" in
  intros (inv0 & t0 & Hm & Hle & Hu & Ht & Hcap & Hfresh);
  try discriminate Hm; try (injection Hm as <-);
  try congruence.

(** What each outcome of an accept says about the store. *)
Lemma POST_accept_outcomes (zodIssues : value -> list (jsstring * jsstring))
  (hash : jsstring -> jsstring) (fault : StoreFault) (db : Db)
  (requestBody : option value) (newUserId : jsstring) (now : Z) :
  let result := POST_accept zodIssues hash fault db requestBody newUserId now in
  (status (snd result) = 201 ->
   exists invitation newUser,
     matchedInvitation db requestBody = Some invitation
     /\ now <= inv_expiresAt invitation
     /\ user_id newUser = newUserId
     /\ user_email newUser = inv_email invitation
     /\ user_role newUser = inv_role invitation
     /\ user_tenantId newUser = inv_tenantId invitation
     /\ users (fst result) = users db ++ [newUser]
     /\ invitations (fst result)
        = markAll (inv_id invitation) (setStatus ACCEPTED (Some now))
            (invitations db)
     /\ In (setStatus ACCEPTED (Some now) invitation)
          (invitations (fst result)))
  /\ (status (snd result) <> 201 -> users (fst result) = users db)
  /\ (status (snd result) = 500 -> fst result = db)
  /\ (fault <> NoFault -> status (snd result) <> 201)
  /\ (acceptable db requestBody newUserId now -> fault = NoFault ->
      status (snd result) = 201).
Proof.
  intros result. subst result.
  unfold acceptable, POST_accept, POST_accept_body, matchedInvitation.
  destruct requestBody as [b|].
  2:{ cbn. repeat split; try discriminate; try not_acceptable. }
  destruct (acceptInvitationSchema b) as [[token password]|].
  2:{ cbn. repeat split; try discriminate; try not_acceptable. }
  destruct (invitation_findByToken db token) as [invitation|] eqn:Hfind.
  2:{ cbn. repeat split; try discriminate; try not_acceptable. }
  pose proof (invitation_findByToken_some _ _ _ Hfind) as (Hin & _ & _).
  destruct (inv_expiresAt invitation <? now) eqn:Hexp.
  { apply Z.ltb_lt in Hexp.
    destruct (invitation_update_cases (inv_id invitation)
                (setStatus EXPIRED None) db) as [H|[i H]]; rewrite H; cbn;
      repeat split; try discriminate; try not_acceptable; lia. }
  apply Z.ltb_ge in Hexp.
  destruct (user_findFirst db (inv_email invitation) (inv_tenantId invitation))
    as [existingUser|] eqn:Huser.
  { destruct (invitation_update_cases (inv_id invitation)
                (setStatus ACCEPTED (Some now)) db) as [H|[i H]]; rewrite H; cbn;
      repeat split; try discriminate; try not_acceptable. }
  destruct (tenant_findUnique db (inv_tenantId invitation)) as [tenant|]
    eqn:Htenant.
  2:{ cbn. repeat split; try discriminate; try not_acceptable. }
  destruct (match tenant_plan tenant with FREE => true | PRO => false end
            && (5 <=? user_count db (inv_tenantId invitation))) eqn:Hlimit.
  { cbn. repeat split; try discriminate; try not_acceptable.
    rewrite Htenant in Ht. injection Ht as <-.
    apply andb_true_iff in Hlimit as [Hplan Hcount].
    apply Z.leb_le in Hcount.
    destruct Hcap as [Hpro|Hroom]; [rewrite Hpro in Hplan; discriminate|lia]. }
  destruct (acceptTransaction_atomic fault invitation (hash password)
              newUserId now db Hin) as [(Hf & Hcreate & Htx)|(Hwhy & m & Htx)];
    rewrite Htx; cbn.
  - split; [|repeat split; try congruence].
    intros _. eexists invitation, _. repeat split; try reflexivity; auto.
    now apply In_markAll.
  - repeat split; try discriminate.
    not_acceptable. intros Hnofault.
    destruct Hwhy as [Hfault|[m' Hm']]; [contradiction|].
    erewrite user_create_fresh in Hm'; eauto; discriminate.
Qed.

Lemma matchedInvitation_some db requestBody i :
  matchedInvitation db requestBody = Some i ->
  In i (invitations db) /\ inv_status i = PENDING
  /\ exists b password,
       requestBody = Some b
       /\ acceptInvitationSchema b = Some (inv_token i, password).
Proof.
  unfold matchedInvitation. destruct requestBody as [b|]; [|discriminate].
  destruct (acceptInvitationSchema b) as [[token password]|] eqn:Hs;
    [|discriminate].
  intros H. apply invitation_findByToken_some in H as (Hin & <- & Hp).
  split; [exact Hin|]. split; [exact Hp|]. exists b, password. auto.
Qed.

(** The outcomes of a request to the accept route: the store is left
    alone; or the designated invitation is closed without a user (409,
    410); or the user is created and the invitation accepted (201). *)
Lemma POST_accept_cases zodIssues hash fault db requestBody newUserId now :
  let result := POST_accept zodIssues hash fault db requestBody newUserId now in
  (fst result = db /\ status (snd result) <> 201
   /\ status (snd result) <> 409 /\ status (snd result) <> 410)
  \/ (exists i s t,
        matchedInvitation db requestBody = Some i /\ isPENDING s = false
        /\ (status (snd result) = 409 \/ status (snd result) = 410)
        /\ fst result = set_invitations db
                          (markAll (inv_id i) (setStatus s t) (invitations db)))
  \/ (exists i b token password,
        requestBody = Some b
        /\ acceptInvitationSchema b = Some (token, password)
        /\ invitation_findByToken db token = Some i
        /\ fault = NoFault /\ status (snd result) = 201
        /\ fst result
           = {| tenants := tenants db;
                users := users db
                         ++ [{| user_id := newUserId;
                                user_email := inv_email i;
                                user_password := hash password;
                                user_role := inv_role i;
                                user_tenantId := inv_tenantId i |}];
                notes := notes db;
                invitations :=
                  markAll (inv_id i) (setStatus ACCEPTED (Some now))
                    (invitations db) |}).
Proof.
  unfold POST_accept, POST_accept_body, matchedInvitation.
  destruct requestBody as [b|];
    [|cbn; left; repeat split; discriminate].
  destruct (acceptInvitationSchema b) as [[token password]|] eqn:Hschema;
    [|cbn; left; repeat split; discriminate].
  destruct (invitation_findByToken db token) as [invitation|] eqn:Hfind;
    [|cbn; left; repeat split; discriminate].
  pose proof (invitation_findByToken_some _ _ _ Hfind) as (Hin & _ & Hp).
  destruct (inv_expiresAt invitation <? now).
  { destruct (invitation_update_cases (inv_id invitation)
                (setStatus EXPIRED None) db) as [H|[i H]]; rewrite H;
      cbn [tryCatch fst snd]; [left; cbn; repeat split; discriminate|].
    right; left. exists invitation, EXPIRED, None. cbn. auto. }
  destruct (user_findFirst db (inv_email invitation) (inv_tenantId invitation)).
  { destruct (invitation_update_cases (inv_id invitation)
                (setStatus ACCEPTED (Some now)) db) as [H|[i H]]; rewrite H;
      cbn [tryCatch fst snd]; [left; cbn; repeat split; discriminate|].
    right; left. exists invitation, ACCEPTED, (Some now). cbn. auto. }
  destruct (tenant_findUnique db (inv_tenantId invitation));
    [|cbn; left; repeat split; discriminate].
  destruct (_ && _); [cbn; left; repeat split; discriminate|].
  destruct (acceptTransaction_atomic fault invitation (hash password)
              newUserId now db Hin) as [(Hfault & _ & Htx)|(_ & m & Htx)];
    rewrite Htx; cbn [tryCatch fst snd];
    [|left; cbn; repeat split; discriminate].
  right; right. exists invitation, b, token, password. cbn. auto 7.
Qed.

(** An accept that reaches the transaction while the store fails on one
    of its two statements is answered 500, and nothing is written. *)
Lemma POST_accept_rollback zodIssues hash fault db requestBody newUserId now :
  acceptable db requestBody newUserId now ->
  fault <> NoFault ->
  let result := POST_accept zodIssues hash fault db requestBody newUserId now in
  status (snd result) = 500 /\ fst result = db.
Proof.
  intros (invitation & tenant & Hm & Hle & Huser & Htenant & Hcap & Hfresh)
    Hfault result.
  subst result. unfold matchedInvitation in Hm.
  unfold POST_accept, POST_accept_body.
  destruct requestBody as [b|]; [|discriminate].
  destruct (acceptInvitationSchema b) as [[token password]|]; [|discriminate].
  rewrite Hm, Huser, Htenant.
  apply Z.ltb_ge in Hle. rewrite Hle.
  replace (match tenant_plan tenant with FREE => true | PRO => false end
           && (5 <=? user_count db (inv_tenantId invitation))) with false.
  2:{ symmetry. destruct Hcap as [-> | Hroom]; [reflexivity|].
      apply andb_false_iff. right. apply Z.leb_gt. exact Hroom. }
  apply invitation_findByToken_some in Hm as (Hin & _ & _).
  destruct (acceptTransaction_atomic fault invitation (hash password)
              newUserId now db Hin) as [(Hf & _)|(_ & m & Htx)];
    [contradiction|].
  rewrite Htx. split; reflexivity.
Qed.

(** An accept leaves the designated invitation ACCEPTED only by
    creating the user, or by finding a user with the address already in
    the tenant. *)
Lemma POST_accept_marks zodIssues hash fault db requestBody newUserId now
  invitation :
  uniqueInvitationIds db ->
  matchedInvitation db requestBody = Some invitation ->
  let result := POST_accept zodIssues hash fault db requestBody newUserId now in
  (exists j, In j (invitations (fst result)) /\ inv_id j = inv_id invitation
             /\ inv_status j = ACCEPTED) ->
  status (snd result) = 201
  \/ (status (snd result) = 409
      /\ users (fst result) = users db
      /\ exists u, In u (users db) /\ user_email u = inv_email invitation
                   /\ user_tenantId u = inv_tenantId invitation).
Proof.
  intros Huniq Hm result. subst result. unfold matchedInvitation in Hm.
  unfold POST_accept, POST_accept_body.
  destruct requestBody as [b|]; [|discriminate].
  destruct (acceptInvitationSchema b) as [[token password]|]; [|discriminate].
  rewrite Hm.
  apply invitation_findByToken_some in Hm as (Hin & _ & Hpending).
  assert (Hold : forall j, In j (invitations db) ->
                           inv_id j = inv_id invitation ->
                           inv_status j = ACCEPTED -> False).
  { intros j Hj Hid Hacc.
    assert (j = invitation) by (eapply NoDup_map_inj; eauto).
    subst j. congruence. }
  assert (Hmarked : forall s t j,
            s <> ACCEPTED ->
            In j (markAll (inv_id invitation) (setStatus s t) (invitations db)) ->
            inv_id j = inv_id invitation -> inv_status j = ACCEPTED -> False).
  { intros s t j Hs Hj Hid Hacc.
    apply In_markAll_inv in Hj as (k & Hk & [[_ ->]| ->]).
    - cbn in Hacc. contradiction.
    - exact (Hold k Hk Hid Hacc). }
  destruct (inv_expiresAt invitation <? now).
  { destruct (invitation_update_cases (inv_id invitation)
                (setStatus EXPIRED None) db) as [H|[i H]]; rewrite H;
      cbn [tryCatch fst snd invitations set_invitations];
      intros (j & Hj & Hid & Hacc); exfalso.
    - exact (Hold j Hj Hid Hacc).
    - apply (Hmarked EXPIRED None j); [discriminate|assumption..]. }
  destruct (user_findFirst db (inv_email invitation) (inv_tenantId invitation))
    as [existingUser|] eqn:Huser.
  { apply user_findFirst_some in Huser.
    destruct (invitation_update_found invitation
                (setStatus ACCEPTED (Some now)) db Hin) as [i' Hi'].
    rewrite Hi'. intros _. right. cbn. eauto. }
  destruct (tenant_findUnique db (inv_tenantId invitation)) as [tenant|].
  2:{ cbn. intros (j & Hj & Hid & Hacc). exfalso.
      exact (Hold j Hj Hid Hacc). }
  destruct (_ && _).
  { cbn. intros (j & Hj & Hid & Hacc). exfalso. exact (Hold j Hj Hid Hacc). }
  destruct (acceptTransaction_atomic fault invitation (hash password)
              newUserId now db Hin) as [(_ & _ & Htx)|(_ & m & Htx)];
    rewrite Htx; cbn [tryCatch fst snd]; [left; reflexivity|].
  intros (j & Hj & Hid & Hacc). exfalso. exact (Hold j Hj Hid Hacc).
Qed.

Lemma inviteDb_uniqueIds : uniqueInvitationIds inviteDb.
Proof.
  unfold uniqueInvitationIds. cbn.
  repeat constructor; cbn; intuition discriminate.
Qed.

(** C5 (as stated) fails in its second half: an accept of the PENDING
    invitation sent to an address that already has a user in the tenant
    is answered 409 and leaves the invitation ACCEPTED, with acceptedAt
    set, while no user row is created. *)
Lemma atomic_accept_counterexample :
  let result := POST_accept sample_zodIssues sample_hash NoFault inviteDb
                  (Some (acceptBody "77b0e1" "correct horse"))
                  "cusernewcomer000000000004" 5000 in
  matchedInvitation inviteDb (Some (acceptBody "77b0e1" "correct horse"))
  = Some duplicateInvitation
  /\ inv_status duplicateInvitation = PENDING
  /\ status (snd result) = 409
  /\ users (fst result) = users inviteDb
  /\ (exists j, In j (invitations (fst result))
                /\ inv_id j = inv_id duplicateInvitation
                /\ inv_status j = ACCEPTED
                /\ inv_acceptedAt j = Some 5000)
  /\ ~ atomic_accept_as_stated.
Proof.
  intros result.
  assert (Hmarked : exists j, In j (invitations (fst result))
                              /\ inv_id j = inv_id duplicateInvitation
                              /\ inv_status j = ACCEPTED
                              /\ inv_acceptedAt j = Some 5000).
  { exists (setStatus ACCEPTED (Some 5000) duplicateInvitation).
    split; [|repeat split]. vm_compute. right. left. reflexivity. }
  split; [reflexivity|]. split; [reflexivity|]. split; [reflexivity|].
  split; [reflexivity|]. split; [exact Hmarked|].
  intros H.
  specialize (H sample_zodIssues sample_hash NoFault inviteDb
                (Some (acceptBody "77b0e1" "correct horse"))
                "cusernewcomer000000000004" 5000 duplicateInvitation
                inviteDb_uniqueIds eq_refl).
  destruct H as [_ H]. apply H; [|reflexivity].
  destruct Hmarked as (j & Hj & Hid & Hacc & _). exists j. auto.
Qed.

(** C5 (as amended) -- An accept answered with 201 has appended the user
    row, with the invitation's address, role and tenant and the hash of
    the password, and has left the designated invitation in the store
    with status ACCEPTED and acceptedAt = now.  The two writes are one
    transaction: an accept that reaches it with a working store is
    answered 201, and when the store fails on either statement the
    answer is 500 and the store is as it was.  No accept adds a user row
    without answering 201 (so none creates the user without marking the
    invitation).  The other way round, with unique invitation ids, an
    accept leaves the designated invitation ACCEPTED only if it is
    answered 201, or if it is answered 409 because a user with the
    address already exists in the tenant, in which case no user row is
    written.  So, if every ACCEPTED invitation has a user row with its
    address in its tenant before an accept, this is so after it and in
    every store reached from there by requests to the invitation
    routes. *)
Theorem accept_is_atomic (zodIssues : value -> list (jsstring * jsstring))
  (hash : jsstring -> jsstring) (fault : StoreFault) (db : Db)
  (requestBody : option value) (newUserId : jsstring) (now : Z) :
  let result := POST_accept zodIssues hash fault db requestBody newUserId now in
  (status (snd result) = 201 ->
   exists invitation newUser b token password,
     matchedInvitation db requestBody = Some invitation
     /\ requestBody = Some b
     /\ acceptInvitationSchema b = Some (token, password)
     /\ inv_status invitation = PENDING
     /\ now <= inv_expiresAt invitation
     /\ fault = NoFault
     /\ newUser = {| user_id := newUserId;
                     user_email := inv_email invitation;
                     user_password := hash password;
                     user_role := inv_role invitation;
                     user_tenantId := inv_tenantId invitation |}
     /\ users (fst result) = users db ++ [newUser]
     /\ (exists j, In j (invitations (fst result))
                   /\ inv_id j = inv_id invitation
                   /\ inv_token j = inv_token invitation
                   /\ inv_email j = inv_email invitation
                   /\ inv_status j = ACCEPTED
                   /\ inv_acceptedAt j = Some now)
     /\ (forall j, In j (invitations (fst result)) ->
                   inv_id j = inv_id invitation ->
                   inv_status j = ACCEPTED /\ inv_acceptedAt j = Some now))
  /\ (status (snd result) <> 201 -> users (fst result) = users db)
  /\ (status (snd result) = 500 -> fst result = db)
  /\ (acceptable db requestBody newUserId now -> fault = NoFault ->
      status (snd result) = 201)
  /\ (acceptable db requestBody newUserId now -> fault <> NoFault ->
      status (snd result) = 500 /\ fst result = db)
  /\ (uniqueInvitationIds db ->
      forall invitation,
        matchedInvitation db requestBody = Some invitation ->
        (exists j, In j (invitations (fst result))
                   /\ inv_id j = inv_id invitation
                   /\ inv_status j = ACCEPTED) ->
        status (snd result) = 201
        \/ (status (snd result) = 409
            /\ users (fst result) = users db
            /\ exists u, In u (users db)
                         /\ user_email u = inv_email invitation
                         /\ user_tenantId u = inv_tenantId invitation))
  /\ (uniqueInvitationIds db -> acceptedHaveUser db ->
      forall db', invitationReachable (fst result) db' ->
                  acceptedHaveUser db').
Proof.
  intros result. subst result.
  destruct (POST_accept_outcomes zodIssues hash fault db requestBody newUserId
              now) as (H1 & H2 & H3 & H4 & H5).
  split; [|split; [exact H2|split; [exact H3|split; [exact H5|split;
           [|split]]]]].
  - intros H201.
    destruct (H1 H201) as (invitation & newUser & Hm & Hle & _ & _ & _ & _
                           & _ & Hinv & _).
    destruct (POST_accept_cases zodIssues hash fault db requestBody newUserId
                now)
      as [(_ & Hno & _)|[(i & s & t & _ & _ & [H|H] & _)
                        |(i & b & tk & pw & Hb & Hs & Hfind & Hf & _ & E)]];
      try congruence.
    assert (i = invitation).
    { unfold matchedInvitation in Hm. rewrite Hb, Hs, Hfind in Hm. congruence. }
    subst i.
    pose proof (invitation_findByToken_some _ _ _ Hfind) as (Hin & _ & Hpending).
    exists invitation,
           {| user_id := newUserId; user_email := inv_email invitation;
              user_password := hash pw; user_role := inv_role invitation;
              user_tenantId := inv_tenantId invitation |},
           b, tk, pw.
    split; [exact Hm|]. split; [exact Hb|]. split; [exact Hs|].
    split; [exact Hpending|]. split; [exact Hle|]. split; [exact Hf|].
    split; [reflexivity|]. split; [rewrite E; reflexivity|].
    split.
    + exists (setStatus ACCEPTED (Some now) invitation).
      split; [rewrite Hinv; apply In_markAll; exact Hin|]. repeat split.
    + intros j Hj Hid. rewrite Hinv in Hj.
      unfold markAll in Hj. apply in_map_iff in Hj as (k & <- & Hk).
      destruct (jseqb (inv_id k) (inv_id invitation)) eqn:Ek;
        [split; reflexivity|].
      rewrite Hid, jseqb_refl in Ek. discriminate Ek.
  - apply POST_accept_rollback.
  - intros Huniq invitation Hm.
    exact (POST_accept_marks zodIssues hash fault db requestBody newUserId now
             invitation Huniq Hm).
  - intros Huniq Hinv db' Hreach.
    destruct (POST_accept_preserves zodIssues hash fault db requestBody
                newUserId now Huniq Hinv) as [Huniq1 Hinv1].
    exact (proj2 (invitationReachable_acceptedHaveUser _ db' Huniq1 Hinv1
                    Hreach)).
Qed.

Lemma newcomer_acceptable :
  acceptable inviteDb (Some (acceptBody "4f2a9c" "correct horse"))
    "cusernewcomer000000000004" 5000.
Proof.
  exists newcomerInvitation, acmeTenant.
  repeat split; try reflexivity.
  - vm_compute. discriminate.
  - right. reflexivity.
Qed.

Lemma accept_is_atomic_witness :
  let request := Some (acceptBody "4f2a9c" "correct horse") in
  let ok := POST_accept sample_zodIssues sample_hash NoFault inviteDb request
              "cusernewcomer000000000004" 5000 in
  let failed := POST_accept sample_zodIssues sample_hash InvitationUpdateFails
                  inviteDb request "cusernewcomer000000000004" 5000 in
  status (snd ok) = 201
  /\ (exists newUser, users (fst ok) = users inviteDb ++ [newUser]
                      /\ user_email newUser = "new@acme.test")
  /\ (exists j, In j (invitations (fst ok))
                /\ inv_id j = inv_id newcomerInvitation
                /\ inv_status j = ACCEPTED
                /\ inv_acceptedAt j = Some 5000)
  /\ status (snd failed) = 500
  /\ fst failed = inviteDb.
Proof.
  intros request ok failed.
  pose proof (accept_is_atomic sample_zodIssues sample_hash NoFault inviteDb
                request "cusernewcomer000000000004" 5000)
    as (Hboth & _ & _ & Hprogress & _).
  pose proof (accept_is_atomic sample_zodIssues sample_hash
                InvitationUpdateFails inviteDb request
                "cusernewcomer000000000004" 5000)
    as (_ & _ & _ & _ & Hrollback & _).
  fold ok in Hboth, Hprogress. fold failed in Hrollback.
  assert (H201 : status (snd ok) = 201)
    by exact (Hprogress newcomer_acceptable eq_refl).
  destruct (Hboth H201)
    as (invitation & newUser & b & tk & pw & Hm & _ & _ & _ & _ & _ & Hnew
        & Husers & (j & Hj & Hid & _ & _ & Hacc & Hat) & _).
  vm_compute in Hm. injection Hm as <-.
  split; [exact H201|].
  split; [exists newUser; split; [exact Husers|rewrite Hnew; reflexivity]|].
  split; [exists j; auto|].
  apply (Hrollback newcomer_acceptable). discriminate.
Defined.

(** C4 -- An accept whose token designates no PENDING invitation, or
    designates one whose expiresAt is earlier than now, is answered with
    an error and creates no user row: 404 when nothing is designated by
    a well-formed request, 410 (and the invitation set to EXPIRED) when
    the designated invitation has expired. *)
Theorem accept_rejected_creates_no_user
  (zodIssues : value -> list (jsstring * jsstring))
  (hash : jsstring -> jsstring) (fault : StoreFault) (db : Db)
  (requestBody : option value) (newUserId : jsstring) (now : Z) :
  matchedInvitation db requestBody = None
  \/ (exists invitation, matchedInvitation db requestBody = Some invitation
                         /\ inv_expiresAt invitation < now) ->
  let result := POST_accept zodIssues hash fault db requestBody newUserId now in
  users (fst result) = users db
  /\ 400 <= status (snd result)
  /\ (exists message, prop (body (snd result)) "error" = Some (JStr message))
  /\ (forall b token password,
        requestBody = Some b ->
        acceptInvitationSchema b = Some (token, password) ->
        invitation_findByToken db token = None ->
        result = (db, NextResponse_json
                        (errorJson "Invalid or expired invitation token") 404))
  /\ (forall invitation,
        matchedInvitation db requestBody = Some invitation ->
        snd result = NextResponse_json (errorJson "Invitation has expired") 410
        /\ In (setStatus EXPIRED None invitation) (invitations (fst result))).
Proof.
  intros Hrejected result. subst result.
  unfold POST_accept, POST_accept_body.
  unfold matchedInvitation in Hrejected |- *.
  destruct requestBody as [b|].
  2:{ cbn. repeat split; try lia; try (intros; discriminate); eauto. }
  destruct (acceptInvitationSchema b) as [[token password]|] eqn:Hschema.
  2:{ cbn. repeat split; try lia; try (intros; congruence); eauto. }
  destruct (invitation_findByToken db token) as [invitation|] eqn:Hfind.
  2:{ cbn. repeat split; try lia; try (intros; discriminate); eauto. }
  destruct Hrejected as [Hnone|(i & [= <-] & Hexp)]; [discriminate|].
  apply Z.ltb_lt in Hexp. rewrite Hexp.
  pose proof (invitation_findByToken_some _ _ _ Hfind) as (Hin & _ & _).
  destruct (invitation_update_found invitation (setStatus EXPIRED None) db Hin)
    as [i' Hi'].
  rewrite Hi'. cbn. repeat split; try lia; eauto.
  - intros b0 t0 p0 [= <-] Hs Hnone. congruence.
  - match goal with H : Some _ = Some _ |- _ => injection H as <- end.
    now apply In_markAll.
Qed.

Lemma accept_rejected_creates_no_user_witness :
  let request := Some (acceptBody "4f2a9c" "correct horse") in
  let late := POST_accept sample_zodIssues sample_hash NoFault inviteDb request
                "cusernewcomer000000000004" 20000 in
  let unknown := POST_accept sample_zodIssues sample_hash NoFault inviteDb
                   (Some (acceptBody "000000" "correct horse"))
                   "cusernewcomer000000000004" 5000 in
  inv_expiresAt newcomerInvitation < 20000
  /\ users (fst late) = users inviteDb
  /\ snd late = NextResponse_json (errorJson "Invitation has expired") 410
  /\ In (setStatus EXPIRED None newcomerInvitation) (invitations (fst late))
  /\ unknown = (inviteDb,
                NextResponse_json
                  (errorJson "Invalid or expired invitation token") 404).
Proof.
  intros request late unknown.
  assert (Hexp : inv_expiresAt newcomerInvitation < 20000) by reflexivity.
  pose proof (accept_rejected_creates_no_user sample_zodIssues sample_hash
                NoFault inviteDb request "cusernewcomer000000000004" 20000
                (or_intror (ex_intro _ newcomerInvitation (conj eq_refl Hexp))))
    as (Husers & _ & _ & _ & Hlate).
  pose proof (accept_rejected_creates_no_user sample_zodIssues sample_hash
                NoFault inviteDb (Some (acceptBody "000000" "correct horse"))
                "cusernewcomer000000000004" 5000 (or_introl eq_refl))
    as (_ & _ & _ & Hunknown & _).
  destruct (Hlate newcomerInvitation eq_refl) as [H410 Hin].
  split; [exact Hexp|]. split; [exact Husers|]. split; [exact H410|].
  split; [exact Hin|].
  exact (Hunknown _ _ _ eq_refl eq_refl eq_refl).
Defined.

(** C10 -- An accept with a well-formed body whose token designates a
    PENDING, unexpired invitation, while a user with the invitation's
    address already exists in the invitation's tenant, is answered with
    the 409 conflict, creates no user row, and sets the invitation to
    ACCEPTED with acceptedAt = now: the invitation is consumed without a
    user having been created by it. *)
Theorem duplicate_accept_consumes_invitation
  (zodIssues : value -> list (jsstring * jsstring))
  (hash : jsstring -> jsstring) (fault : StoreFault) (db : Db)
  (b : value) (token password : jsstring)
  (invitation : Invitation) (existingUser : User)
  (newUserId : jsstring) (now : Z) :
  acceptInvitationSchema b = Some (token, password) ->
  invitation_findByToken db token = Some invitation ->
  now <= inv_expiresAt invitation ->
  user_findFirst db (inv_email invitation) (inv_tenantId invitation)
  = Some existingUser ->
  let result := POST_accept zodIssues hash fault db (Some b) newUserId now in
  snd result
  = NextResponse_json (errorJson "User already exists in this organization") 409
  /\ users (fst result) = users db
  /\ invitations (fst result)
     = markAll (inv_id invitation) (setStatus ACCEPTED (Some now))
         (invitations db)
  /\ In (setStatus ACCEPTED (Some now) invitation) (invitations (fst result))
  /\ inv_status (setStatus ACCEPTED (Some now) invitation) = ACCEPTED
  /\ inv_acceptedAt (setStatus ACCEPTED (Some now) invitation) = Some now
  /\ inv_status invitation = PENDING.
Proof.
  intros Hschema Hfind Hfresh Huser result. subst result.
  unfold POST_accept, POST_accept_body.
  rewrite Hschema, Hfind, Huser.
  apply Z.ltb_ge in Hfresh. rewrite Hfresh.
  pose proof (invitation_findByToken_some _ _ _ Hfind) as (Hin & _ & Hpending).
  destruct (invitation_update_found invitation (setStatus ACCEPTED (Some now))
              db Hin) as [i' Hi'].
  rewrite Hi'. cbn. repeat split; auto.
  now apply In_markAll.
Qed.

Lemma duplicate_accept_consumes_invitation_witness :
  let result := POST_accept sample_zodIssues sample_hash NoFault inviteDb
                  (Some (acceptBody "77b0e1" "correct horse"))
                  "cusernewcomer000000000004" 5000 in
  user_findFirst inviteDb (inv_email duplicateInvitation)
    (inv_tenantId duplicateInvitation) = Some acmeUser
  /\ status (snd result) = 409
  /\ users (fst result) = users inviteDb
  /\ In (setStatus ACCEPTED (Some 5000) duplicateInvitation)
        (invitations (fst result)).
Proof.
  intros result.
  assert (Hfresh : 5000 <= inv_expiresAt duplicateInvitation)
    by (vm_compute; discriminate).
  pose proof (duplicate_accept_consumes_invitation sample_zodIssues sample_hash
                NoFault inviteDb (acceptBody "77b0e1" "correct horse")
                "77b0e1" "correct horse" duplicateInvitation acmeUser
                "cusernewcomer000000000004" 5000
                eq_refl eq_refl Hfresh eq_refl)
    as (H409 & Husers & _ & Hin & _).
  fold result in H409, Husers, Hin.
  split; [reflexivity|]. split; [rewrite H409; reflexivity|].
  split; [exact Husers|exact Hin].
Defined.

(** ** Issuing an invitation *)

(** The expiry is the same local time of day seven days on: the local
    offset at [now] is added, and the offset in force at the resulting
    local time is taken off again. *)
Lemma getExpirationDate_eq LocalTZA now :
  getExpirationDate LocalTZA now
  = now + LocalTZA now true + 7 * 86400000
    - LocalTZA (now + LocalTZA now true + 7 * 86400000) false.
Proof.
  unfold getExpirationDate, UTC, MakeDate, Day, TimeWithinDay, LocalTime,
    msPerDay.
  set (t := now + LocalTZA now true).
  assert (E : (t / 86400000 + 7) * 86400000 + t mod 86400000
              = t + 7 * 86400000).
  { pose proof (Z.div_mod t 86400000 ltac:(lia)). lia. }
  rewrite E. reflexivity.
Qed.

(** C6 (as stated) fails: a MEMBER calling the invite route in a FREE
    tenant with 2 users and no pending invitation is answered 403, and
    no row is written, although 2 + 0 + 1 does not exceed 5. *)
Lemma invitation_cap_counterexample :
  let result := POST_invite sample_isEmail sample_zodIssues sample_LocalTZA
                  sampleDb (Verified acmeUserContext)
                  (Some (inviteBody "new@acme.test" "MEMBER"))
                  "9d41aa" "cinvite000000000000000009" 5000 None in
  tenant_findUnique sampleDb (tenantId acmeUserContext) = Some acmeTenant
  /\ tenant_plan acmeTenant = FREE
  /\ user_count sampleDb (tenantId acmeUserContext)
     + invitation_countPending sampleDb (tenantId acmeUserContext) + 1 = 3
  /\ status (snd result) = 403
  /\ invitations (fst result) = invitations sampleDb
  /\ ~ invitation_cap_as_stated.
Proof.
  intros result.
  split; [reflexivity|]. split; [reflexivity|]. split; [reflexivity|].
  split; [reflexivity|]. split; [reflexivity|].
  intros H.
  specialize (H sample_isEmail sample_zodIssues sample_LocalTZA sampleDb
                acmeUserContext (Some (inviteBody "new@acme.test" "MEMBER"))
                acmeTenant "9d41aa" "cinvite000000000000000009" 5000 None
                eq_refl eq_refl).
  destruct H as [H _].
  specialize (H (conj eq_refl eq_refl)). vm_compute in H. discriminate.
Qed.

(** C6 (as amended) -- In a FREE-plan tenant, a caller of the invite
    route who is not ADMIN is answered 403 whatever the counts, and every
    403 of the route leaves the store unchanged and comes either from
    that role check or from users + pending invitations + 1 exceeding 5.
    For an ADMIN whose body passes the schema and whose address has
    neither a user nor a pending invitation in the tenant, the answer is
    403 exactly when users + pending invitations + 1 exceeds 5; otherwise
    it is 201, or 500 with the store unchanged when the store refuses
    the row, and it is 201 when the id and the token are new and the
    inviter's row exists.  With 201 exactly one row is appended: it has
    status PENDING, the given address, role and token, the caller's
    tenant and user id, no acceptedAt, and expires at the same local time
    of day seven days on. *)
Theorem invitation_user_cap (isEmail : jsstring -> bool)
  (zodIssues : value -> list (jsstring * jsstring))
  (LocalTZA : Z -> bool -> Z) (db : Db)
  (context : UserContext) (requestBody : option value)
  (tenant : Tenant) (token newId : jsstring) (now : Z)
  (appUrl : option jsstring) :
  tenant_findUnique db (tenantId context) = Some tenant ->
  tenant_plan tenant = FREE ->
  let total := user_count db (tenantId context)
               + invitation_countPending db (tenantId context) + 1 in
  let result := POST_invite isEmail zodIssues LocalTZA db (Verified context)
                  requestBody token newId now appUrl in
  let r := snd result in
  (role context <> ADMIN ->
   status r = 403 /\ fst result = db
   /\ body r = JObj [("error", JStr "Admin access required. Only administrators can invite users.")])
  /\ (status r = 403 ->
      fst result = db /\ (role context <> ADMIN \/ 5 < total))
  /\ (role context = ADMIN ->
      forall (b : value) (mail : jsstring) (invited : Role),
        requestBody = Some b ->
        inviteRequestSchema isEmail b = Some (mail, invited) ->
        user_findFirst db mail (tenantId context) = None ->
        invitation_findPending db mail (tenantId context) = None ->
        (5 < total ->
         status r = 403 /\ fst result = db
         /\ prop (body r) "error" = Some (JStr "User limit exceeded")
         /\ prop (body r) "limit" = Some (JNum (Fin 5)))
        /\ (status r = 403 -> 5 < total)
        /\ (total <= 5 ->
            status r = 201 \/ (status r = 500 /\ fst result = db))
        /\ (total <= 5 ->
            existsb (fun j => jseqb (inv_id j) newId
                              || jseqb (inv_token j) token)
              (invitations db) = false ->
            (exists inviter, user_findById db (userId context) = Some inviter) ->
            status r = 201)
        /\ (status r = 201 ->
            exists i,
              invitations (fst result) = invitations db ++ [i]
              /\ users (fst result) = users db
              /\ inv_status i = PENDING
              /\ inv_id i = newId
              /\ inv_email i = mail
              /\ inv_role i = invited
              /\ inv_token i = token
              /\ inv_tenantId i = tenantId context
              /\ inv_invitedBy i = userId context
              /\ inv_acceptedAt i = None
              /\ inv_expiresAt i
                 = now + LocalTZA now true + 7 * 86400000
                   - LocalTZA (now + LocalTZA now true + 7 * 86400000) false
              /\ jget ["invitation"; "status"] (body r)
                 = Some (JStr "PENDING"))).
Proof.
  intros Htenant Hplan total result r. subst r result.
  unfold POST_invite, POST_invite_body.
  rewrite getUserContextFromToken_verified.
  destruct (role context) eqn:Hrole; cbn [Role_eqb negb].
  2:{ cbn. split; [auto|]. split; [intros _; split; [reflexivity|left; discriminate]|].
      discriminate. }
  split; [intros H; contradiction H; reflexivity|].
  assert (Hcases :
    forall b mail invited,
      inviteRequestSchema isEmail b = Some (mail, invited) ->
      user_findFirst db mail (tenantId context) = None ->
      invitation_findPending db mail (tenantId context) = None ->
      let result := tryCatch
                      (POST_invite_body isEmail zodIssues LocalTZA db
                         (Verified context) (Some b) token newId now appUrl)
                      (fun _ => internalServerError) in
      let r := snd result in
      (5 < total ->
       status r = 403 /\ fst result = db
       /\ prop (body r) "error" = Some (JStr "User limit exceeded")
       /\ prop (body r) "limit" = Some (JNum (Fin 5)))
      /\ (status r = 403 -> fst result = db /\ 5 < total)
      /\ (total <= 5 ->
          status r = 201 \/ (status r = 500 /\ fst result = db))
      /\ (total <= 5 ->
          existsb (fun j => jseqb (inv_id j) newId
                            || jseqb (inv_token j) token)
            (invitations db) = false ->
          (exists inviter, user_findById db (userId context) = Some inviter) ->
          status r = 201)
      /\ (status r = 201 ->
          exists i,
            invitations (fst result) = invitations db ++ [i]
            /\ users (fst result) = users db
            /\ inv_status i = PENDING
            /\ inv_id i = newId
            /\ inv_email i = mail
            /\ inv_role i = invited
            /\ inv_token i = token
            /\ inv_tenantId i = tenantId context
            /\ inv_invitedBy i = userId context
            /\ inv_acceptedAt i = None
            /\ inv_expiresAt i
               = now + LocalTZA now true + 7 * 86400000
                 - LocalTZA (now + LocalTZA now true + 7 * 86400000) false
            /\ jget ["invitation"; "status"] (body r)
               = Some (JStr "PENDING"))).
  { intros b mail invited Hschema Huser Hpending.
    unfold POST_invite_body.
    rewrite getUserContextFromToken_verified, Hrole, Hschema, Huser, Hpending,
      Htenant, Hplan.
    cbn [Role_eqb negb andb]. fold total.
    destruct (Z.gtb_spec total 5) as [Hcap|Hroom].
    { cbn. repeat split; try lia; intros; discriminate. }
    unfold invitation_create.
    cbn [inv_id inv_token inv_tenantId inv_invitedBy].
    destruct (existsb _ (invitations db)) eqn:Hfresh.
    { cbn. repeat split; try lia; try (intros; discriminate); auto. }
    rewrite Htenant.
    destruct (user_findById db (userId context)) as [inviter|] eqn:Hinviter.
    2:{ cbn. repeat split; try lia; try (intros; discriminate); auto.
        intros _ _ [inviter' Hi']. discriminate. }
    rewrite tenant_findUnique_set_invitations, user_findById_set_invitations.
    cbn [inv_tenantId inv_invitedBy].
    rewrite Htenant, Hinviter. cbn [tryCatch fst snd].
    split; [intros; lia|]. split; [cbn; intros; discriminate|].
    split; [intros _; left; reflexivity|]. split; [reflexivity|].
    intros _. eexists. split; [reflexivity|].
    cbn [inv_status inv_id inv_email inv_role inv_token inv_tenantId
         inv_invitedBy inv_acceptedAt inv_expiresAt].
    rewrite getExpirationDate_eq. repeat split. }
  split.
  - intros H403.
    destruct requestBody as [b|]; [|cbn in H403; discriminate].
    destruct (inviteRequestSchema isEmail b) as [[mail invited]|] eqn:Hschema;
      [|cbn in H403; discriminate].
    destruct (user_findFirst db mail (tenantId context)) eqn:Huser;
      [cbn in H403; discriminate|].
    destruct (invitation_findPending db mail (tenantId context)) eqn:Hpending;
      [cbn in H403; discriminate|].
    destruct (Hcases b mail invited Hschema Huser Hpending)
      as (_ & Hwhy & _).
    unfold POST_invite_body in Hwhy.
    rewrite getUserContextFromToken_verified, Hrole, Hschema, Huser, Hpending
      in Hwhy.
    cbn [Role_eqb negb] in Hwhy.
    destruct (Hwhy H403) as [Hdb Hcap]. split; [exact Hdb|right; exact Hcap].
  - intros _ b mail invited -> Hschema Huser Hpending.
    destruct (Hcases b mail invited Hschema Huser Hpending)
      as (Hfull & Hwhy & Hroom & Hfresh & Hrow).
    unfold POST_invite_body in Hfull, Hwhy, Hroom, Hfresh, Hrow.
    rewrite getUserContextFromToken_verified, Hrole in Hfull, Hwhy, Hroom,
      Hfresh, Hrow.
    cbn [Role_eqb negb] in Hfull, Hwhy, Hroom, Hfresh, Hrow.
    split; [exact Hfull|]. split; [intros H; exact (proj2 (Hwhy H))|].
    split; [exact Hroom|]. split; [exact Hfresh|exact Hrow].
Qed.

Lemma invitation_user_cap_witness :
  let invite db context mail :=
    POST_invite sample_isEmail sample_zodIssues sample_LocalTZA db
      (Verified context)
      (Some (inviteBody mail "MEMBER")) "9d41aa" "cinvite000000000000000009"
      5000 None in
  let tid := tenantId acmeAdminContext in
  user_count inviteDb tid + invitation_countPending inviteDb tid + 1 = 5
  /\ status (snd (invite inviteDb acmeAdminContext "fifth@acme.test")) = 201
  /\ (exists i,
        invitations (fst (invite inviteDb acmeAdminContext "fifth@acme.test"))
        = invitations inviteDb ++ [i]
        /\ inv_status i = PENDING
        /\ inv_expiresAt i = 5000 + 169 * 3600000)
  /\ user_count crowdedDb tid + invitation_countPending crowdedDb tid + 1 = 6
  /\ status (snd (invite crowdedDb acmeAdminContext "sixth@acme.test")) = 403
  /\ fst (invite crowdedDb acmeAdminContext "sixth@acme.test") = crowdedDb
  /\ status (snd (invite inviteDb acmeUserContext "fifth@acme.test")) = 403.
Proof.
  intros invite tid.
  pose proof (invitation_user_cap sample_isEmail sample_zodIssues
                sample_LocalTZA inviteDb acmeAdminContext
                (Some (inviteBody "fifth@acme.test" "MEMBER")) acmeTenant
                "9d41aa" "cinvite000000000000000009" 5000 None
                eq_refl eq_refl) as (_ & _ & Hadmin).
  destruct (Hadmin eq_refl (inviteBody "fifth@acme.test" "MEMBER")
              "fifth@acme.test" MEMBER eq_refl eq_refl eq_refl eq_refl)
    as (_ & _ & _ & Hroom & Hcreated).
  pose proof (invitation_user_cap sample_isEmail sample_zodIssues
                sample_LocalTZA crowdedDb acmeAdminContext
                (Some (inviteBody "sixth@acme.test" "MEMBER")) acmeTenant
                "9d41aa" "cinvite000000000000000009" 5000 None
                eq_refl eq_refl) as (_ & _ & Hcrowded).
  destruct (Hcrowded eq_refl (inviteBody "sixth@acme.test" "MEMBER")
              "sixth@acme.test" MEMBER eq_refl eq_refl eq_refl eq_refl)
    as (Hfull & _).
  pose proof (invitation_user_cap sample_isEmail sample_zodIssues
                sample_LocalTZA inviteDb acmeUserContext
                (Some (inviteBody "fifth@acme.test" "MEMBER")) acmeTenant
                "9d41aa" "cinvite000000000000000009" 5000 None
                eq_refl eq_refl) as (Hmember & _).
  assert (H201 : status (snd (invite inviteDb acmeAdminContext
                                "fifth@acme.test")) = 201).
  { apply Hroom.
    - vm_compute. discriminate.
    - reflexivity.
    - exists acmeAdmin. reflexivity. }
  split; [reflexivity|]. split; [exact H201|].
  split.
  { destruct (Hcreated H201)
      as (i & Hrows & _ & Hstatus & _ & _ & _ & _ & _ & _ & _ & Hexp & _).
    exists i. split; [exact Hrows|]. split; [exact Hstatus|].
    rewrite Hexp. reflexivity. }
  split; [reflexivity|].
  destruct (Hfull ltac:(vm_compute; reflexivity)) as (H403 & Hdb & _).
  split; [exact H403|]. split; [exact Hdb|].
  apply Hmember. discriminate.
Defined.

(** ** Error envelopes *)















(** ** The scenario of the specification *)

(** In a FREE tenant without notes three creates are answered with 201
    and the fourth with 403; a PRO tenant is not limited. *)
Lemma plan_limit_scenario :
  let create context id db :=
    POST_notes db (Verified context) (Some (noteBody "Title" "Content")) id 7000 in
  let db1 := fst (create acmeAdminContext "cnote00000000000000000011" freshDb) in
  let db2 := fst (create acmeAdminContext "cnote00000000000000000012" db1) in
  let db3 := fst (create acmeAdminContext "cnote00000000000000000013" db2) in
  let db4 := fst (create globexAdminContext "cnote00000000000000000014" sampleDb) in
  status (snd (create acmeAdminContext "cnote00000000000000000011" freshDb)) = 201
  /\ status (snd (create acmeAdminContext "cnote00000000000000000012" db1)) = 201
  /\ status (snd (create acmeAdminContext "cnote00000000000000000013" db2)) = 201
  /\ create acmeAdminContext "cnote00000000000000000014" db3
     = (db3, createApiError "Note limit reached. Current plan allows 3 notes." 403)
  /\ status (snd (create globexAdminContext "cnote00000000000000000014" sampleDb))
     = 201
  /\ status (snd (create globexAdminContext "cnote00000000000000000015" db4)) = 201
  /\ note_count db4 (tenantId globexAdminContext) = 2.
Proof. vm_compute. repeat split. Qed.

(* ================================================================== *)
(** * Further properties of the code *)
(* ================================================================== *)

(** ** [trim] *)

Arguments trim : simpl never.
Arguments jslength : simpl never.

Lemma trimStart_headOk s : headOk (trimStart s) = true.
Proof.
  induction s as [|c s IH]; [reflexivity|].
  cbn. destruct (isWhiteSpace c) eqn:E; [exact IH|]. cbn. now rewrite E.
Qed.

Lemma trimStart_fixed s : headOk s = true -> trimStart s = s.
Proof.
  destruct s as [|c s]; [reflexivity|]. cbn. intros H.
  apply negb_true_iff in H. now rewrite H.
Qed.

Lemma trimStart_snoc s c :
  isWhiteSpace c = false -> trimStart (s ++ [c]) = trimStart s ++ [c].
Proof.
  intros Hc. induction s as [|x s IH]; cbn.
  - now rewrite Hc.
  - destruct (isWhiteSpace x); [exact IH|reflexivity].
Qed.

Lemma trimStart_length s : (List.length (trimStart s) <= List.length s)%nat.
Proof.
  induction s as [|c s IH]; cbn; [lia|].
  destruct (isWhiteSpace c); cbn; lia.
Qed.

Lemma trimEnd_headOk s : headOk s = true -> headOk (trimEnd s) = true.
Proof.
  unfold trimEnd. destruct s as [|c s]; [reflexivity|]. cbn [headOk].
  intros Hc. apply negb_true_iff in Hc. cbn [rev].
  rewrite trimStart_snoc by exact Hc.
  rewrite rev_app_distr. cbn. now rewrite Hc.
Qed.

Lemma trimEnd_lastOk s : headOk (rev (trimEnd s)) = true.
Proof. unfold trimEnd. rewrite rev_involutive. apply trimStart_headOk. Qed.

Lemma trimEnd_fixed s : headOk (rev s) = true -> trimEnd s = s.
Proof.
  intros H. unfold trimEnd. rewrite trimStart_fixed by exact H.
  apply rev_involutive.
Qed.

Lemma trim_idempotent s : trim (trim s) = trim s.
Proof.
  unfold trim at 1.
  rewrite (trimStart_fixed (trim s)).
  - apply trimEnd_fixed. unfold trim. apply trimEnd_lastOk.
  - unfold trim. apply trimEnd_headOk, trimStart_headOk.
Qed.

Lemma trim_length s : jslength (trim s) <= jslength s.
Proof.
  unfold trim, trimEnd, jslength. rewrite length_rev.
  pose proof (trimStart_length (rev (trimStart s))) as H1.
  rewrite length_rev in H1.
  pose proof (trimStart_length s). lia.
Qed.

(** ** What validation hands on *)

Lemma requiredStringErrors_ok field limitText maxLen o :
  requiredStringErrors field limitText maxLen o = [] ->
  exists s, o = Some (JStr s)
            /\ 1 <= jslength (trim s) /\ jslength s <= maxLen.
Proof.
  unfold requiredStringErrors.
  destruct o as [[| | |[|c s]| | |]|]; try discriminate.
  destruct (jslength (trim (c :: s)) =? 0) eqn:E0; [discriminate|].
  destruct (jslength (c :: s) >? maxLen) eqn:E1; [discriminate|].
  intros _. exists (c :: s). split; [reflexivity|].
  apply Z.eqb_neq in E0.
  assert (0 <= jslength (trim (c :: s))) by (unfold jslength; lia).
  destruct (Z.gtb_spec (jslength (c :: s)) maxLen); [discriminate|]. lia.
Qed.

Lemma tagLoopErrors_ok l :
  tagLoopErrors l = [] ->
  exists tags, l = List.map JStr tags /\ Forall (fun t => jslength t <= 50) tags.
Proof.
  induction l as [|v l IH]; cbn.
  - exists []. split; [reflexivity|constructor].
  - destruct v; try discriminate.
    destruct (jslength s >? 50) eqn:E; [discriminate|].
    intros H. destruct (IH H) as (tags & -> & Hall).
    exists (s :: tags). split; [reflexivity|]. constructor; [|exact Hall].
    destruct (Z.gtb_spec (jslength s) 50); [discriminate|lia].
Qed.

Lemma trimTags_strings tags : trimTags (List.map JStr tags) = List.map trim tags.
Proof. unfold trimTags. rewrite map_map. reflexivity. Qed.

Lemma tagsErrors_ok o :
  tagsErrors o = [] ->
  o = None
  \/ exists tags, o = Some (JArr (List.map JStr tags))
                  /\ (List.length tags <= 10)%nat
                  /\ Forall (fun t => jslength t <= 50) tags.
Proof.
  unfold tagsErrors. destruct o as [[| | | | |l|]|]; try discriminate; auto.
  intros H. apply app_eq_nil in H as [Hlen Hloop].
  destruct (tagLoopErrors_ok l Hloop) as (tags & -> & Hall).
  right. exists tags. split; [reflexivity|]. split; [|exact Hall].
  rewrite length_map in Hlen.
  destruct (Z.gtb_spec (Z.of_nat (List.length tags)) 10); [discriminate|lia].
Qed.

Lemma requiredStringErrors_intro field limitText maxLen s :
  1 <= jslength (trim s) -> jslength s <= maxLen ->
  requiredStringErrors field limitText maxLen (Some (JStr s)) = [].
Proof.
  intros H1 H2. unfold requiredStringErrors.
  destruct s as [|c s]; [unfold trim, trimEnd, jslength in H1; cbn in H1; lia|].
  replace (jslength (trim (c :: s)) =? 0) with false
    by (symmetry; apply Z.eqb_neq; lia).
  destruct (Z.gtb_spec (jslength (c :: s)) maxLen); [lia|reflexivity].
Qed.

Lemma tagsErrors_intro tags :
  (List.length tags <= 10)%nat ->
  Forall (fun t => jslength t <= 50) tags ->
  tagsErrors (Some (JArr (List.map JStr tags))) = [].
Proof.
  intros Hlen Hall.
  assert (Hloop : tagLoopErrors (List.map JStr tags) = []).
  { clear Hlen. induction Hall as [|a l Ha _ IH]; [reflexivity|].
    cbn [List.map tagLoopErrors].
    destruct (Z.gtb_spec (jslength a) 50); [lia|exact IH]. }
  unfold tagsErrors. rewrite length_map, Hloop.
  destruct (Z.gtb_spec (Z.of_nat (List.length tags)) 10); [lia|reflexivity].
Qed.

Lemma validateCreateNote_bounds (rb : value) (d : CreateNoteRequest) :
  data (validateCreateNote rb) = Some d ->
  (1 <= jslength (cn_title d) <= 200 /\ trim (cn_title d) = cn_title d)
  /\ (1 <= jslength (cn_content d) <= 10000
      /\ trim (cn_content d) = cn_content d)
  /\ (List.length (cn_tags d) <= 10)%nat
  /\ Forall (fun t => jslength t <= 50 /\ trim t = t) (cn_tags d).
Proof.
  unfold validateCreateNote.
  destruct (negb (truthy rb) || negb (isObjectType rb)); [discriminate|].
  destruct (_ ++ _) eqn:E; [|discriminate].
  apply app_eq_nil in E as [Et E]. apply app_eq_nil in E as [Ec Eg].
  apply requiredStringErrors_ok in Et as (t & Ht & Ht1 & Ht2).
  apply requiredStringErrors_ok in Ec as (c & Hc & Hc1 & Hc2).
  rewrite Ht, Hc. unfold valid. cbn [data stringOf]. intros [= <-].
  cbn [cn_title cn_content cn_tags].
  pose proof (trim_length t). pose proof (trim_length c).
  split; [split; [lia|apply trim_idempotent]|].
  split; [split; [lia|apply trim_idempotent]|].
  destruct (tagsErrors_ok _ Eg) as [->|(tags & -> & Hlen & Hall)].
  - split; [cbn; lia|constructor].
  - rewrite trimTags_strings, length_map. split; [exact Hlen|].
    apply Forall_map. eapply Forall_impl; [|exact Hall].
    intros a Ha. cbn in Ha |- *. pose proof (trim_length a).
    split; [lia|apply trim_idempotent].
Qed.

(** X1 -- The data handed on by [validateCreateNote] is normalised:
    title and content are trimmed, not empty and within 200 and 10,000
    code units, and there are at most ten tags, each trimmed and of at
    most 50 code units. *)
Theorem validateCreateNote_normalises (rb : value) (d : CreateNoteRequest) :
  data (validateCreateNote rb) = Some d ->
  (1 <= jslength (cn_title d) <= 200 /\ trim (cn_title d) = cn_title d)
  /\ (1 <= jslength (cn_content d) <= 10000
      /\ trim (cn_content d) = cn_content d)
  /\ (List.length (cn_tags d) <= 10)%nat
  /\ Forall (fun t => jslength t <= 50 /\ trim t = t) (cn_tags d).
Proof. exact (validateCreateNote_bounds rb d). Qed.

Lemma validateCreateNote_normalises_witness :
  let rb := JObj [("title", JStr "  Plan "); ("content", JStr "Ship it ");
                  ("tags", JArr [JStr " a "; JStr "b"])] in
  data (validateCreateNote rb)
  = Some {| cn_title := "Plan"; cn_content := "Ship it"; cn_tags := ["a" : jsstring; "b" : jsstring] |}
  /\ 1 <= jslength (lit "Plan") <= 200.
Proof.
  intros rb.
  assert (H : data (validateCreateNote rb)
              = Some {| cn_title := "Plan"; cn_content := "Ship it";
                        cn_tags := ["a" : jsstring; "b" : jsstring] |})
    by reflexivity.
  split; [exact H|].
  exact (proj1 (proj1 (validateCreateNote_normalises rb _ H))).
Defined.

(** X2 -- Validation is idempotent: the data handed on by
    [validateCreateNote], sent again as a request body, is valid and is
    handed on unchanged. *)
Theorem validateCreateNote_idempotent (rb : value) (d : CreateNoteRequest) :
  data (validateCreateNote rb) = Some d ->
  validateCreateNote (createNoteJson d) = valid d.
Proof.
  intros H.
  destruct (validateCreateNote_bounds rb d H)
    as ((Ht1 & Ht2) & (Hc1 & Hc2) & Hlen & Hall).
  destruct d as [t c tags]. cbn [cn_title cn_content cn_tags] in *.
  unfold validateCreateNote, createNoteJson.
  cbn [truthy isObjectType negb orb prop assoc String.eqb Ascii.eqb Bool.eqb
       cn_title cn_content cn_tags stringOf].
  rewrite (requiredStringErrors_intro _ _ _ t), (requiredStringErrors_intro _ _ _ c)
    by (rewrite ?Ht2, ?Hc2; lia).
  rewrite (tagsErrors_intro tags).
  - cbn [app]. rewrite Ht2, Hc2, trimTags_strings. do 3 f_equal.
    clear Hlen H. induction Hall as [|a l [_ Ha] _ IH]; [reflexivity|].
    cbn. now rewrite Ha, IH.
  - exact Hlen.
  - eapply Forall_impl; [|exact Hall]. intros a [Ha _]. exact Ha.
Qed.

Lemma validateCreateNote_idempotent_witness :
  validateCreateNote
    (createNoteJson {| cn_title := "Plan"; cn_content := "Ship it";
                       cn_tags := ["a" : jsstring] |})
  = valid {| cn_title := "Plan"; cn_content := "Ship it";
             cn_tags := ["a" : jsstring] |}.
Proof.
  apply (validateCreateNote_idempotent
           (JObj [("title", JStr " Plan"); ("content", JStr "Ship it");
                  ("tags", JArr [JStr "a "])])).
  reflexivity.
Defined.

(** ** Update, delete, and the note cap *)

Lemma noteJson_set_notes db l n : noteJson (set_notes db l) n = noteJson db n.
Proof. reflexivity. Qed.






Lemma filter_all {A} (f : A -> bool) (l : list A) :
  (forall x, In x l -> f x = true) -> List.filter f l = l.
Proof.
  induction l as [|x l IH]; cbn; [reflexivity|]. intros H.
  rewrite (H x) by now left. f_equal. apply IH. intros y Hy. apply H. now right.
Qed.

Lemma find_filter_none {A} (p q : A -> bool) (l : list A) :
  (forall x, q x = true -> p x = false) -> find p (List.filter q l) = None.
Proof.
  intros H. induction l as [|x l IH]; cbn; [reflexivity|].
  destruct (q x) eqn:E; [|exact IH]. cbn. now rewrite (H x E).
Qed.

Lemma count_after_delete (l : list Note) (old : Note) (id tid : jsstring) :
  NoDup (List.map note_id l) -> In old l ->
  note_id old = id -> note_tenantId old = tid ->
  (List.length
     (List.filter (fun n => jseqb (note_tenantId n) tid)
        (List.filter (fun n => negb (jseqb (note_id n) id)) l)) + 1
   = List.length (List.filter (fun n => jseqb (note_tenantId n) tid) l))%nat.
Proof.
  intros Hnd Hin Hid Htid. induction l as [|m l IH]; [destruct Hin|].
  cbn [List.map] in Hnd. inversion Hnd as [|? ? Hm Hl]; subst.
  cbn [List.filter].
  destruct (jseqb (note_id m) (note_id old)) eqn:E.
  - apply jseqb_eq in E.
    assert (m = old).
    { destruct Hin as [H|H]; [exact H|]. exfalso. apply Hm. rewrite E.
      now apply in_map. }
    subst m. cbn [negb]. rewrite jseqb_refl. cbn [List.length].
    rewrite (filter_all (fun n => negb (jseqb (note_id n) (note_id old))) l);
      [lia|].
    intros x Hx. apply negb_true_iff, jseqb_neq. intros Heq. apply Hm.
    rewrite <- Heq. now apply in_map.
  - cbn [negb List.filter].
    assert (Hin' : In old l).
    { destruct Hin as [H|H]; [|exact H]. subst m. rewrite jseqb_refl in E.
      discriminate. }
    specialize (IH Hl Hin').
    destruct (jseqb (note_tenantId m) (note_tenantId old)); cbn [List.length]; lia.
Qed.

(** What a 200 from the delete route says about the call. *)
Lemma DELETE_note_deleted db context id db1 r1 :
  DELETE_note db (Verified context) id = (db1, r1) ->
  status r1 = 200 ->
  exists old,
    validateNoteId id = true
    /\ note_findFirst db id (tenantId context) = Some old
    /\ db1 = set_notes db
               (List.filter (fun n => negb (jseqb (note_id n) id)) (notes db)).
Proof.
  unfold DELETE_note, DELETE_note_body.
  rewrite getUserContextFromToken_verified.
  destruct (missingIdentity context); [cbn; intros [= <- <-]; discriminate|].
  destruct (validateNoteId id) eqn:Hid; [|cbn; intros [= <- <-]; discriminate].
  cbn [negb].
  destruct (note_findFirst db id (tenantId context)) as [old|] eqn:Hfind;
    [|cbn; intros [= <- <-]; discriminate].
  destruct (_ && _); [cbn; intros [= <- <-]; discriminate|].
  unfold note_delete. destruct (existsb _ _); [|cbn; intros [= <- <-]; discriminate].
  destruct (getSubscriptionStatus _ _); cbn [tryCatch]; intros [= <- <-].
  - intros _. eauto.
  - repeat match goal with |- context [if ?c then _ else _] => destruct c end;
      discriminate.
Qed.

(** X4 -- After a delete answered with 200 the note is gone for every
    caller: a get of its id is answered with 404.  The tenant holds one
    note less, and rows with another id are untouched. *)
Theorem delete_then_get (db : Db) (context reader : UserContext)
  (id : jsstring) (db1 : Db) (r1 : Response) :
  uniqueNoteIds db ->
  DELETE_note db (Verified context) id = (db1, r1) ->
  status r1 = 200 ->
  missingIdentity reader = false ->
  GET_note db1 (Verified reader) id = createNotFoundError "Note"
  /\ note_count db1 (tenantId context) = note_count db (tenantId context) - 1
  /\ (forall m, In m (notes db) -> note_id m <> id -> In m (notes db1))
  /\ (forall m, In m (notes db1) -> In m (notes db) /\ note_id m <> id).
Proof.
  intros Huniq Hdel H200 Hreader.
  destruct (DELETE_note_deleted _ _ _ _ _ Hdel H200) as (old & Hid & Hfind & ->).
  apply note_findFirst_some in Hfind as (Hin & Hoid & Htid).
  split; [|split; [|split]].
  - unfold GET_note. rewrite getUserContextFromToken_verified, Hreader, Hid.
    cbn [negb]. unfold note_findFirst. cbn [notes set_notes].
    rewrite find_filter_none; [reflexivity|].
    intros x Hx. apply negb_true_iff in Hx. now rewrite Hx.
  - unfold note_count. cbn [notes set_notes].
    pose proof (count_after_delete (notes db) old id (tenantId context)
                  Huniq Hin Hoid Htid). lia.
  - intros m Hm Hne. cbn [notes set_notes]. apply filter_In. split; [exact Hm|].
    apply negb_true_iff, jseqb_neq, Hne.
  - intros m Hm. cbn [notes set_notes] in Hm. apply filter_In in Hm as [Hm Hne].
    split; [exact Hm|]. intros Heq. apply negb_true_iff in Hne.
    rewrite Heq, jseqb_refl in Hne. discriminate.
Qed.

Lemma delete_then_get_witness :
  let deleted := DELETE_note sampleDb (Verified acmeUserContext)
                   (note_id acmeNote3) in
  status (snd deleted) = 200
  /\ GET_note (fst deleted) (Verified acmeAdminContext) (note_id acmeNote3)
     = createNotFoundError "Note"
  /\ note_count (fst deleted) (tenantId acmeUserContext) = 2.
Proof.
  intros deleted.
  destruct (delete_then_get sampleDb acmeUserContext acmeAdminContext
              (note_id acmeNote3) (fst deleted) (snd deleted)
              sampleDb_uniqueNoteIds (surjective_pairing _) eq_refl eq_refl)
    as (Hget & Hcount & _).
  split; [reflexivity|]. split; [exact Hget|]. rewrite Hcount. reflexivity.
Defined.

Lemma validateNoteCreation_ok db tid :
  validateNoteCreation db tid = Ok tt ->
  exists t, tenant_findUnique db tid = Some t
            /\ (tenant_plan t = PRO \/ note_count db tid < 3).
Proof.
  unfold validateNoteCreation, checkNoteLimit, getSubscriptionStatus.
  destruct (tenant_findUnique db tid) as [t|] eqn:Hfind; [|discriminate].
  apply tenant_findUnique_some in Hfind as Hid. destruct Hid as [_ Hid].
  cbn [ss_plan usage_currentNotes canCreate]. rewrite Hid.
  unfold canCreateNote. intros H. exists t. split; [reflexivity|].
  destruct (tenant_plan t); [right|left; reflexivity].
  cbn [SUBSCRIPTION_LIMITS maxNotes num_ltb] in H.
  destruct (Z.ltb_spec (note_count db tid) 3); [assumption|discriminate].
Qed.

Lemma POST_notes_added db request requestBody newId now :
  let db1 := fst (POST_notes db request requestBody newId now) in
  db1 = db
  \/ exists n, validateNoteCreation db (note_tenantId n) = Ok tt
               /\ db1 = set_notes db (notes db ++ [n]).
Proof.
  unfold POST_notes, POST_notes_body.
  destruct (getUserContextFromToken request) as [context|]; [|cbn; auto].
  destruct (missingIdentity context); [cbn; auto|].
  destruct requestBody as [rb|]; [|cbn; auto].
  destruct (negb _); [cbn; auto|].
  destruct (data _) as [d|]; [|cbn; auto].
  destruct (validateNoteCreation _ _) as [[]|] eqn:Hlimit; [|cbn; auto].
  unfold note_create.
  destruct (existsb _ _); [cbn; auto|].
  destruct (tenant_findUnique _ _); [|cbn; auto].
  destruct (user_findById _ _); [|cbn; auto].
  destruct (getSubscriptionStatus _ _); cbn; right; eexists; split;
    try reflexivity; exact Hlimit.
Qed.

Lemma count_filter_map {A} (p : A -> bool) (f : A -> A) (l : list A) :
  (forall x, p (f x) = p x) ->
  List.length (List.filter p (List.map f l)) = List.length (List.filter p l).
Proof.
  intros H. induction l as [|x l IH]; cbn; [reflexivity|].
  rewrite H. destruct (p x); cbn; auto.
Qed.

Lemma count_filter_filter {A} (p q : A -> bool) (l : list A) :
  (List.length (List.filter p (List.filter q l))
   <= List.length (List.filter p l))%nat.
Proof.
  induction l as [|x l IH]; cbn; [lia|].
  destruct (q x); cbn; destruct (p x); cbn; lia.
Qed.

Lemma notesStep_withinNoteCap :
  forall db0 db1, notesStep db0 db1 -> withinNoteCap db0 -> withinNoteCap db1.
Proof.
  intros db0 db1 [db request requestBody newId now
                 |db request id requestBody now
                 |db request id] Hcap tid t Hfind Hfree.
  - destruct (POST_notes_added db request requestBody newId now)
      as [E|(n & Hok & E)]; rewrite E in Hfind |- *; [now apply (Hcap tid t)|].
    change (tenant_findUnique db tid = Some t) in Hfind.
    specialize (Hcap tid t Hfind Hfree).
    unfold note_count in *. cbn [notes set_notes].
    rewrite filter_app, length_app. cbn [List.filter].
    destruct (jseqb (note_tenantId n) tid) eqn:En; cbn [List.length]; [|lia].
    apply jseqb_eq in En. subst tid.
    destruct (validateNoteCreation_ok _ _ Hok) as (t' & Ht' & [Hpro|Hroom]).
    + rewrite Hfind in Ht'. injection Ht' as <-. congruence.
    + unfold note_count in Hroom. lia.
  - destruct (PUT_note_store db request id requestBody now) as [E|(d & E)];
      rewrite E in Hfind |- *; [now apply (Hcap tid t)|].
    change (tenant_findUnique db tid = Some t) in Hfind.
    specialize (Hcap tid t Hfind Hfree).
    unfold note_count in *. cbn [notes set_notes].
    rewrite count_filter_map; [exact Hcap|].
    intros m. destruct (jseqb (note_id m) id); reflexivity.
  - destruct (DELETE_note_store db request id) as [E|E];
      rewrite E in Hfind |- *; [now apply (Hcap tid t)|].
    change (tenant_findUnique db tid = Some t) in Hfind.
    specialize (Hcap tid t Hfind Hfree).
    unfold note_count in *. cbn [notes set_notes].
    pose proof (count_filter_filter (fun n => jseqb (note_tenantId n) tid)
                  (fun n => negb (jseqb (note_id n) id)) (notes db)). lia.
Qed.

(** X5 -- Through any sequence of requests to the notes routes, served
    one after the other, a FREE tenant never holds more than three
    notes. *)
Theorem note_cap_invariant (db0 db : Db) :
  withinNoteCap db0 ->
  notesReachable db0 db ->
  withinNoteCap db.
Proof.
  intros Hcap Hreach. induction Hreach as [|db db' _ IH Hstep]; [exact Hcap|].
  exact (notesStep_withinNoteCap db db' Hstep IH).
Qed.

Lemma sampleDb_withinNoteCap : withinNoteCap sampleDb.
Proof.
  intros tid t Hfind Hfree.
  apply tenant_findUnique_some in Hfind as [Hin <-].
  destruct Hin as [<-|[<-|[]]]; [vm_compute; discriminate|discriminate].
Qed.

Lemma note_cap_invariant_witness :
  let db1 := fst (DELETE_note sampleDb (Verified acmeUserContext)
                    (note_id acmeNote3)) in
  let db2 := fst (POST_notes db1 (Verified acmeUserContext)
                    (Some (noteBody "A" "B")) "cnote00000000000000000021" 1) in
  let db3 := fst (POST_notes db2 (Verified acmeUserContext)
                    (Some (noteBody "C" "D")) "cnote00000000000000000022" 2) in
  note_count db2 (tenant_id acmeTenant) = 3
  /\ note_count db3 (tenant_id acmeTenant) <= 3.
Proof.
  intros db1 db2 db3. split; [reflexivity|].
  apply (note_cap_invariant sampleDb db3 sampleDb_withinNoteCap) with (t := acmeTenant).
  - apply notes_step with (db := db2); [|apply step_POST_notes].
    apply notes_step with (db := db1); [|apply step_POST_notes].
    apply notes_step with (db := sampleDb); [|apply step_DELETE_note].
    apply notes_start.
  - reflexivity.
  - reflexivity.
Defined.

(** ** The user cap through the invitation routes *)

Lemma pending_markAll_le id s t tid l :
  isPENDING s = false ->
  (List.length (List.filter (pendingOf tid) (markAll id (setStatus s t) l))
   <= List.length (List.filter (pendingOf tid) l))%nat.
Proof.
  intros Hs. unfold markAll. induction l as [|j l IH]; cbn; [lia|].
  destruct (jseqb (inv_id j) id).
  - unfold pendingOf at 1. cbn [setStatus inv_tenantId inv_status].
    rewrite Hs, andb_false_r. destruct (pendingOf tid j); cbn; lia.
  - destruct (pendingOf tid j); cbn; lia.
Qed.

Lemma pending_markAll_lt i s t l :
  isPENDING s = false ->
  In i l -> inv_status i = PENDING ->
  (List.length (List.filter (pendingOf (inv_tenantId i))
                  (markAll (inv_id i) (setStatus s t) l)) + 1
   <= List.length (List.filter (pendingOf (inv_tenantId i)) l))%nat.
Proof.
  intros Hs Hin Hp. induction l as [|j l IH]; [destruct Hin|].
  destruct Hin as [->|Hin].
  - unfold markAll. cbn [List.map List.filter]. rewrite jseqb_refl.
    unfold pendingOf at 1. cbn [setStatus inv_tenantId inv_status].
    rewrite Hs, andb_false_r.
    unfold pendingOf at 2. rewrite jseqb_refl, Hp. cbn.
    pose proof (pending_markAll_le (inv_id i) s t (inv_tenantId i) l Hs) as H.
    unfold markAll in H. lia.
  - specialize (IH Hin). unfold markAll in *. cbn [List.map List.filter].
    destruct (jseqb (inv_id j) (inv_id i)).
    + unfold pendingOf at 1. cbn [setStatus inv_tenantId inv_status].
      rewrite Hs, andb_false_r.
      destruct (pendingOf (inv_tenantId i) j); cbn; lia.
    + destruct (pendingOf (inv_tenantId i) j); cbn; lia.
Qed.

Lemma pending_at_least_one i l :
  In i l -> inv_status i = PENDING ->
  (1 <= List.length (List.filter (pendingOf (inv_tenantId i)) l))%nat.
Proof.
  intros Hin Hp. induction l as [|j l IH]; [destruct Hin|]. cbn.
  destruct Hin as [->|Hin].
  - unfold pendingOf. rewrite jseqb_refl, Hp. cbn. lia.
  - specialize (IH Hin). destruct (pendingOf _ j); cbn; lia.
Qed.

(** The stores a request to the invite route can leave. *)
Lemma POST_invite_issued isEmail zodIssues LocalTZA db request requestBody token newId
  now appUrl :
  let db1 := fst (POST_invite isEmail zodIssues LocalTZA db request requestBody token
                    newId now appUrl) in
  db1 = db
  \/ exists i t,
       inv_status i = PENDING
       /\ tenant_findUnique db (inv_tenantId i) = Some t
       /\ (tenant_plan t = FREE ->
           user_count db (inv_tenantId i)
           + invitation_countPending db (inv_tenantId i) + 1 <= 5)
       /\ db1 = set_invitations db (invitations db ++ [i]).
Proof.
  unfold POST_invite, POST_invite_body.
  destruct (getUserContextFromToken request) as [userContext|]; [|cbn; auto].
  destruct (negb _); [cbn; auto|].
  destruct requestBody as [b|]; [|cbn; auto].
  destruct (inviteRequestSchema isEmail b) as [[mail r]|]; [|cbn; auto].
  destruct (user_findFirst _ _ _); [cbn; auto|].
  destruct (invitation_findPending _ _ _); [cbn; auto|].
  destruct (tenant_findUnique db (tenantId userContext)) as [tenant|] eqn:Ht;
    [|cbn; auto].
  destruct (_ && _) eqn:Hcap; [cbn; auto|].
  unfold invitation_create. cbn [inv_id inv_token inv_tenantId inv_invitedBy].
  destruct (existsb _ (invitations db)); [cbn; auto|].
  rewrite Ht.
  destruct (user_findById db (userId userContext)) as [inviter|] eqn:Hi;
    [|cbn; auto].
  rewrite tenant_findUnique_set_invitations, user_findById_set_invitations.
  cbn [inv_tenantId inv_invitedBy]. rewrite Ht, Hi. cbn [tryCatch fst].
  right.
  exists {| inv_id := newId; inv_email := mail; inv_role := r;
            inv_token := token; inv_status := PENDING;
            inv_tenantId := tenantId userContext;
            inv_invitedBy := userId userContext;
            inv_expiresAt := getExpirationDate LocalTZA now; inv_acceptedAt := None |},
         tenant.
  cbn [inv_tenantId inv_status].
  split; [reflexivity|]. split; [exact Ht|]. split; [|reflexivity].
  intros Hfree. rewrite Hfree in Hcap. cbn [andb] in Hcap.
  match type of Hcap with (?x >? 5) = false =>
    destruct (Z.gtb_spec x 5); [discriminate|assumption] end.
Qed.

Lemma GET_accept_store db token now :
  let db1 := fst (GET_accept db token now) in
  db1 = db
  \/ exists i, In i (invitations db)
               /\ db1 = set_invitations db
                          (markAll (inv_id i) (setStatus EXPIRED None)
                             (invitations db)).
Proof.
  unfold GET_accept, GET_accept_body.
  destruct token as [[|c token]|]; try (cbn; auto; fail).
  destruct (invitation_findByToken db (c :: token)) as [invitation|] eqn:Hfind;
    [|cbn; auto].
  pose proof (invitation_findByToken_some _ _ _ Hfind) as (Hin & _ & _).
  destruct (inv_expiresAt invitation <? now).
  { destruct (invitation_update_cases (inv_id invitation)
                (setStatus EXPIRED None) db) as [H|[i H]]; rewrite H;
      cbn [tryCatch fst]; eauto. }
  destruct (user_findFirst _ _ _); [cbn; auto|].
  destruct (tenant_findUnique _ _); [|cbn; auto].
  destruct (user_findById _ _); cbn; auto.
Qed.

Lemma invitationStep_withinUserCap :
  forall db0 db1, invitationStep db0 db1 -> withinUserCap db0 ->
                  withinUserCap db1.
Proof.
  intros db0 db1 [isEmail zodIssues LocalTZA db request requestBody token newId now appUrl
                 |zodIssues hash fault db requestBody newUserId now
                 |db token now] Hcap tid t Hfind Hfree.
  - destruct (POST_invite_issued isEmail zodIssues LocalTZA db request requestBody
                token newId now appUrl)
      as [E|(i & t' & Hp & Ht' & Hroom & E)]; rewrite E in Hfind |- *;
      [now apply (Hcap tid t)|].
    change (tenant_findUnique db tid = Some t) in Hfind.
    specialize (Hcap tid t Hfind Hfree).
    unfold user_count, invitation_countPending in *.
    cbn [users invitations set_invitations].
    fold (pendingOf tid) in *. fold (pendingOf (inv_tenantId i)) in *.
    rewrite filter_app, length_app. cbn [List.filter].
    unfold pendingOf at 2. rewrite Hp.
    destruct (jseqb (inv_tenantId i) tid) eqn:Ei; cbn [andb isPENDING List.length];
      [|lia].
    apply jseqb_eq in Ei. subst tid. rewrite Hfind in Ht'. injection Ht' as <-.
    specialize (Hroom Hfree). lia.
  - destruct (POST_accept_cases zodIssues hash fault db requestBody newUserId now)
      as [(E & _)|[(i & s & ts & Hm & Hs & _ & E)
                  |(i & b & tk & pw & _ & _ & Hm & _ & _ & E)]];
      rewrite E in Hfind |- *; [now apply (Hcap tid t)| |].
    + apply matchedInvitation_some in Hm as (Hin & Hp & _).
      change (tenant_findUnique db tid = Some t) in Hfind.
      specialize (Hcap tid t Hfind Hfree).
      unfold user_count, invitation_countPending in *.
      cbn [users invitations set_invitations]. fold (pendingOf tid) in *.
      pose proof (pending_markAll_le (inv_id i) s ts tid (invitations db) Hs).
      lia.
    + apply invitation_findByToken_some in Hm as (Hin & _ & Hp).
      change (tenant_findUnique db tid = Some t) in Hfind.
      specialize (Hcap tid t Hfind Hfree).
      unfold user_count, invitation_countPending in *.
      cbn [users invitations]. fold (pendingOf tid) in *.
      rewrite filter_app, length_app. cbn [List.filter user_tenantId].
      destruct (jseqb (inv_tenantId i) tid) eqn:Ei; cbn [List.length].
      * apply jseqb_eq in Ei. subst tid.
        pose proof (pending_markAll_lt i ACCEPTED (Some now) (invitations db)
                      eq_refl Hin Hp). lia.
      * pose proof (pending_markAll_le (inv_id i) ACCEPTED (Some now) tid
                      (invitations db) eq_refl). lia.
  - destruct (GET_accept_store db token now) as [E|(i & Hin & E)];
      rewrite E in Hfind |- *; [now apply (Hcap tid t)|].
    change (tenant_findUnique db tid = Some t) in Hfind.
    specialize (Hcap tid t Hfind Hfree).
    unfold user_count, invitation_countPending in *.
    cbn [users invitations set_invitations]. fold (pendingOf tid) in *.
    pose proof (pending_markAll_le (inv_id i) EXPIRED None tid (invitations db)
                  eq_refl). lia.
Qed.

(** X6 -- Through any sequence of requests to the invitation routes,
    served one after the other, the users and pending invitations of a
    FREE tenant never exceed five together; in particular a FREE tenant
    never has more than five users. *)
Theorem user_cap_invariant (db0 db : Db) :
  withinUserCap db0 ->
  invitationReachable db0 db ->
  withinUserCap db
  /\ (forall tid t, tenant_findUnique db tid = Some t ->
                    tenant_plan t = FREE -> user_count db tid <= 5).
Proof.
  intros Hcap Hreach.
  assert (H : withinUserCap db).
  { induction Hreach as [|db db' _ IH Hstep]; [exact Hcap|].
    exact (invitationStep_withinUserCap db db' Hstep IH). }
  split; [exact H|]. intros tid t Hfind Hfree.
  specialize (H tid t Hfind Hfree).
  unfold invitation_countPending in H. lia.
Qed.

(** X7 -- In a store within the user cap the accept route never answers
    with its own 403 limit error: a pending invitation already counts
    against the cap, so the tenant has room for its user. *)
Theorem accept_never_over_limit
  (zodIssues : value -> list (jsstring * jsstring))
  (hash : jsstring -> jsstring) (fault : StoreFault) (db : Db)
  (requestBody : option value) (newUserId : jsstring) (now : Z) :
  withinUserCap db ->
  status (snd (POST_accept zodIssues hash fault db requestBody newUserId now))
  <> 403.
Proof.
  intros Hcap. unfold POST_accept, POST_accept_body.
  destruct requestBody as [b|]; [|cbn; discriminate].
  destruct (acceptInvitationSchema b) as [[token password]|]; [|cbn; discriminate].
  destruct (invitation_findByToken db token) as [invitation|] eqn:Hfind;
    [|cbn; discriminate].
  pose proof (invitation_findByToken_some _ _ _ Hfind) as (Hin & _ & Hp).
  destruct (inv_expiresAt invitation <? now).
  { destruct (invitation_update _ _ db) as [db1 [i|m]]; cbn; discriminate. }
  destruct (user_findFirst _ _ _).
  { destruct (invitation_update _ _ db) as [db1 [i|m]]; cbn; discriminate. }
  destruct (tenant_findUnique db (inv_tenantId invitation)) as [tenant|]
    eqn:Htenant; [|cbn; discriminate].
  destruct (_ && _) eqn:Hlimit.
  - exfalso. apply andb_true_iff in Hlimit as [Hplan Hcount].
    apply Z.leb_le in Hcount.
    assert (Hfree : tenant_plan tenant = FREE)
      by (destruct (tenant_plan tenant); [reflexivity|discriminate]).
    specialize (Hcap _ _ Htenant Hfree).
    pose proof (pending_at_least_one invitation (invitations db) Hin Hp) as H1.
    unfold invitation_countPending in Hcap.
    fold (pendingOf (inv_tenantId invitation)) in Hcap. lia.
  - destruct (transaction _ db) as [db1 [u|m]]; cbn; discriminate.
Qed.

(** ** An invitation from issue to acceptance *)

(** A request to the invite route either leaves the store alone, or
    passes every check and appends the invitation. *)
Lemma POST_invite_cases isEmail zodIssues LocalTZA db request requestBody token newId
  now appUrl :
  let result := POST_invite isEmail zodIssues LocalTZA db request requestBody token
                  newId now appUrl in
  (fst result = db /\ status (snd result) <> 201)
  \/ exists context rb mail r tenant,
       getUserContextFromToken request = Ok context
       /\ role context = ADMIN
       /\ requestBody = Some rb
       /\ inviteRequestSchema isEmail rb = Some (mail, r)
       /\ user_findFirst db mail (tenantId context) = None
       /\ invitation_findPending db mail (tenantId context) = None
       /\ tenant_findUnique db (tenantId context) = Some tenant
       /\ (tenant_plan tenant = FREE ->
           user_count db (tenantId context)
           + invitation_countPending db (tenantId context) + 1 <= 5)
       /\ existsb (fun j => jseqb (inv_id j) newId || jseqb (inv_token j) token)
            (invitations db) = false
       /\ status (snd result) = 201
       /\ fst result
          = set_invitations db
              (invitations db
               ++ [issuedInvitation context mail r token newId
            (getExpirationDate LocalTZA now)]).
Proof.
  unfold POST_invite, POST_invite_body.
  destruct (getUserContextFromToken request) as [userContext|] eqn:Hctx;
    [|cbn; left; split; [reflexivity|discriminate]].
  destruct (negb _) eqn:Hrole; [cbn; left; split; [reflexivity|discriminate]|].
  destruct requestBody as [b|]; [|cbn; left; split; [reflexivity|discriminate]].
  destruct (inviteRequestSchema isEmail b) as [[mail r]|] eqn:Hschema;
    [|cbn; left; split; [reflexivity|discriminate]].
  destruct (user_findFirst _ _ _) eqn:Huser;
    [cbn; left; split; [reflexivity|discriminate]|].
  destruct (invitation_findPending _ _ _) eqn:Hpending;
    [cbn; left; split; [reflexivity|discriminate]|].
  destruct (tenant_findUnique db (tenantId userContext)) as [tenant|] eqn:Ht;
    [|cbn; left; split; [reflexivity|discriminate]].
  destruct (_ && _) eqn:Hcap; [cbn; left; split; [reflexivity|discriminate]|].
  unfold invitation_create. cbn [inv_id inv_token inv_tenantId inv_invitedBy].
  destruct (existsb _ (invitations db)) eqn:Hfresh;
    [cbn; left; split; [reflexivity|discriminate]|].
  rewrite Ht.
  destruct (user_findById db (userId userContext)) as [inviter|] eqn:Hi;
    [|cbn; left; split; [reflexivity|discriminate]].
  rewrite tenant_findUnique_set_invitations, user_findById_set_invitations.
  cbn [inv_tenantId inv_invitedBy]. rewrite Ht, Hi. cbn [tryCatch fst snd].
  right. exists userContext, b, mail, r, tenant.
  repeat split; try assumption.
  - destruct (role userContext); [reflexivity|discriminate].
  - intros Hfree. rewrite Hfree in Hcap. cbn [andb] in Hcap.
    match type of Hcap with (?x >? 5) = false =>
      destruct (Z.gtb_spec x 5); [discriminate|assumption] end.
Qed.

Lemma map_token_markAll id s t l :
  List.map inv_token (markAll id (setStatus s t) l) = List.map inv_token l.
Proof.
  unfold markAll. rewrite map_map. apply map_ext.
  intros j. destruct (jseqb (inv_id j) id); reflexivity.
Qed.

Lemma invitationStep_uniqueTokens :
  forall db0 db1, invitationStep db0 db1 -> uniqueInvitationTokens db0 ->
                  uniqueInvitationTokens db1.
Proof.
  intros db0 db1 [isEmail zodIssues LocalTZA db request requestBody token newId now appUrl
                 |zodIssues hash fault db requestBody newUserId now
                 |db token now] Huniq.
  - destruct (POST_invite_cases isEmail zodIssues LocalTZA db request requestBody
                token newId now appUrl)
      as [[E _]|(c & rb & mail & r & t & _ & _ & _ & _ & _ & _ & _ & _ & Hfresh & _ & E)];
      rewrite E; [exact Huniq|].
    unfold uniqueInvitationTokens. cbn [invitations set_invitations].
    rewrite map_app. apply NoDup_snoc; [exact Huniq|].
    cbn [List.map issuedInvitation inv_token].
    intros Hdup. apply in_map_iff in Hdup as (j & Htok & Hj).
    enough (existsb (fun j0 => jseqb (inv_id j0) newId
                               || jseqb (inv_token j0) token)
              (invitations db) = true) by congruence.
    apply existsb_exists. exists j. split; [exact Hj|].
    rewrite Htok, jseqb_refl. apply orb_true_r.
  - destruct (POST_accept_cases zodIssues hash fault db requestBody newUserId now)
      as [(E & _)|[(i & s & ts & _ & _ & _ & E)
                  |(i & b & tk & pw & _ & _ & _ & _ & _ & E)]];
      rewrite E; [exact Huniq| |];
      unfold uniqueInvitationTokens; cbn [invitations set_invitations];
      rewrite map_token_markAll; exact Huniq.
  - destruct (GET_accept_store db token now) as [E|(i & _ & E)];
      rewrite E; [exact Huniq|].
    unfold uniqueInvitationTokens; cbn [invitations set_invitations];
      rewrite map_token_markAll; exact Huniq.
Qed.

Lemma acceptInvitationSchema_acceptBody token password :
  1 <= jslength token -> 8 <= jslength password ->
  acceptInvitationSchema (acceptBody token password) = Some (token, password).
Proof.
  intros Ht Hp. unfold acceptInvitationSchema, acceptBody. cbn [assoc String.eqb].
  cbn.
  destruct (Z.leb_spec 1 (jslength token)); [|lia].
  destruct (Z.leb_spec 8 (jslength password)); [|lia].
  destruct (Z.leb_spec 1 (jslength password)); [|lia].
  rewrite jseqb_refl. reflexivity.
Qed.

(** Once its rows are marked, a token designates no pending invitation. *)
Lemma findByToken_after_mark db db1 s t i :
  uniqueInvitationTokens db -> In i (invitations db) ->
  isPENDING s = false ->
  invitations db1 = markAll (inv_id i) (setStatus s t) (invitations db) ->
  invitation_findByToken db1 (inv_token i) = None.
Proof.
  intros Huniq Hin Hs E. unfold invitation_findByToken. rewrite E.
  destruct (find _ _) as [j|] eqn:Hfind; [exfalso|reflexivity].
  apply find_some in Hfind as [Hj Hp]. apply andb_true_iff in Hp as [Htok Hpen].
  apply jseqb_eq in Htok.
  unfold markAll in Hj. apply in_map_iff in Hj as (k & Hk & Hkin).
  destruct (jseqb (inv_id k) (inv_id i)) eqn:Eid; subst j.
  - cbn [setStatus inv_status] in Hpen. congruence.
  - assert (k = i)
      by (apply (NoDup_map_inj inv_token (invitations db)); assumption).
    subst k. rewrite jseqb_refl in Eid. discriminate.
Qed.

Lemma acceptInvitationSchema_some b token password :
  acceptInvitationSchema b = Some (token, password) ->
  1 <= jslength token /\ 8 <= jslength password.
Proof.
  unfold acceptInvitationSchema. destruct b as [| | | | | |fields]; try discriminate.
  destruct (assoc "token" fields) as [[| | |tk| | |]|]; try discriminate.
  destruct (assoc "password" fields) as [[| | |pw| | |]|]; try discriminate.
  destruct (assoc "confirmPassword" fields) as [[| | |cf| | |]|];
    try discriminate.
  destruct (_ && _) eqn:E; [|discriminate].
  intros H. injection H as <- <-.
  apply andb_true_iff in E as [E _]. apply andb_true_iff in E as [E _].
  apply andb_true_iff in E as [E1 E2].
  apply Z.leb_le in E1, E2. auto.
Qed.

Lemma invitationReachable_uniqueTokens db0 db :
  uniqueInvitationTokens db0 -> invitationReachable db0 db ->
  uniqueInvitationTokens db.
Proof.
  intros H0 Hreach. induction Hreach as [|db db' _ IH Hstep]; [exact H0|].
  exact (invitationStep_uniqueTokens db db' Hstep IH).
Qed.

(** X8 -- An invitation that was issued (201) can be accepted with the
    token the invite route drew, at any time up to the expiry the invite
    route computed (the same local time of day seven days after the
    issue, which is 167, 168 or 169 hours on when the clocks change),
    whatever valid password is chosen: the accept route answers 201,
    appends exactly one user with the invited address, the invited role,
    the inviter's tenant and the hash of the password, and leaves the
    invitation in the store with status ACCEPTED and acceptedAt the
    time of the accept. *)
Theorem invite_accept_roundtrip
  (isEmail : jsstring -> bool)
  (zodIssues : value -> list (jsstring * jsstring))
  (LocalTZA : Z -> bool -> Z)
  (hash : jsstring -> jsstring) (db : Db) (request : Credentials)
  (requestBody : option value) (token newId : jsstring) (now : Z)
  (appUrl : option jsstring) (b : value) (password newUserId : jsstring)
  (later : Z) :
  let invited := POST_invite isEmail zodIssues LocalTZA db request requestBody token
                   newId now appUrl in
  status (snd invited) = 201 ->
  acceptInvitationSchema b = Some (token, password) ->
  later <= getExpirationDate LocalTZA now ->
  existsb (fun v => jseqb (user_id v) newUserId) (users db) = false ->
  exists context rb mail r,
    getUserContextFromToken request = Ok context
    /\ requestBody = Some rb
    /\ inviteRequestSchema isEmail rb = Some (mail, r)
    /\ let accepted := POST_accept zodIssues hash NoFault (fst invited)
                         (Some b) newUserId later in
       status (snd accepted) = 201
       /\ users (fst accepted)
          = users db ++ [{| user_id := newUserId; user_email := mail;
                            user_password := hash password; user_role := r;
                            user_tenantId := tenantId context |}]
       /\ exists i,
            In i (invitations (fst accepted))
            /\ inv_id i = newId
            /\ inv_token i = token
            /\ inv_email i = mail
            /\ inv_tenantId i = tenantId context
            /\ inv_status i = ACCEPTED
            /\ inv_acceptedAt i = Some later
            /\ inv_expiresAt i = getExpirationDate LocalTZA now.
Proof.
  intros invited H201 Hschema Hlater Hfresh. subst invited.
  destruct (POST_invite_cases isEmail zodIssues LocalTZA db request requestBody token
              newId now appUrl)
    as [[_ Hno]|(context & rb & mail & r & tenant & Hctx & _ & Hrb & Hs & Huser
                 & _ & Htenant & Hroom & Hnew & _ & E)]; [contradiction|].
  exists context, rb, mail, r.
  split; [exact Hctx|]. split; [exact Hrb|]. split; [exact Hs|].
  rewrite E. clear E H201.
  set (i := issuedInvitation context mail r token newId
            (getExpirationDate LocalTZA now)).
  set (db1 := set_invitations db (invitations db ++ [i])).
  assert (Hfind : invitation_findByToken db1 token = Some i).
  { unfold invitation_findByToken, db1. cbn [invitations set_invitations].
    rewrite find_app_skip.
    - cbn. rewrite jseqb_refl. reflexivity.
    - revert Hnew. apply existsb_weaken. intros j Hj.
      apply andb_true_iff in Hj as [-> _]. apply orb_true_r. }
  assert (Hok : acceptable db1 (Some b) newUserId later).
  { exists i, tenant. unfold matchedInvitation. rewrite Hschema.
    split; [exact Hfind|]. split; [exact Hlater|].
    split; [exact Huser|]. split; [exact Htenant|]. split; [|exact Hfresh].
    destruct (tenant_plan tenant) eqn:Hplan; [right|left; reflexivity].
    specialize (Hroom eq_refl).
    change (user_count db1 (inv_tenantId i))
      with (user_count db (tenantId context)).
    unfold invitation_countPending in Hroom. lia. }
  intros accepted. subst accepted.
  pose proof (POST_accept_outcomes zodIssues hash NoFault db1 (Some b)
                newUserId later) as (_ & _ & _ & _ & H201).
  specialize (H201 Hok eq_refl).
  split; [exact H201|].
  destruct (POST_accept_cases zodIssues hash NoFault db1 (Some b) newUserId later)
    as [(_ & Hno & _)|[(i' & s & t & _ & _ & [H|H] & _)
                      |(i' & b' & tk & pw & Hb & Hs' & Hfind' & _ & _ & E)]];
    try congruence.
  injection Hb as <-. rewrite Hschema in Hs'. injection Hs' as <- <-.
  rewrite Hfind in Hfind'. injection Hfind' as <-.
  rewrite E. cbn [users invitations]. split; [reflexivity|].
  exists (setStatus ACCEPTED (Some later) i).
  split; [|repeat split].
  apply In_markAll. unfold db1. cbn [invitations set_invitations].
  apply in_or_app. right. left. reflexivity.
Qed.

Lemma invite_accept_roundtrip_witness :
  let invited := POST_invite sample_isEmail sample_zodIssues sample_LocalTZA sampleDb
                   (Verified acmeAdminContext)
                   (Some (inviteBody "newcomer@acme.test" "MEMBER"))
                   "4f2a9c" "cinvite000000000000000009" 1000 None in
  let accept later :=
    POST_accept sample_zodIssues sample_hash NoFault (fst invited)
      (Some (acceptBody "4f2a9c" "correct horse"))
      "cusernewcomer000000000004" later in
  status (snd invited) = 201
  /\ getExpirationDate sample_LocalTZA 1000 = 1000 + 169 * 3600000
  /\ status (snd (accept (1000 + 169 * 3600000))) = 201
  /\ List.length (users (fst (accept (1000 + 169 * 3600000)))) = 4%nat
  /\ status (snd (accept (1000 + 169 * 3600000 + 1))) = 410.
Proof.
  intros invited accept.
  destruct (invite_accept_roundtrip sample_isEmail sample_zodIssues
              sample_LocalTZA sample_hash
              sampleDb (Verified acmeAdminContext)
              (Some (inviteBody "newcomer@acme.test" "MEMBER"))
              "4f2a9c" "cinvite000000000000000009" 1000 None
              (acceptBody "4f2a9c" "correct horse") "correct horse"
              "cusernewcomer000000000004" (1000 + 169 * 3600000))
    as (context & rb & mail & r & _ & _ & _ & H201 & Husers & _).
  - reflexivity.
  - reflexivity.
  - vm_compute. discriminate.
  - reflexivity.
  - split; [reflexivity|]. split; [reflexivity|]. split; [exact H201|].
    split; [|reflexivity].
    fold invited in Husers. unfold accept. rewrite Husers, length_app.
    reflexivity.
Defined.

Lemma tokenSpent_findByToken token db :
  tokenSpent token db -> invitation_findByToken db token = None.
Proof.
  intros [_ Hnone]. unfold invitation_findByToken.
  destruct (find _ _) as [j|] eqn:Hfind; [exfalso|reflexivity].
  apply find_some in Hfind as [Hj Hp]. apply andb_true_iff in Hp as [Htok Hpen].
  apply jseqb_eq in Htok. rewrite (Hnone j Hj Htok) in Hpen. discriminate.
Qed.

Lemma findByToken_none_spent token db :
  In token (List.map inv_token (invitations db)) ->
  invitation_findByToken db token = None -> tokenSpent token db.
Proof.
  intros Hin Hfind. split; [exact Hin|]. intros j Hj Htok.
  unfold invitation_findByToken in Hfind.
  pose proof (find_none _ _ Hfind j Hj) as Hp. cbn beta in Hp.
  rewrite Htok, jseqb_refl in Hp. exact Hp.
Qed.

Lemma tokenSpent_markAll token id s t db db1 :
  isPENDING s = false ->
  invitations db1 = markAll id (setStatus s t) (invitations db) ->
  tokenSpent token db -> tokenSpent token db1.
Proof.
  intros Hs E [Hin Hnone]. split.
  - rewrite E, map_token_markAll. exact Hin.
  - intros j Hj Htok. rewrite E in Hj.
    apply In_markAll_inv in Hj as (k & Hk & [[_ ->]| ->]).
    + exact Hs.
    + exact (Hnone k Hk Htok).
Qed.

Lemma notesStep_invitations db db' :
  notesStep db db' -> invitations db' = invitations db.
Proof.
  intros [db0 request requestBody newId now
         |db0 request id requestBody now
         |db0 request id].
  - destruct (POST_notes_store db0 request requestBody newId now)
      as [->|(n & _ & _ & ->)]; reflexivity.
  - destruct (PUT_note_store db0 request id requestBody now)
      as [->|(d & ->)]; reflexivity.
  - destruct (DELETE_note_store db0 request id) as [->| ->]; reflexivity.
Qed.

Lemma invitationStep_tokenSpent token db db' :
  invitationStep db db' -> tokenSpent token db -> tokenSpent token db'.
Proof.
  intros [isEmail zodIssues LocalTZA db0 request requestBody tk newId now appUrl
         |zodIssues hash fault db0 requestBody newUserId now
         |db0 tk now] Hspent.
  - destruct (POST_invite_cases isEmail zodIssues LocalTZA db0 request
                requestBody tk newId now appUrl)
      as [[E _]|(c & rb & mail & r & t & _ & _ & _ & _ & _ & _ & _ & _
                 & Hfresh & _ & E)];
      rewrite E; [exact Hspent|].
    destruct Hspent as [Hin Hnone]. split; cbn [invitations set_invitations].
    + rewrite map_app. apply in_or_app. left. exact Hin.
    + intros j Hj Htok. apply in_app_or in Hj as [Hj|[<-|[]]];
        [exact (Hnone j Hj Htok)|].
      exfalso. cbn [issuedInvitation inv_token] in Htok. subst tk.
      apply in_map_iff in Hin as (k & Hk & Hkin).
      assert (Hdup : existsb (fun j => jseqb (inv_id j) newId
                                       || jseqb (inv_token j) token)
                       (invitations db0) = true).
      { apply existsb_exists. exists k. split; [exact Hkin|].
        rewrite Hk, jseqb_refl. apply orb_true_r. }
      congruence.
  - destruct (POST_accept_cases zodIssues hash fault db0 requestBody newUserId
                now)
      as [(E & _)|[(i & s & t & _ & Hs & _ & E)
                  |(i & b & tk & pw & _ & _ & _ & _ & _ & E)]].
    + rewrite E. exact Hspent.
    + apply (tokenSpent_markAll token (inv_id i) s t db0 _ Hs); [|exact Hspent].
      rewrite E. reflexivity.
    + apply (tokenSpent_markAll token (inv_id i) ACCEPTED (Some now) db0 _
               eq_refl); [|exact Hspent].
      rewrite E. reflexivity.
  - destruct (GET_accept_store db0 tk now) as [E|(i & _ & E)].
    + rewrite E. exact Hspent.
    + apply (tokenSpent_markAll token (inv_id i) EXPIRED None db0 _ eq_refl);
        [|exact Hspent].
      rewrite E. reflexivity.
Qed.

Lemma POST_upgrade_invitations db request slug now :
  invitations (fst (POST_upgrade db request slug now)) = invitations db.
Proof.
  unfold POST_upgrade, POST_upgrade_body.
  destruct (getUserContextFromToken request) as [context|m]; [|reflexivity].
  unfold requirePermission.
  destruct (hasPermission (role context) UPGRADE_SUBSCRIPTION); cbn [negb];
    [|reflexivity].
  destruct (tenant_findBySlug db slug) as [tenant|]; [|reflexivity].
  destruct (jseqb (tenant_id tenant) (tenantId context)); cbn [negb];
    [|reflexivity].
  unfold upgradeTenant, tenant_update.
  destruct (tenant_findUnique db (tenant_id tenant)) as [t|]; [|reflexivity].
  destruct (tenant_plan t); reflexivity.
Qed.

Lemma requestStep_tokenSpent token db db' :
  requestStep db db' -> tokenSpent token db -> tokenSpent token db'.
Proof.
  intros [db0 db1 Hstep|db0 db1 Hstep|db0 request slug now] Hspent.
  - unfold tokenSpent. rewrite (notesStep_invitations db0 db1 Hstep).
    exact Hspent.
  - exact (invitationStep_tokenSpent token db0 db1 Hstep Hspent).
  - unfold tokenSpent. rewrite POST_upgrade_invitations. exact Hspent.
Qed.

(** X9 -- Invitation tokens are single-use.  In a store with unique
    tokens, once the accept route has answered a token with 201, 409 or
    410, the token stays spent whatever requests to the notes routes,
    the invitation routes and the upgrade route come after: in every
    store so reached, a request with that token to the accept route, or
    to the validation route, is answered 404 with the route's message
    for an unknown token and changes nothing. *)
Theorem accept_single_use
  (zodIssues : value -> list (jsstring * jsstring))
  (hash : jsstring -> jsstring) (fault : StoreFault) (db : Db)
  (b : value) (token password newUserId : jsstring) (now : Z) :
  uniqueInvitationTokens db ->
  acceptInvitationSchema b = Some (token, password) ->
  let accepted := POST_accept zodIssues hash fault db (Some b) newUserId now in
  status (snd accepted) = 201 \/ status (snd accepted) = 409
  \/ status (snd accepted) = 410 ->
  forall db', requestsReachable (fst accepted) db' ->
    (forall zodIssues' hash' fault' b' password' newUserId' later,
       acceptInvitationSchema b' = Some (token, password') ->
       let again := POST_accept zodIssues' hash' fault' db' (Some b')
                      newUserId' later in
       status (snd again) = 404
       /\ body (snd again)
          = JObj [("error", JStr "Invalid or expired invitation token")]
       /\ fst again = db')
    /\ (forall later,
          let seen := GET_accept db' (Some token) later in
          status (snd seen) = 404
          /\ body (snd seen) = JObj [("error", JStr "Invalid invitation token")]
          /\ fst seen = db').
Proof.
  intros Huniq Hschema accepted Hstatus db' Hreach.
  assert (Hspent : tokenSpent token (fst accepted)).
  { destruct (POST_accept_cases zodIssues hash fault db (Some b) newUserId now)
      as [(_ & H1 & H2 & H3)|[(i & s & t & Hm & Hs & _ & E)
                             |(i & b' & tk & pw & Hb & Hs' & Hfind & _ & _ & E)]].
    - destruct Hstatus as [H|[H|H]]; contradiction.
    - apply matchedInvitation_some in Hm as (Hin & _ & b' & pw & Hb & Hs').
      injection Hb as <-. rewrite Hschema in Hs'. injection Hs' as -> _.
      apply findByToken_none_spent.
      + unfold accepted. rewrite E. cbn [invitations set_invitations].
        rewrite map_token_markAll. apply in_map. exact Hin.
      + apply (findByToken_after_mark db (fst accepted) s t i Huniq Hin Hs).
        unfold accepted. rewrite E. reflexivity.
    - injection Hb as <-. rewrite Hschema in Hs'. injection Hs' as <- _.
      apply invitation_findByToken_some in Hfind as (Hin & <- & _).
      apply findByToken_none_spent.
      + unfold accepted. rewrite E. cbn [invitations].
        rewrite map_token_markAll. apply in_map. exact Hin.
      + apply (findByToken_after_mark db (fst accepted) ACCEPTED (Some now) i
                 Huniq Hin eq_refl).
        unfold accepted. rewrite E. reflexivity. }
  assert (Hgone : invitation_findByToken db' token = None).
  { apply tokenSpent_findByToken.
    induction Hreach as [|db1 db2 _ IH Hstep]; [exact Hspent|].
    exact (requestStep_tokenSpent token db1 db2 Hstep IH). }
  split.
  - intros zodIssues' hash' fault' b' password' newUserId' later Hs' again.
    subst again. unfold POST_accept, POST_accept_body. rewrite Hs', Hgone.
    repeat split.
  - intros later seen. subst seen.
    apply acceptInvitationSchema_some in Hschema as [Hlen _].
    unfold GET_accept, GET_accept_body.
    destruct token as [|c token];
      [unfold jslength in Hlen; cbn in Hlen; lia|].
    rewrite Hgone. repeat split.
Qed.

Lemma inviteDb_uniqueTokens : uniqueInvitationTokens inviteDb.
Proof.
  unfold uniqueInvitationTokens. cbn.
  repeat constructor; cbn; intuition discriminate.
Qed.

Lemma accept_single_use_witness :
  let accepted := POST_accept sample_zodIssues sample_hash NoFault inviteDb
                    (Some (acceptBody "4f2a9c" "correct horse"))
                    "cusernewcomer000000000004" 5000 in
  let invited := POST_invite sample_isEmail sample_zodIssues sample_LocalTZA
                   (fst accepted) (Verified acmeAdminContext)
                   (Some (inviteBody "third@acme.test" "MEMBER"))
                   "c0ffee" "cinvite000000000000000003" 5500 None in
  let noted := POST_notes (fst invited) (Verified acmeUserContext)
                 (Some (noteBody "T" "C")) "cnote00000000000000000009" 5600 in
  status (snd accepted) = 201
  /\ status (snd invited) = 201
  /\ status (snd (POST_accept sample_zodIssues sample_hash NoFault
                    (fst noted)
                    (Some (acceptBody "4f2a9c" "another password"))
                    "cusernewcomer000000000005" 6000)) = 404
  /\ status (snd (GET_accept (fst noted) (Some (lit "4f2a9c")) 6000)) = 404.
Proof.
  intros accepted invited noted.
  destruct (accept_single_use sample_zodIssues sample_hash NoFault inviteDb
              (acceptBody "4f2a9c" "correct horse") "4f2a9c"
              "correct horse" "cusernewcomer000000000004" 5000
              inviteDb_uniqueTokens eq_refl (or_introl eq_refl) (fst noted))
    as [Hpost Hget].
  { eapply requests_step;
      [eapply requests_step; [apply requests_start|]|].
    - apply request_invitation.
      exact (step_POST_invite sample_isEmail sample_zodIssues sample_LocalTZA
               _ (Verified acmeAdminContext)
               (Some (inviteBody "third@acme.test" "MEMBER"))
               "c0ffee" "cinvite000000000000000003" 5500 None).
    - apply request_notes.
      exact (step_POST_notes _ (Verified acmeUserContext)
               (Some (noteBody "T" "C")) "cnote00000000000000000009" 5600). }
  split; [reflexivity|]. split; [reflexivity|]. split.
  - exact (proj1 (Hpost sample_zodIssues sample_hash NoFault
                    (acceptBody "4f2a9c" "another password") "another password"
                    "cusernewcomer000000000005" 6000 eq_refl)).
  - exact (proj1 (Hget 6000)).
Defined.

Lemma inviteDb_withinUserCap : withinUserCap inviteDb.
Proof.
  intros tid t Hfind Hfree.
  apply tenant_findUnique_some in Hfind as [Hin <-].
  destruct Hin as [<-|[<-|[]]]; [vm_compute; discriminate|discriminate].
Qed.

Lemma user_cap_invariant_witness :
  let db1 := fst (POST_invite sample_isEmail sample_zodIssues sample_LocalTZA inviteDb
                    (Verified acmeAdminContext)
                    (Some (inviteBody "third@acme.test" "MEMBER"))
                    "c0ffee" "cinvite000000000000000003" 1000 None) in
  let db2 := fst (POST_invite sample_isEmail sample_zodIssues sample_LocalTZA db1
                    (Verified acmeAdminContext)
                    (Some (inviteBody "fourth@acme.test" "MEMBER"))
                    "decade" "cinvite000000000000000004" 1000 None) in
  let db3 := fst (POST_accept sample_zodIssues sample_hash NoFault db2
                    (Some (acceptBody "4f2a9c" "correct horse"))
                    "cusernewcomer000000000004" 5000) in
  user_count db1 (tenant_id acmeTenant)
  + invitation_countPending db1 (tenant_id acmeTenant) = 5
  /\ user_count db3 (tenant_id acmeTenant)
     + invitation_countPending db3 (tenant_id acmeTenant) <= 5.
Proof.
  intros db1 db2 db3. split; [reflexivity|].
  apply (proj1 (user_cap_invariant inviteDb db3 inviteDb_withinUserCap
                  (reach_step _ _ _
                     (reach_step _ _ _
                        (reach_step _ _ _ (reach_start inviteDb)
                           (step_POST_invite _ _ _ _ _ _ _ _ _ _))
                        (step_POST_invite _ _ _ _ _ _ _ _ _ _))
                     (step_POST_accept _ _ _ _ _ _ _))))
    with (t := acmeTenant); reflexivity.
Defined.

Lemma crowdedDb_withinUserCap : withinUserCap crowdedDb.
Proof.
  intros tid t Hfind Hfree.
  apply tenant_findUnique_some in Hfind as [Hin <-].
  destruct Hin as [<-|[<-|[]]]; [vm_compute; discriminate|discriminate].
Qed.

Lemma accept_never_over_limit_witness :
  status (snd (POST_accept sample_zodIssues sample_hash NoFault crowdedDb
                 (Some (acceptBody "c0ffee" "correct horse"))
                 "cusernewcomer000000000004" 5000)) <> 403.
Proof.
  apply accept_never_over_limit. exact crowdedDb_withinUserCap.
Defined.

(** ** The listing *)

Lemma checkedField_nil o ok msg :
  fst (checkedField o ok msg) = [] ->
  snd (checkedField o ok msg) = o /\ (forall s, o = Some s -> ok s = true).
Proof.
  unfold checkedField. destruct o as [s|]; [|split; [reflexivity|discriminate]].
  destruct (ok s) eqn:E; [|discriminate].
  intros _. split; [reflexivity|]. intros s' [= <-]. exact E.
Qed.

Lemma validateNoteQueryParams_valid query :
  isValid (validateNoteQueryParams query) = true ->
  data (validateNoteQueryParams query) = Some query
  /\ (forall s, q_page query = Some s ->
        exists p, parseInt s = Some p /\ atLeastOne p)
  /\ (forall s, q_limit query = Some s ->
        exists l, parseInt s = Some (Integer l) /\ 1 <= l <= 100)
  /\ (forall s, q_search query = Some s -> jslength s <= 200)
  /\ (forall s, q_sortBy query = Some s ->
        s = lit "createdAt" \/ s = lit "updatedAt" \/ s = lit "title")
  /\ (forall s, q_sortOrder query = Some s -> s = lit "asc" \/ s = lit "desc").
Proof.
  unfold validateNoteQueryParams.
  match goal with
  | |- context [fst ?a ++ fst ?b ++ fst ?c ++ fst ?d ++ fst ?e ++ fst ?f] =>
      set (page := a); set (limit := b); set (search := c); set (tags := d);
      set (sortBy := e); set (sortOrder := f)
  end.
  destruct (fst page ++ fst limit ++ fst search ++ fst tags ++ fst sortBy
            ++ fst sortOrder) eqn:E; [|discriminate].
  intros _. subst page limit search tags sortBy sortOrder.
  apply app_eq_nil in E as [E1 E]. apply app_eq_nil in E as [E2 E].
  apply app_eq_nil in E as [E3 E]. apply app_eq_nil in E as [E4 E].
  apply app_eq_nil in E as [E5 E6].
  apply checkedField_nil in E1 as [-> H1], E2 as [-> H2], E3 as [-> H3],
    E4 as [-> _], E5 as [-> H5], E6 as [-> H6].
  cbn [data valid]. split; [destruct query; reflexivity|].
  split; [|split; [|split; [|split]]].
  - intros s Hs. specialize (H1 s Hs). cbn beta in H1.
    destruct (parseInt s) as [[p| |]|]; try discriminate.
    + exists (Integer p). split; [reflexivity|]. left. exists p.
      split; [reflexivity|]. cbn in H1.
      destruct (Z.ltb_spec p 1); [discriminate|lia].
    + exists PosInfinity. split; [reflexivity|]. right. reflexivity.
  - intros s Hs. specialize (H2 s Hs). cbn beta in H2.
    destruct (parseInt s) as [[l| |]|]; try discriminate.
    exists l. split; [reflexivity|]. cbn in H2.
    destruct (Z.ltb_spec l 1); [discriminate|].
    destruct (Z.ltb_spec 100 l); [discriminate|lia].
  - intros s Hs. specialize (H3 s Hs). cbn beta in H3.
    destruct (Z.gtb_spec (jslength s) 200); [discriminate|lia].
  - intros s Hs. specialize (H5 s Hs). cbn beta in H5.
    apply orb_true_iff in H5 as [H5|H5];
      [apply orb_true_iff in H5 as [H5|H5]|]; apply jseqb_eq in H5; auto.
  - intros s Hs. specialize (H6 s Hs). cbn beta in H6.
    apply orb_true_iff in H6 as [H6|H6]; apply jseqb_eq in H6; auto.
Qed.

Lemma insertBy_Permutation le x l : Permutation (insertBy le x l) (x :: l).
Proof.
  induction l as [|y l IH]; cbn; [reflexivity|].
  destruct (le x y); [reflexivity|].
  rewrite IH. apply perm_swap.
Qed.

Lemma sortBy_Permutation le l : Permutation (sortBy le l) l.
Proof.
  induction l as [|x l IH]; cbn; [reflexivity|].
  fold (sortBy le l). rewrite insertBy_Permutation. now constructor.
Qed.

Lemma insertBy_sorted (le : Note -> Note -> bool) x l :
  (forall a b, le a b = true \/ le b a = true) ->
  LocallySorted (fun a b => le a b = true) l ->
  LocallySorted (fun a b => le a b = true) (insertBy le x l).
Proof.
  intros Htotal Hs. induction Hs as [|y|y z l Hs IH Hyz]; cbn.
  - constructor.
  - destruct (le x y) eqn:E; repeat constructor; auto.
    destruct (Htotal x y); congruence.
  - destruct (le x y) eqn:E.
    + repeat constructor; auto.
    + cbn in IH. destruct (le x z) eqn:E'.
      * constructor; [exact IH|]. destruct (Htotal x y); congruence.
      * constructor; [exact IH|exact Hyz].
Qed.

Lemma sortBy_sorted (le : Note -> Note -> bool) l :
  (forall a b, le a b = true \/ le b a = true) ->
  LocallySorted (fun a b => le a b = true) (sortBy le l).
Proof.
  intros Htotal. induction l as [|x l IH]; cbn; [constructor|].
  now apply insertBy_sorted.
Qed.

Lemma note_le_total title_le f desc :
  totalOrder title_le ->
  forall a b, note_le title_le f desc a b = true
              \/ note_le title_le f desc b a = true.
Proof.
  intros Htotal a b. unfold note_le.
  destruct desc, f; try apply Htotal;
    match goal with
    | |- (?x <=? ?y) = true \/ _ =>
        destruct (Z.leb_spec x y); [left; reflexivity|right; apply Z.leb_le; lia]
    end.
Qed.

Arguments toNumber : simpl never.

Lemma roundToDouble_exact z : 0 <= z < 2 ^ 53 -> roundToDouble z = Some z.
Proof.
  intros Hz. unfold roundToDouble.
  destruct (Z.leb_spec (Z.log2 z + 1) 53) as [_|Hbits]; [reflexivity|].
  exfalso. destruct (Z.eq_dec z 0) as [->|Hne]; [cbn in Hbits; lia|].
  assert (Z.log2 z < 53) by (apply Z.log2_lt_pow2; lia). lia.
Qed.

Lemma roundToDouble_nonneg z r :
  0 <= z -> roundToDouble z = Some r -> 0 <= r.
Proof.
  intros Hz. unfold roundToDouble.
  destruct (Z.log2 z + 1 <=? 53); [intros [= <-]; exact Hz|].
  cbv zeta. destruct (Z.shiftl 1 1024 <=? _); [discriminate|].
  intros [= <-]. apply Z.shiftl_nonneg.
  assert (0 <= Z.shiftr z (Z.log2 z + 1 - 53)) by (apply Z.shiftr_nonneg; lia).
  destruct (_ || _); lia.
Qed.

Lemma toNumber_exact z : 0 <= z < 2 ^ 53 -> toNumber z = Integer z.
Proof.
  intros Hz. unfold toNumber.
  destruct (Z.ltb_spec z 0); [lia|]. now rewrite roundToDouble_exact.
Qed.

Lemma toNumber_nonneg z :
  0 <= z ->
  (exists r, toNumber z = Integer r /\ 0 <= r) \/ toNumber z = PosInfinity.
Proof.
  intros Hz. unfold toNumber. destruct (Z.ltb_spec z 0); [lia|].
  destruct (roundToDouble z) as [r|] eqn:E; [left|right; reflexivity].
  exists r. split; [reflexivity|]. exact (roundToDouble_nonneg z r Hz E).
Qed.

Lemma roundToDouble_large z r :
  2 ^ 53 <= z -> roundToDouble z = Some r -> 2 ^ 53 <= r.
Proof.
  intros Hz. unfold roundToDouble.
  assert (Hlog : 53 <= Z.log2 z) by (apply Z.log2_le_pow2; lia).
  destruct (Z.leb_spec (Z.log2 z + 1) 53); [lia|].
  cbv zeta. destruct (Z.shiftl 1 1024 <=? _); [discriminate|]. intros [= <-].
  set (shift := Z.log2 z + 1 - 53).
  assert (Hq : 2 ^ 52 <= Z.shiftr z shift).
  { rewrite Z.shiftr_div_pow2 by lia.
    apply Z.div_le_lower_bound; [apply Z.pow_pos_nonneg; lia|].
    rewrite <- Z.pow_add_r by lia.
    replace (shift + 52) with (Z.log2 z) by lia.
    apply Z.log2_spec. lia. }
  rewrite Z.shiftl_mul_pow2 by lia.
  assert (Hs : 2 ^ 1 <= 2 ^ shift) by (apply Z.pow_le_mono_r; lia).
  change (2 ^ 1) with 2 in Hs. change (2 ^ 52) with 4503599627370496 in Hq.
  change (2 ^ 53) with 9007199254740992.
  destruct (_ || _); nia.
Qed.

Lemma toNumber_large z r :
  2 ^ 53 <= z -> toNumber z = Integer r -> 2 ^ 53 <= r.
Proof.
  intros Hz. unfold toNumber. destruct (Z.ltb_spec z 0); [lia|].
  destruct (roundToDouble z) as [r'|] eqn:E; [|discriminate].
  intros [= <-]. exact (roundToDouble_large z r' Hz E).
Qed.

(** What a listing that succeeds has computed.  [skip] is the Number
    [(page - 1) * limit]: the integer of that name as long as that is
    below 2^53, and a double from 2^53 on otherwise. *)
Lemma GET_notes_ok icontains title_le maxSkip db request query :
  let r := GET_notes icontains title_le maxSkip db request query in
  status r = 200 ->
  exists context pageNum limitNum skip orderBy,
    getUserContextFromToken request = Ok context
    /\ parseInt (orDefault (q_page query) "1") = Some (Integer pageNum)
    /\ 1 <= pageNum
    /\ parseInt (orDefault (q_limit query) "10") = Some (Integer limitNum)
    /\ 1 <= limitNum <= 100
    /\ sortField (orDefault (q_sortBy query) "createdAt") = Some orderBy
    /\ 0 <= skip <= maxSkip
    /\ (skip = (pageNum - 1) * limitNum
        \/ (2 ^ 53 <= skip /\ 2 ^ 53 <= (pageNum - 1) * limitNum))
    /\ let matches := listMatches icontains db context query in
       let total := Z.of_nat (List.length matches) in
       let totalPages := (total + limitNum - 1) / limitNum in
       returnedNotes r
       = List.map (noteJson db)
           (firstn (Z.to_nat limitNum)
              (skipn (Z.to_nat skip)
                 (sortBy (note_le title_le orderBy
                            (jseqb (orDefault (q_sortOrder query) "desc")
                               "desc"))
                    matches)))
       /\ jget ["data"; "pagination"] (body r)
          = Some (JObj [("page", JNum (Fin pageNum));
                        ("limit", JNum (Fin limitNum));
                        ("totalCount", JNum (Fin total));
                        ("totalPages", JNum (Fin totalPages));
                        ("hasNextPage", JBool (pageNum <? totalPages));
                        ("hasPrevPage", JBool (1 <? pageNum))]).
Proof.
  unfold GET_notes, GET_notes_body, listMatches.
  destruct (getUserContextFromToken request) as [context|];
    [|cbn; discriminate].
  destruct (missingIdentity context); [cbn; discriminate|].
  destruct (isValid (validateNoteQueryParams query)) eqn:Hvalid;
    [|cbn; discriminate].
  apply validateNoteQueryParams_valid in Hvalid
    as (-> & Hpage & Hlimit & _ & _ & _).
  cbn [negb].
  assert (Hp : exists p, parseInt (orDefault (q_page query) "1") = Some p
                         /\ atLeastOne p).
  { destruct (q_page query) as [s|]; [apply Hpage; reflexivity|].
    exists (Integer 1). split; [reflexivity|]. left. exists 1.
    split; [reflexivity|lia]. }
  assert (Hl : exists l, parseInt (orDefault (q_limit query) "10")
                         = Some (Integer l) /\ 1 <= l <= 100).
  { destruct (q_limit query) as [s|]; [apply Hlimit; reflexivity|].
    exists 10. split; [reflexivity|lia]. }
  destruct Hp as (pn & -> & Hp1). destruct Hl as (limitNum & -> & Hl1).
  destruct (sortField _) as [orderBy|]; [|cbn; discriminate].
  assert (Hinf : Number_mul PosInfinity (Integer limitNum) = Some PosInfinity).
  { unfold Number_mul. rewrite Z.sgn_pos by lia. reflexivity. }
  destruct Hp1 as [(pageNum & -> & Hp1)| ->].
  2:{ cbn [Number_sub]. rewrite Hinf. cbn. discriminate. }
  cbn [Number_sub].
  destruct (toNumber_nonneg (pageNum - 1)) as [(d & Hd & Hd0)|Hd];
    [lia| |]; rewrite Hd.
  2:{ rewrite Hinf. cbn. discriminate. }
  cbn [Number_mul].
  destruct (toNumber_nonneg (d * limitNum)) as [(skip & Hskip & Hskip0)|Hskip];
    [nia| |]; rewrite Hskip; [|cbn; discriminate].
  unfold note_findMany.
  destruct (Z.gtb_spec skip maxSkip) as [|Hmax]; [cbn; discriminate|].
  destruct (getSubscriptionStatus db (tenantId context)); [|cbn; discriminate].
  intros _. exists context, pageNum, limitNum, skip, orderBy.
  repeat (split; [first [reflexivity|assumption|lia]|]).
  split; [|split; reflexivity].
  destruct (Z.lt_ge_cases (pageNum - 1) (2 ^ 53)) as [Hsmall|Hlarge].
  - assert (Hd' : d = pageNum - 1).
    { rewrite toNumber_exact in Hd by lia. congruence. }
    subst d.
    destruct (Z.lt_ge_cases ((pageNum - 1) * limitNum) (2 ^ 53))
      as [Hsmall'|Hlarge'].
    + left. rewrite toNumber_exact in Hskip by nia. congruence.
    + right. split; [|exact Hlarge'].
      exact (toNumber_large _ _ Hlarge' Hskip).
  - right. pose proof (toNumber_large _ _ Hlarge Hd) as Hd'.
    change (2 ^ 53) with 9007199254740992 in *.
    split; [|nia]. apply (toNumber_large (d * limitNum)); [|exact Hskip].
    change (2 ^ 53) with 9007199254740992. nia.
Qed.

(** X10 -- A listing that succeeds returns a window of the caller's
    tenant's matching notes in the requested order: there is an
    arrangement of exactly the rows of the tenant that match the search,
    sorted by the requested field and direction (createdAt descending by
    default), and the response holds, in that order, the [limit] rows
    that follow the first [page - 1] pages of it.  The number of rows
    passed over is the Number the route computes for them: their exact
    count, or, when that is 2^53 or more, a double that is 2^53 or more
    as well.  The title order of the store is assumed total. *)
Theorem list_is_sorted_window
  (icontains title_le : jsstring -> jsstring -> bool) (maxSkip : Z) (db : Db)
  (request : Credentials) (query : NoteQueryParams) :
  totalOrder title_le ->
  let r := GET_notes icontains title_le maxSkip db request query in
  status r = 200 ->
  exists context pageNum limitNum skip sorted,
    getUserContextFromToken request = Ok context
    /\ parseInt (orDefault (q_page query) "1") = Some (Integer pageNum)
    /\ parseInt (orDefault (q_limit query) "10") = Some (Integer limitNum)
    /\ 0 <= skip
    /\ (skip = (pageNum - 1) * limitNum
        \/ (2 ^ 53 <= skip /\ 2 ^ 53 <= (pageNum - 1) * limitNum))
    /\ Permutation sorted (listMatches icontains db context query)
    /\ LocallySorted (listOrder title_le query) sorted
    /\ returnedNotes r
       = List.map (noteJson db)
           (firstn (Z.to_nat limitNum) (skipn (Z.to_nat skip) sorted)).
Proof.
  intros Htotal r H200.
  destruct (GET_notes_ok icontains title_le maxSkip db request query H200)
    as (context & pageNum & limitNum & skip & orderBy & Hctx & Hpage & _
        & Hlimit & _ & Hsort & [Hskip _] & Hexact & Hrows & _).
  exists context, pageNum, limitNum, skip.
  eexists. split; [exact Hctx|]. split; [exact Hpage|]. split; [exact Hlimit|].
  split; [exact Hskip|]. split; [exact Hexact|].
  split; [|split; [|exact Hrows]].
  - apply sortBy_Permutation.
  - unfold listOrder. rewrite Hsort.
    apply sortBy_sorted, note_le_total, Htotal.
Qed.

Lemma sample_title_le_total : totalOrder sample_title_le.
Proof.
  intros a. induction a as [|x a IH]; intros [|y b]; cbn; auto.
  destruct (N.ltb_spec x y); [auto|].
  destruct (N.ltb_spec y x); [auto|].
  destruct (N.ltb_spec x y); [lia|]. apply IH.
Qed.

Lemma list_is_sorted_window_witness :
  List.length
    (returnedNotes
       (GET_notes sample_icontains sample_title_le 1000000 sampleDb
          (Verified acmeUserContext)
          {| q_page := Some (lit "2"); q_limit := Some (lit "2");
             q_search := None; q_tags := None;
             q_sortBy := Some (lit "title");
             q_sortOrder := Some (lit "asc") |})) = 1%nat.
Proof.
  destruct (list_is_sorted_window sample_icontains sample_title_le 1000000
              sampleDb (Verified acmeUserContext)
              {| q_page := Some (lit "2"); q_limit := Some (lit "2");
                 q_search := None; q_tags := None;
                 q_sortBy := Some (lit "title");
                 q_sortOrder := Some (lit "asc") |}
              sample_title_le_total eq_refl)
    as (context & pageNum & limitNum & skip & sorted & Hctx & Hpage & Hlimit
        & _ & Hexact & Hperm & _ & ->).
  injection Hctx as <-. injection Hpage as <-. injection Hlimit as <-.
  destruct Hexact as [->|[_ Hlarge]];
    [|exfalso; vm_compute in Hlarge; exact (Hlarge eq_refl)].
  apply Permutation_length in Hperm.
  rewrite length_map, length_firstn, length_skipn, Hperm. reflexivity.
Defined.

(** X11 -- The pagination block of a listing that succeeds is
    consistent: [page] is at least 1 and [limit] between 1 and 100 (1
    and 10 when the query gives none), [totalCount] is the number of the
    tenant's matching notes, [totalPages] is the least number of pages of
    [limit] rows that hold them, and the response carries [limit]
    notes, or what is left of [totalCount] after the rows passed over
    when that is less; the rows passed over are those of the [page - 1]
    pages before, counted as the Number the route computes: their exact
    count, or, when that is 2^53 or more, a double that is 2^53 or more
    as well. *)
Theorem list_pagination_counts
  (icontains title_le : jsstring -> jsstring -> bool) (maxSkip : Z) (db : Db)
  (request : Credentials) (query : NoteQueryParams) :
  let r := GET_notes icontains title_le maxSkip db request query in
  status r = 200 ->
  exists context pageNum limitNum totalPages skip,
    getUserContextFromToken request = Ok context
    /\ let total :=
         Z.of_nat (List.length (listMatches icontains db context query)) in
       jget ["data"; "pagination"] (body r)
       = Some (JObj [("page", JNum (Fin pageNum));
                     ("limit", JNum (Fin limitNum));
                     ("totalCount", JNum (Fin total));
                     ("totalPages", JNum (Fin totalPages));
                     ("hasNextPage", JBool (pageNum <? totalPages));
                     ("hasPrevPage", JBool (pageNum >? 1))])
       /\ 1 <= pageNum /\ 1 <= limitNum <= 100
       /\ (q_page query = None -> pageNum = 1)
       /\ (q_limit query = None -> limitNum = 10)
       /\ (totalPages - 1) * limitNum < total <= totalPages * limitNum
       /\ 0 <= skip
       /\ (skip = (pageNum - 1) * limitNum
           \/ (2 ^ 53 <= skip /\ 2 ^ 53 <= (pageNum - 1) * limitNum))
       /\ Z.of_nat (List.length (returnedNotes r))
          = Z.min limitNum (Z.max 0 (total - skip)).
Proof.
  intros r H200.
  destruct (GET_notes_ok icontains title_le maxSkip db request query H200)
    as (context & pageNum & limitNum & skip & orderBy & Hctx & Hpage & Hp1
        & Hlimit & Hl1 & _ & [Hskip _] & Hexact & Hrows & Hpagination).
  exists context, pageNum, limitNum. eexists. exists skip.
  split; [exact Hctx|]. intros total.
  split; [rewrite Z.gtb_ltb; exact Hpagination|].
  split; [exact Hp1|]. split; [exact Hl1|].
  split; [|split; [|split; [|split; [exact Hskip|split; [exact Hexact|]]]]].
  - intros E. rewrite E in Hpage. injection Hpage as <-. reflexivity.
  - intros E. rewrite E in Hlimit. injection Hlimit as <-. reflexivity.
  - fold total.
    pose proof (Z.div_mod (total + limitNum - 1) limitNum ltac:(lia)) as Hdiv.
    pose proof (Z.mod_pos_bound (total + limitNum - 1) limitNum ltac:(lia))
      as Hmod.
    nia.
  - fold r in Hrows. rewrite Hrows.
    rewrite length_map, length_firstn, length_skipn.
    rewrite (Permutation_length (sortBy_Permutation _ _)).
    fold total. lia.
Qed.

Lemma list_pagination_counts_witness :
  jget ["data"; "pagination"; "totalPages"]
    (body (GET_notes sample_icontains sample_title_le 1000000 sampleDb
             (Verified acmeUserContext)
             {| q_page := Some (lit "2"); q_limit := Some (lit "2");
                q_search := None; q_tags := None; q_sortBy := None;
                q_sortOrder := None |}))
  = Some (JNum (Fin 2)).
Proof.
  destruct (list_pagination_counts sample_icontains sample_title_le 1000000
              sampleDb (Verified acmeUserContext)
              {| q_page := Some (lit "2"); q_limit := Some (lit "2");
                 q_search := None; q_tags := None; q_sortBy := None;
                 q_sortOrder := None |} eq_refl)
    as (context & pageNum & limitNum & totalPages & skip & _ & _).
  reflexivity.
Defined.

(** X12 -- A query that validateNoteQueryParams accepts is handed on
    unchanged, and this is what can be relied on: [limit] parses to an
    integer between 1 and 100; [page] parses to a Number that is not
    below 1, which is an integer from 1 on or, for a run of digits too
    long for a double, [Infinity]; [search] has at most 200 code units,
    [sortBy] is one of createdAt, updatedAt and title, and [sortOrder]
    is asc or desc. *)
Theorem validateNoteQueryParams_accepts (query : NoteQueryParams) :
  isValid (validateNoteQueryParams query) = true ->
  validateNoteQueryParams query = valid query
  /\ (forall s, q_page query = Some s ->
        exists p, parseInt s = Some p /\ atLeastOne p)
  /\ (forall s, q_limit query = Some s ->
        exists l, parseInt s = Some (Integer l) /\ 1 <= l <= 100)
  /\ (forall s, q_search query = Some s -> jslength s <= 200)
  /\ (forall s, q_sortBy query = Some s ->
        s = lit "createdAt" \/ s = lit "updatedAt" \/ s = lit "title")
  /\ (forall s, q_sortOrder query = Some s -> s = lit "asc" \/ s = lit "desc").
Proof.
  intros Hvalid.
  destruct (validateNoteQueryParams_valid query Hvalid) as (Hdata & Hrest).
  split; [|exact Hrest].
  destruct (validateNoteQueryParams query) as [v e d] eqn:E.
  cbn in Hvalid, Hdata. subst v d. unfold valid. f_equal.
  assert (He : errors (validateNoteQueryParams query) = e)
    by (rewrite E; reflexivity).
  rewrite <- He. unfold validateNoteQueryParams in E |- *.
  destruct (_ ++ _); [reflexivity|discriminate].
Qed.

Lemma validateNoteQueryParams_accepts_witness :
  let query := {| q_page := Some (49%N :: repeat 48%N 400);
                  q_limit := Some (lit "0x10");
                  q_search := Some (lit "plan"); q_tags := None;
                  q_sortBy := Some (lit "title"); q_sortOrder := None |} in
  validateNoteQueryParams query = valid query
  /\ parseInt (49%N :: repeat 48%N 400) = Some PosInfinity
  /\ parseInt (lit "9007199254740993") = Some (Integer 9007199254740992)
  /\ parseInt (lit "0x10") = Some (Integer 16).
Proof.
  intros query. split; [|split; [|split]].
  - apply validateNoteQueryParams_accepts. vm_compute. reflexivity.
  - vm_compute. reflexivity.
  - vm_compute. reflexivity.
  - vm_compute. reflexivity.
Defined.

(** ** The upgrade route *)

Lemma find_map_same {A} (p : A -> bool) (g : A -> A) (l : list A) :
  (forall x, p (g x) = p x) ->
  find p (List.map g l) = option_map g (find p l).
Proof.
  intros H. induction l as [|x l IH]; cbn; [reflexivity|].
  rewrite H. destruct (p x); auto.
Qed.

Lemma tenant_findUnique_raised db tid tid' :
  tenant_findUnique (raisedToPro db tid) tid'
  = option_map (fun u => if jseqb (tenant_id u) tid then setPlan PRO u else u)
      (tenant_findUnique db tid').
Proof.
  unfold tenant_findUnique, raisedToPro. cbn [tenants set_tenants].
  apply find_map_same. intros x. destruct (jseqb (tenant_id x) tid); reflexivity.
Qed.

Lemma tenant_findBySlug_raised db tid slug :
  tenant_findBySlug (raisedToPro db tid) slug
  = option_map (fun u => if jseqb (tenant_id u) tid then setPlan PRO u else u)
      (tenant_findBySlug db slug).
Proof.
  unfold tenant_findBySlug, raisedToPro. cbn [tenants set_tenants].
  apply find_map_same. intros x. destruct (jseqb (tenant_id x) tid); reflexivity.
Qed.

Lemma upgradeTenant_cases tid now db :
  (exists m, upgradeTenant tid now db = (db, Throw m)
             /\ (tenant_findUnique db tid = None
                 \/ exists t, tenant_findUnique db tid = Some t
                              /\ tenant_plan t = PRO
                              /\ m = lit "Tenant is already on PRO plan"))
  \/ (exists t r, tenant_findUnique db tid = Some t /\ tenant_plan t = FREE
                  /\ oldPlan r = FREE /\ newPlan r = PRO /\ timestamp r = now
                  /\ upgradeTenant tid now db = (raisedToPro db tid, Ok r)).
Proof.
  unfold upgradeTenant, tenant_update.
  destruct (tenant_findUnique db tid) as [t|] eqn:Hfind; [|left; eauto].
  destruct (tenant_plan t) eqn:Hplan.
  - right. eexists t, _. repeat split; [exact Hplan|..]; reflexivity.
  - left. eexists. split; [reflexivity|]. right. eauto.
Qed.

(** The outcomes of an upgrade request. *)
Lemma POST_upgrade_cases db request slug now :
  let result := POST_upgrade db request slug now in
  (fst result = db /\ status (snd result) <> 200)
  \/ exists context tenant t,
       getUserContextFromToken request = Ok context
       /\ role context = ADMIN
       /\ tenant_findBySlug db slug = Some tenant
       /\ tenant_id tenant = tenantId context
       /\ tenant_findUnique db (tenantId context) = Some t
       /\ tenant_plan t = FREE
       /\ status (snd result) = 200
       /\ jget ["data"; "tenant"; "plan"] (body (snd result))
          = Some (JStr (lit "PRO"))
       /\ fst result = raisedToPro db (tenantId context).
Proof.
  unfold POST_upgrade, POST_upgrade_body.
  destruct (getUserContextFromToken request) as [context|m] eqn:Hctx.
  2:{ left. cbn. destruct (includes m _); split; try reflexivity; discriminate. }
  unfold requirePermission.
  destruct (hasPermission (role context) UPGRADE_SUBSCRIPTION) eqn:Hperm;
    cbn [negb]; [|left; split; [reflexivity|discriminate]].
  destruct (tenant_findBySlug db slug) as [tenant|] eqn:Hslug;
    [|left; split; [reflexivity|discriminate]].
  destruct (jseqb (tenant_id tenant) (tenantId context)) eqn:Hid; cbn [negb];
    [|left; split; [reflexivity|discriminate]].
  apply jseqb_eq in Hid.
  destruct (upgradeTenant_cases (tenant_id tenant) now db)
    as [(m & E & _)|(t & r & Hfind & Hplan & Hold & Hnew & _ & E)]; rewrite E.
  - left. cbn [tryCatch fst snd].
    split; [reflexivity|]. destruct (includes m _); discriminate.
  - right. exists context, tenant, t. rewrite <- Hid. cbn [tryCatch fst snd].
    repeat split; try assumption; try reflexivity.
    + destruct (role context); [reflexivity|discriminate].
    + cbn. rewrite Hnew. reflexivity.
Qed.

(** X13 -- An upgrade request changes the store only when it succeeds,
    and then only the plan: the caller is an ADMIN whose tenant is the one
    the slug names, that tenant was on FREE and is on PRO afterwards, the
    answer says so, the users, notes and invitations are untouched, and
    every other tenant keeps its row. *)
Theorem upgrade_changes_only_plan (db : Db) (request : Credentials)
  (slug : jsstring) (now : Z) :
  let result := POST_upgrade db request slug now in
  (status (snd result) <> 200 -> fst result = db)
  /\ (status (snd result) = 200 ->
      exists context tenant t,
        getUserContextFromToken request = Ok context
        /\ role context = ADMIN
        /\ tenant_findBySlug db slug = Some tenant
        /\ tenant_id tenant = tenantId context
        /\ tenant_findUnique db (tenantId context) = Some t
        /\ tenant_plan t = FREE
        /\ tenant_findUnique (fst result) (tenantId context)
           = Some (setPlan PRO t)
        /\ (forall tid, tid <> tenantId context ->
              tenant_findUnique (fst result) tid = tenant_findUnique db tid)
        /\ jget ["data"; "tenant"; "plan"] (body (snd result))
           = Some (JStr (lit "PRO"))
        /\ users (fst result) = users db
        /\ notes (fst result) = notes db
        /\ invitations (fst result) = invitations db).
Proof.
  intros result. subst result.
  destruct (POST_upgrade_cases db request slug now)
    as [[E Hno]|(context & tenant & t & Hctx & Hrole & Hslug & Hid & Hfind
                 & Hplan & H200 & Hbody & E)].
  - split; [auto|contradiction].
  - split; [intros H; contradiction|]. intros _.
    exists context, tenant, t. rewrite E.
    repeat (split; [assumption|]).
    split; [|split; [|split; [exact Hbody|repeat split]]].
    + rewrite tenant_findUnique_raised, Hfind. cbn.
      apply tenant_findUnique_some in Hfind as [_ ->].
      rewrite jseqb_refl. reflexivity.
    + intros tid Hother. rewrite tenant_findUnique_raised.
      destruct (tenant_findUnique db tid) as [u|] eqn:Hu; [|reflexivity].
      apply tenant_findUnique_some in Hu as [_ Hu]. cbn.
      destruct (jseqb (tenant_id u) (tenantId context)) eqn:E'; [|reflexivity].
      apply jseqb_eq in E'. congruence.
Qed.

Lemma upgrade_changes_only_plan_witness :
  let result := POST_upgrade sampleDb (Verified acmeAdminContext) "acme" 9000 in
  status (snd result) = 200
  /\ notes (fst result) = notes sampleDb
  /\ status (snd (POST_upgrade sampleDb (Verified acmeUserContext) "acme" 9000))
     = 403
  /\ fst (POST_upgrade sampleDb (Verified acmeUserContext) "acme" 9000)
     = sampleDb.
Proof.
  intros result.
  destruct (upgrade_changes_only_plan sampleDb (Verified acmeAdminContext)
              "acme" 9000) as [_ Hok].
  destruct (upgrade_changes_only_plan sampleDb (Verified acmeUserContext)
              "acme" 9000) as [Hno _].
  destruct (Hok eq_refl)
    as (context & tenant & t & _ & _ & _ & _ & _ & _ & _ & _ & _ & _ & Hnotes
        & _).
  split; [reflexivity|]. split; [exact Hnotes|]. split; [reflexivity|].
  apply Hno. cbn. discriminate.
Defined.


Lemma tenant_findBySlug_some db slug t :
  tenant_findBySlug db slug = Some t ->
  In t (tenants db) /\ tenant_slug t = slug.
Proof.
  unfold tenant_findBySlug. intros H. apply find_some in H as [Hin Hp].
  apply jseqb_eq in Hp. auto.
Qed.

Lemma tenant_findUnique_of_row db t :
  uniqueTenantIds db -> In t (tenants db) ->
  tenant_findUnique db (tenant_id t) = Some t.
Proof.
  intros Huniq Hin. unfold tenant_findUnique.
  destruct (find _ _) as [t'|] eqn:E.
  - apply find_some in E as [Hin' Hid]. apply jseqb_eq in Hid.
    f_equal. apply (NoDup_map_inj tenant_id (tenants db)); assumption.
  - eapply find_none in E; [|exact Hin]. cbn in E.
    rewrite jseqb_refl in E. discriminate.
Qed.



(** X15 -- An upgrade happens once: after a successful upgrade, the same
    request of any ADMIN of the tenant is answered 400 "Tenant is already
    on PRO plan" and changes nothing. *)
Theorem upgrade_twice (db : Db) (context other : UserContext)
  (slug : jsstring) (now later : Z) :
  let upgraded := POST_upgrade db (Verified context) slug now in
  status (snd upgraded) = 200 ->
  role other = ADMIN ->
  tenantId other = tenantId context ->
  POST_upgrade (fst upgraded) (Verified other) slug later
  = (fst upgraded, createApiError "Tenant is already on PRO plan" 400).
Proof.
  intros upgraded H200 Hrole Htenant. subst upgraded.
  destruct (POST_upgrade_cases db (Verified context) slug now)
    as [[_ Hno]|(context' & tenant & t & Hctx & _ & Hslug & Hid & Hfind & _ & _
                 & _ & E)]; [contradiction|].
  rewrite getUserContextFromToken_verified in Hctx. injection Hctx as <-.
  rewrite E. clear E H200.
  unfold POST_upgrade, POST_upgrade_body.
  rewrite getUserContextFromToken_verified. unfold requirePermission.
  rewrite Hrole. cbn [hasPermission PERMISSIONS existsb Role_eqb orb negb].
  rewrite tenant_findBySlug_raised, Hslug. cbn [option_map].
  rewrite Hid, jseqb_refl. cbn [setPlan tenant_id].
  rewrite Hid, Htenant, jseqb_refl. cbn [negb].
  unfold upgradeTenant. rewrite tenant_findUnique_raised, Hfind.
  cbn [option_map]. apply tenant_findUnique_some in Hfind as [_ ->].
  rewrite jseqb_refl. cbn [setPlan tenant_plan tryCatch].
  reflexivity.
Qed.

Lemma upgrade_twice_witness :
  let upgraded := POST_upgrade sampleDb (Verified acmeAdminContext) "acme" 9000 in
  status (snd (POST_upgrade (fst upgraded) (Verified acmeAdminContext) "acme"
                 9100)) = 400.
Proof.
  intros upgraded. subst upgraded.
  rewrite (upgrade_twice sampleDb acmeAdminContext acmeAdminContext "acme"
             9000 9100 eq_refl eq_refl eq_refl).
  reflexivity.
Defined.

(** X16 -- The upgrade route never answers 401.  Without a token, or
    with one that does not verify, the exception of the token check lacks
    the text the handler looks for, and the answer is the 500 "Internal
    server error during upgrade"; the store is untouched. *)
Theorem upgrade_never_401 (db : Db) (request : Credentials) (slug : jsstring)
  (now : Z) :
  status (snd (POST_upgrade db request slug now)) <> 401
  /\ ((forall context, request <> Verified context) ->
      POST_upgrade db request slug now
      = (db, createApiError "Internal server error during upgrade" 500)).
Proof.
  split.
  - destruct (POST_upgrade_cases db request slug now)
      as [[_ _]|(context & tenant & t & _ & _ & _ & _ & _ & _ & H200 & _)].
    2:{ rewrite H200. discriminate. }
    unfold POST_upgrade, POST_upgrade_body.
    destruct request as [| |context]; try (cbn; discriminate).
    rewrite getUserContextFromToken_verified.
    destruct (requirePermission _ _); [|cbn; discriminate].
    destruct (tenant_findBySlug db slug) as [tenant|]; [|cbn; discriminate].
    destruct (negb _); [cbn; discriminate|].
    destruct (upgradeTenant _ _ _) as [db1 [r|m]]; [cbn; discriminate|].
    cbn [tryCatch snd]. destruct (includes m _); cbn; discriminate.
  - intros Hno. destruct request as [| |context]; try reflexivity.
    exfalso. exact (Hno context eq_refl).
Qed.

Lemma upgrade_never_401_witness :
  POST_upgrade sampleDb NoToken "acme" 9000
  = (sampleDb, createApiError "Internal server error during upgrade" 500).
Proof.
  apply (proj2 (upgrade_never_401 sampleDb NoToken "acme" 9000)).
  intros context H. discriminate H.
Defined.

(** X17 -- For an ADMIN the eligibility check agrees with the upgrade:
    the check answers 200 exactly when the upgrade answers 200 or 400,
    and, tenant ids being unique, it reports the tenant eligible exactly
    when the upgrade would succeed. *)
Theorem eligibility_agrees_with_upgrade (db : Db) (context : UserContext)
  (slug : jsstring) (now : Z) :
  uniqueTenantIds db ->
  role context = ADMIN ->
  let check := GET_upgrade db (Verified context) slug in
  let upgrade := POST_upgrade db (Verified context) slug now in
  (status check = 200
   <-> status (snd upgrade) = 200 \/ status (snd upgrade) = 400)
  /\ (jget ["data"; "upgrade"; "eligible"] (body check) = Some (JBool true)
      <-> status (snd upgrade) = 200).
Proof.
  intros Huniq Hrole check upgrade. subst check upgrade.
  unfold GET_upgrade, GET_upgrade_body, POST_upgrade, POST_upgrade_body.
  rewrite getUserContextFromToken_verified. unfold requirePermission.
  rewrite Hrole. cbn [hasPermission PERMISSIONS existsb Role_eqb orb negb].
  destruct (tenant_findBySlug db slug) as [tenant|] eqn:Hslug.
  2:{ cbn. split; split; try discriminate. intros [H|H]; discriminate. }
  destruct (jseqb (tenant_id tenant) (tenantId context)); cbn [negb].
  2:{ cbn. split; split; try discriminate. intros [H|H]; discriminate. }
  apply tenant_findBySlug_some in Hslug as [Hin _].
  unfold upgradeTenant, tenant_update.
  rewrite (tenant_findUnique_of_row db tenant Huniq Hin).
  destruct (tenant_plan tenant); cbn.
  - split; split; auto.
  - split; split; auto; discriminate.
Qed.

Lemma sampleDb_uniqueTenantIds : uniqueTenantIds sampleDb.
Proof.
  unfold uniqueTenantIds. cbn.
  repeat constructor; cbn; intuition discriminate.
Qed.

Lemma eligibility_agrees_with_upgrade_witness :
  jget ["data"; "upgrade"; "eligible"]
    (body (GET_upgrade sampleDb (Verified acmeAdminContext) "acme"))
  = Some (JBool true)
  /\ jget ["data"; "upgrade"; "eligible"]
       (body (GET_upgrade sampleDb (Verified globexAdminContext) "globex"))
     = Some (JBool false)
  /\ status (snd (POST_upgrade sampleDb (Verified globexAdminContext) "globex"
                    9000)) <> 200.
Proof.
  split; [reflexivity|]. split; [reflexivity|].
  intros H.
  apply (eligibility_agrees_with_upgrade sampleDb globexAdminContext "globex"
           9000 sampleDb_uniqueTenantIds eq_refl) in H.
  discriminate H.
Defined.

(** ** lib/authorization *)

(** X18 -- [requireAction] is [requirePermission] followed, when an
    owner is named, by [requireResourceAccess]: it passes exactly when
    the role holds the permission and, for a non-empty owner id, the
    caller is an ADMIN or the owner.  An absent or empty owner id asks
    for the permission alone. *)
Theorem requireAction_decomposes (context : UserContext)
  (permission : Permission) (resourceOwnerId : option jsstring) :
  requireAction context permission resourceOwnerId = Ok tt
  <-> requirePermission context permission = Ok tt
      /\ match resourceOwnerId with
         | Some (c :: owner) =>
             requireResourceAccess context (c :: owner) = Ok tt
         | _ => True
         end.
Proof.
  unfold requireAction, requirePermission, requireResourceAccess,
    canPerformAction, canAccessResource.
  destruct (hasPermission (role context) permission); cbn [negb].
  - destruct resourceOwnerId as [[|c owner]|]; try tauto.
    destruct (Role_eqb (role context) ADMIN); cbn [negb]; [tauto|].
    destruct (jseqb (userId context) (c :: owner)); cbn [negb]; [tauto|].
    split; [discriminate|intros [_ H]; discriminate].
  - split; [discriminate|intros [H _]; discriminate].
Qed.

(** X19 -- What the roles may do.  An ADMIN passes every check of the
    library, for every permission and owner.  A MEMBER passes
    [requireAction] only for the four own-note permissions, and on a
    resource with a non-empty owner id only when the owner is the
    member. *)
Theorem role_capabilities (context : UserContext) (permission : Permission)
  (resourceOwnerId : option jsstring) :
  (requireAdmin context = Ok tt ->
   requireAction context permission resourceOwnerId = Ok tt
   /\ requirePermission context permission = Ok tt
   /\ requireMemberOrAdmin context = Ok tt
   /\ forall owner, requireResourceAccess context owner = Ok tt)
  /\ (role context = MEMBER ->
      requireAction context permission resourceOwnerId = Ok tt ->
      ownNotePermission permission = true
      /\ forall c owner, resourceOwnerId = Some (c :: owner) ->
                         userId context = c :: owner).
Proof.
  split.
  - unfold requireAdmin. destruct (role context) eqn:Hrole; [|discriminate].
    intros _. unfold requireAction, requirePermission, requireMemberOrAdmin,
      requireResourceAccess, canPerformAction, canAccessResource.
    rewrite Hrole.
    repeat split; try (intros owner);
      destruct permission; try destruct resourceOwnerId as [[|c o]|];
      reflexivity.
  - intros Hrole. unfold requireAction, canPerformAction. rewrite Hrole.
    destruct permission; cbn; try discriminate;
      (split; [reflexivity|]); intros c owner ->; revert H;
      destruct (jseqb (userId context) (c :: owner)) eqn:E;
      try discriminate; intros _; now apply jseqb_eq.
Qed.

Lemma role_capabilities_witness :
  requireAction acmeAdminContext DELETE_ALL_NOTES (Some (user_id acmeUser))
  = Ok tt
  /\ ownNotePermission UPDATE_OWN_NOTES = true.
Proof.
  split.
  - apply (role_capabilities acmeAdminContext DELETE_ALL_NOTES
             (Some (user_id acmeUser))). reflexivity.
  - apply (role_capabilities acmeUserContext UPDATE_OWN_NOTES
             (Some (user_id acmeUser))); reflexivity.
Defined.

(** X20 -- The two access libraries agree.  On the context the headers
    give for a token's claims, [validateAdminRole] of lib/tenant-context
    passes exactly when [requireAdmin] of lib/authorization does, and
    [validateUserAccess] exactly when [requireResourceAccess] does. *)
Theorem access_libraries_agree (context : UserContext)
  (resourceUserId : jsstring) :
  (validateAdminRole (tenantContextOf context) = Ok tt
   <-> requireAdmin context = Ok tt)
  /\ (validateUserAccess (tenantContextOf context) resourceUserId = Ok tt
      <-> requireResourceAccess context resourceUserId = Ok tt).
Proof.
  unfold validateAdminRole, validateUserAccess, requireAdmin,
    requireResourceAccess, canAccessResource, tenantContextOf.
  cbn [tc_userRole tc_userId].
  destruct (role context); cbn [Role_toString Role_eqb negb andb].
  - replace (jseqb (lit "ADMIN") (lit "ADMIN")) with true by reflexivity.
    cbn. tauto.
  - replace (jseqb (lit "MEMBER") (lit "ADMIN")) with false by reflexivity.
    cbn [negb andb].
    destruct (jseqb (userId context) resourceUserId); cbn [negb];
      split; split; try tauto; discriminate.
Qed.

(** ** The subscription gates *)

Lemma countNotes_all tid db :
  TenantAwareRepository.countNotes tid db None = note_count db tid.
Proof.
  unfold TenantAwareRepository.countNotes, note_count. do 2 f_equal.
  apply filter_ext. intros n. apply andb_true_r.
Qed.

(** X21 -- The three gates on note creation agree: [validateNoteCreation]
    that the create route calls, [requireSubscriptionAccess] for
    CREATE_NOTE of the subscription middleware and [canCreateNote] of the
    tenant repository let a tenant create a note in exactly the same
    stores; and the flag of [getSubscriptionContext] is the flag of
    [checkNoteLimit]. *)
Theorem creation_gates_agree (db : Db) (tid : jsstring) :
  ((exists c, SubscriptionMiddleware.requireSubscriptionAccess db tid
                SubscriptionMiddleware.CREATE_NOTE = Ok c)
   <-> validateNoteCreation db tid = Ok tt)
  /\ (TenantAwareRepository.canCreateNote tid db = Ok true
      <-> validateNoteCreation db tid = Ok tt)
  /\ (forall c, SubscriptionMiddleware.getSubscriptionContext db tid = Ok c ->
        exists l, checkNoteLimit db tid = Ok l
                  /\ canCreate l = SubscriptionMiddleware.sc_canCreateNote c
                  /\ currentCount l = SubscriptionMiddleware.sc_noteCount c).
Proof.
  unfold SubscriptionMiddleware.requireSubscriptionAccess,
    SubscriptionMiddleware.getSubscriptionContext,
    TenantAwareRepository.canCreateNote, TenantAwareRepository.getTenant,
    validateNoteCreation, checkNoteLimit, getSubscriptionStatus.
  rewrite countNotes_all.
  destruct (tenant_findUnique db tid) as [t|] eqn:Hfind.
  2:{ split; [|split]; try (split; [|discriminate]); try discriminate.
      intros [c H]; discriminate. }
  apply tenant_findUnique_some in Hfind as [_ ->].
  unfold SubscriptionMiddleware.contextOfStatus, canCreateNote.
  cbn [ss_plan usage_currentNotes remaining_notes canCreate currentCount
       SubscriptionMiddleware.sc_canCreateNote
       SubscriptionMiddleware.sc_noteCount].
  destruct (tenant_plan t);
    cbn [SUBSCRIPTION_LIMITS maxNotes getRemainingNotes remainingOf num_ltb
         SubscriptionMiddleware.isPRO orb negb].
  - set (k := note_count db tid).
    destruct (Z.ltb_spec k 3) as [Hk|Hk];
      destruct (Z.ltb_spec 0 (Z.max 0 (3 - k))) as [Hr|Hr];
      try lia; cbn [negb].
    + split; [split; eauto|]. split; [tauto|].
      intros c [= <-]. eexists. split; [reflexivity|]. cbn. auto.
    + split; [split; [intros [c E]; discriminate|discriminate]|].
      split; [split; discriminate|].
      intros c [= <-]. eexists. split; [reflexivity|]. cbn. auto.
  - split; [split; eauto|]. split; [tauto|].
    intros c [= <-]. eexists. split; [reflexivity|]. cbn. auto.
Qed.

Lemma creation_gates_agree_witness :
  TenantAwareRepository.canCreateNote (tenant_id acmeTenant) sampleDb
  <> Ok true
  /\ TenantAwareRepository.canCreateNote (tenant_id globexTenant) sampleDb
     = Ok true.
Proof.
  split.
  - intros H.
    apply (proj1 (proj2 (creation_gates_agree sampleDb (tenant_id acmeTenant))))
      in H.
    vm_compute in H. discriminate H.
  - apply (proj1 (proj2 (creation_gates_agree sampleDb
                           (tenant_id globexTenant)))).
    reflexivity.
Defined.

(** X22 -- The subscription status is consistent with the store and with
    itself: usage is the tenant's row counts; on PRO nothing runs out, on
    FREE what remains is [max(0, 3 - notes)] and [max(0, 5 - users)];
    [canUpgrade] holds exactly on FREE; the repository reports the same
    remaining notes; and [checkNoteLimit] and [checkUserLimit] allow
    exactly when something remains. *)
Theorem subscription_status_consistent (db : Db) (tid : jsstring)
  (st : SubscriptionStatus) :
  getSubscriptionStatus db tid = Ok st ->
  (exists t, tenant_findUnique db tid = Some t /\ ss_plan st = tenant_plan t)
  /\ usage_currentNotes st = note_count db tid
  /\ usage_currentUsers st = user_count db tid
  /\ canUpgrade st = negb (SubscriptionMiddleware.isPRO (ss_plan st))
  /\ TenantAwareRepository.getRemainingNotes tid db = Ok (remaining_notes st)
  /\ match ss_plan st with
     | PRO => remaining_notes st = Infinity /\ remaining_users st = Infinity
     | FREE =>
         remaining_notes st = Fin (Z.max 0 (3 - note_count db tid))
         /\ remaining_users st = Fin (Z.max 0 (5 - user_count db tid))
     end
  /\ (exists l, checkNoteLimit db tid = Ok l
                /\ (canCreate l = true <-> remaining_notes st <> Fin 0))
  /\ (exists l, checkUserLimit db tid = Ok l
                /\ (canInvite l = true <-> remaining_users st <> Fin 0)).
Proof.
  unfold checkNoteLimit, checkUserLimit, TenantAwareRepository.getRemainingNotes,
    TenantAwareRepository.getTenant.
  rewrite countNotes_all.
  unfold getSubscriptionStatus.
  destruct (tenant_findUnique db tid) as [t|] eqn:Hfind; [|discriminate].
  apply tenant_findUnique_some in Hfind as Hid. destruct Hid as [_ Hid].
  rewrite Hid. intros [= <-].
  cbn [ss_plan usage_currentNotes usage_currentUsers remaining_notes
       remaining_users canUpgrade limits_maxNotes limits_maxUsers].
  split; [eauto|]. split; [reflexivity|]. split; [reflexivity|].
  unfold canCreateNote, canInviteUser.
  destruct (tenant_plan t);
    cbn [SUBSCRIPTION_LIMITS maxNotes maxUsers getRemainingNotes
         getRemainingUsers remainingOf num_ltb canUpgradePlan
         SubscriptionMiddleware.isPRO negb canCreate canInvite].
  - split; [reflexivity|]. split; [reflexivity|]. split; [auto|].
    split; eexists; (split; [reflexivity|]); cbn [canCreate canInvite].
    + destruct (Z.ltb_spec (note_count db tid) 3) as [Hk|Hk]; split; intros H;
        try reflexivity; try discriminate.
      * intros E.
        assert (Z.max 0 (3 - note_count db tid) = 0) by congruence. lia.
      * exfalso. apply H. f_equal. lia.
    + destruct (Z.ltb_spec (user_count db tid) 5) as [Hk|Hk]; split; intros H;
        try reflexivity; try discriminate.
      * intros E.
        assert (Z.max 0 (5 - user_count db tid) = 0) by congruence. lia.
      * exfalso. apply H. f_equal. lia.
  - split; [reflexivity|]. split; [reflexivity|]. split; [auto|].
    split; eexists; (split; [reflexivity|]); cbn [canCreate canInvite];
      split; intros _; [discriminate|reflexivity|discriminate|reflexivity].
Qed.

Lemma subscription_status_consistent_witness :
  TenantAwareRepository.getRemainingNotes (tenant_id acmeTenant) sampleDb
  = Ok (Fin 0).
Proof.
  destruct (getSubscriptionStatus sampleDb (tenant_id acmeTenant)) as [st|m]
    eqn:E; [|discriminate E].
  destruct (subscription_status_consistent sampleDb (tenant_id acmeTenant) st E)
    as (_ & _ & _ & _ & -> & _).
  injection E as <-. reflexivity.
Defined.

(** ** The tenant repository *)

Lemma filter_filter_disjoint {A} (p q : A -> bool) (l : list A) :
  (forall x, p x = true -> q x = true) ->
  List.filter p (List.filter q l) = List.filter p l.
Proof.
  intros H. induction l as [|x l IH]; cbn; [reflexivity|].
  destruct (q x) eqn:Eq; cbn; [now rewrite IH|].
  destruct (p x) eqn:Ep; [|exact IH]. apply H in Ep. congruence.
Qed.

Lemma filter_map_fixed {A} (p : A -> bool) (g : A -> A) (l : list A) :
  (forall x, p (g x) = p x) -> (forall x, p x = true -> g x = x) ->
  List.filter p (List.map g l) = List.filter p l.
Proof.
  intros H1 H2. induction l as [|x l IH]; cbn; [reflexivity|].
  rewrite H1. destruct (p x) eqn:E; [|exact IH].
  rewrite (H2 x E), IH. reflexivity.
Qed.

(** X23 -- The writes of a repository stay in its tenant: a successful
    [createNote], [updateNote] or [deleteNote] of a repository bound to
    one tenant leaves the notes of every other tenant as they were, row
    for row and in order, and touches no other table. *)
Theorem repository_writes_stay_in_tenant (tid : jsstring) (db db1 : Db) :
  repositoryWrite tid db db1 ->
  foreignNotes tid db1 = foreignNotes tid db
  /\ tenants db1 = tenants db /\ users db1 = users db
  /\ invitations db1 = invitations db.
Proof.
  intros [db0 title content authorId newId now db' n H
         |db0 noteId title content now db' n H
         |db0 noteId db' n H].
  - unfold TenantAwareRepository.createNote in H.
    destruct (TenantAwareRepository.findUserById _ _ _); [|discriminate].
    unfold note_create in H.
    destruct (existsb _ _); [discriminate|].
    destruct (tenant_findUnique _ _); [|discriminate].
    destruct (user_findById _ _); [|discriminate].
    injection H as <- _. unfold foreignNotes. cbn [notes set_notes].
    rewrite filter_app. cbn. rewrite jseqb_refl. cbn.
    rewrite app_nil_r. auto.
  - unfold TenantAwareRepository.updateNote in H.
    destruct (find _ _); [|discriminate].
    injection H as <- _. unfold foreignNotes. cbn [notes set_notes].
    split; [|auto]. apply filter_map_fixed.
    + intros x. destruct (TenantAwareRepository.ownRow tid noteId x);
        reflexivity.
    + intros x Hx. unfold TenantAwareRepository.ownRow.
      apply negb_true_iff in Hx. rewrite Hx, andb_false_r. reflexivity.
  - unfold TenantAwareRepository.deleteNote in H.
    destruct (find _ _); [|discriminate].
    injection H as <- _. unfold foreignNotes. cbn [notes set_notes].
    split; [|auto]. apply filter_filter_disjoint.
    intros x Hx. unfold TenantAwareRepository.ownRow.
    apply negb_true_iff in Hx. rewrite Hx, andb_false_r. reflexivity.
Qed.

Lemma repository_writes_stay_in_tenant_witness :
  match TenantAwareRepository.deleteNote (tenant_id acmeTenant) sampleDb
          (note_id acmeNote1) with
  | Ok (db1, _) => foreignNotes (tenant_id acmeTenant) db1 = [globexNote1]
  | Throw _ => False
  end.
Proof.
  destruct (TenantAwareRepository.deleteNote (tenant_id acmeTenant) sampleDb
              (note_id acmeNote1)) as [[db1 n]|m] eqn:H.
  - destruct (repository_writes_stay_in_tenant (tenant_id acmeTenant) sampleDb
                db1 (write_deleteNote _ _ _ _ _ H)) as [-> _].
    reflexivity.
  - vm_compute in H. discriminate H.
Defined.

(** X24 -- A repository cannot reach another tenant's note by its id:
    with note ids unique, for a note of another tenant [findNoteById]
    finds nothing, and [updateNote] and [deleteNote] throw the store's
    not-found errors. *)
Theorem repository_cannot_reach_foreign_note (tid : jsstring) (db : Db)
  (n : Note) (title content : option jsstring) (now : Z) :
  uniqueNoteIds db ->
  In n (notes db) ->
  note_tenantId n <> tid ->
  TenantAwareRepository.findNoteById tid db (note_id n) = None
  /\ TenantAwareRepository.updateNote tid db (note_id n) title content now
     = Throw UpdateNotFoundMessage
  /\ TenantAwareRepository.deleteNote tid db (note_id n)
     = Throw DeleteNotFoundMessage.
Proof.
  intros Huniq Hin Hother.
  assert (Hnone : find (TenantAwareRepository.ownRow tid (note_id n)) (notes db)
                  = None).
  { destruct (find _ _) as [m|] eqn:E; [exfalso|reflexivity].
    apply find_some in E as [Hm Hp].
    apply andb_true_iff in Hp as [Hid Htid]. apply jseqb_eq in Hid, Htid.
    assert (m = n) by (apply (NoDup_map_inj note_id (notes db)); assumption).
    subst m. contradiction. }
  split; [exact Hnone|].
  unfold TenantAwareRepository.updateNote, TenantAwareRepository.deleteNote.
  rewrite Hnone. auto.
Qed.

Lemma repository_cannot_reach_foreign_note_witness :
  TenantAwareRepository.deleteNote (tenant_id acmeTenant) sampleDb
    (note_id globexNote1) = Throw DeleteNotFoundMessage.
Proof.
  apply (repository_cannot_reach_foreign_note (tenant_id acmeTenant) sampleDb
           globexNote1 None None 0 sampleDb_uniqueNoteIds).
  - cbn. tauto.
  - discriminate.
Defined.

(** X25 -- The repository keeps authors inside their tenant.
    [createNote] succeeds only for an author who is a user of the
    repository's tenant, the note it adds belongs to that tenant and is
    found again by [findNoteById] under its fresh id; and no write of a
    repository breaks the invariant that every note's author is a user of
    the note's tenant. *)
Theorem repository_authors_in_tenant (tid : jsstring) (db db1 : Db) :
  (forall title content authorId newId now n,
     TenantAwareRepository.createNote tid db title content authorId newId now
     = Ok (db1, n) ->
     (exists u, In u (users db) /\ user_id u = authorId
                /\ user_tenantId u = tid)
     /\ n = {| note_id := newId; note_title := title; note_content := content;
               note_authorId := authorId; note_tenantId := tid;
               note_createdAt := now; note_updatedAt := now |}
     /\ notes db1 = notes db ++ [n]
     /\ TenantAwareRepository.findNoteById tid db1 newId = Some n)
  /\ (authorsInTenant db -> repositoryWrite tid db db1 -> authorsInTenant db1).
Proof.
  assert (Hcreate' :
    forall db db1 title content authorId newId now n,
      TenantAwareRepository.createNote tid db title content authorId newId now
      = Ok (db1, n) ->
      (exists u, In u (users db) /\ user_id u = authorId
                 /\ user_tenantId u = tid)
      /\ n = {| note_id := newId; note_title := title; note_content := content;
                note_authorId := authorId; note_tenantId := tid;
                note_createdAt := now; note_updatedAt := now |}
      /\ notes db1 = notes db ++ [n]
      /\ TenantAwareRepository.findNoteById tid db1 newId = Some n).
  { clear db db1. intros db db1 title content authorId newId now n H.
    unfold TenantAwareRepository.createNote in H.
    destruct (TenantAwareRepository.findUserById tid db authorId) as [u|] eqn:Hu;
      [|discriminate].
    apply find_some in Hu as [Hin Hp].
    apply andb_true_iff in Hp as [Hid Htid]. apply jseqb_eq in Hid, Htid.
    unfold note_create in H.
    destruct (existsb _ _) eqn:Hfresh; [discriminate|].
    destruct (tenant_findUnique _ _); [|discriminate].
    destruct (user_findById _ _); [|discriminate].
    injection H as <- <-.
    split; [eauto|]. split; [reflexivity|]. split; [reflexivity|].
    unfold TenantAwareRepository.findNoteById, note_findFirst.
    cbn [notes set_notes]. rewrite find_app_skip.
    - cbn. rewrite !jseqb_refl. reflexivity.
    - revert Hfresh. apply existsb_weaken. intros m Hm.
      apply andb_true_iff in Hm as [Hm _]. exact Hm. }
  split; [exact (Hcreate' db db1)|].
  intros Hinv Hwrite.
  destruct Hwrite as [db0 title content authorId newId now db' n H
                     |db0 noteId title content now db' n H
                     |db0 noteId db' n H].
  - destruct (Hcreate' db0 db' title content authorId newId now n H)
      as ((u & Hu & Hid & Htid) & -> & Hnotes & _).
    assert (Husers : users db' = users db0).
    { unfold TenantAwareRepository.createNote, note_create in H.
      destruct (TenantAwareRepository.findUserById _ _ _); [|discriminate].
      destruct (existsb _ _); [discriminate|].
      destruct (tenant_findUnique _ _); [|discriminate].
      destruct (user_findById _ _); [|discriminate].
      injection H as <-. reflexivity. }
    intros m Hm. rewrite Hnotes in Hm. rewrite Husers.
    apply in_app_or in Hm as [Hm|[<-|[]]]; [exact (Hinv m Hm)|].
    exists u. auto.
  - unfold TenantAwareRepository.updateNote in H.
    destruct (find _ _); [|discriminate].
    injection H as <- _. intros m Hm. cbn [notes users set_notes] in Hm |- *.
    apply in_map_iff in Hm as (m0 & <- & Hm0).
    destruct (Hinv m0 Hm0) as (u & Hu & Hid & Htid).
    exists u. destruct (TenantAwareRepository.ownRow tid noteId m0); auto.
  - unfold TenantAwareRepository.deleteNote in H.
    destruct (find _ _); [|discriminate].
    injection H as <- _. intros m Hm. cbn [notes users set_notes] in Hm |- *.
    apply filter_In in Hm as [Hm _]. exact (Hinv m Hm).
Qed.

Lemma sampleDb_authorsInTenant : authorsInTenant sampleDb.
Proof.
  intros n Hn. cbn in Hn. destruct Hn as [<-|[<-|[<-|[<-|[]]]]];
    [exists acmeAdmin|exists acmeAdmin|exists acmeUser|exists globexAdmin];
    cbn; tauto.
Qed.

Lemma repository_authors_in_tenant_witness :
  match TenantAwareRepository.createNote (tenant_id acmeTenant) sampleDb
          "Fourth" "note" (user_id acmeUser) "cnote00000000000000000041" 9000
  with
  | Ok (db1, n) =>
      authorsInTenant db1
      /\ TenantAwareRepository.findNoteById (tenant_id acmeTenant) db1
           "cnote00000000000000000041" = Some n
  | Throw _ => False
  end.
Proof.
  destruct (TenantAwareRepository.createNote (tenant_id acmeTenant) sampleDb
              "Fourth" "note" (user_id acmeUser) "cnote00000000000000000041"
              9000) as [[db1 n]|m] eqn:H.
  - destruct (repository_authors_in_tenant (tenant_id acmeTenant) sampleDb db1)
      as [Hcreate Hinv].
    split.
    + exact (Hinv sampleDb_authorsInTenant
               (write_createNote _ _ _ _ _ _ _ _ _ H)).
    + exact (proj2 (proj2 (proj2 (Hcreate _ _ _ _ _ _ H)))).
  - vm_compute in H. discriminate H.
Defined.

(** ** The login route *)

Lemma emailRegex_test_nonempty mail :
  emailRegex_test mail = true -> mail <> [].
Proof. intros H ->. discriminate H. Qed.

(** The outcomes of a login with a well-formed address and a
    password. *)
Lemma POST_login_cases compare sign secret db b mail password now :
  prop b "email" = Some (JStr mail) ->
  prop b "password" = Some (JStr password) ->
  emailRegex_test mail = true ->
  password <> [] ->
  let r := POST_login compare sign secret db (Some b) now in
  r = createApiError "Invalid email or password" 401
  \/ exists u t key,
       user_findByEmail db mail = Some u
       /\ compare password (user_password u) = true
       /\ tenant_findUnique db (user_tenantId u) = Some t
       /\ secret = Some key /\ key <> []
       /\ status r = 200
       /\ jget ["data"; "token"] (body r)
          = Some (JStr (sign (loginClaims u t) key now))
       /\ jget ["data"; "user"; "tenantId"] (body r)
          = Some (JStr (user_tenantId u))
       /\ jget ["data"; "tenant"; "id"] (body r) = Some (JStr (tenant_id t)).
Proof.
  intros Hmail Hpassword Hregex Hnonempty.
  assert (Hb : b <> JNull) by (intros ->; discriminate Hmail).
  unfold POST_login.
  destruct b as [| | | | | |fields]; try contradiction;
    try (cbn in Hmail; discriminate Hmail).
  rewrite Hmail, Hpassword, Hregex.
  pose proof (emailRegex_test_nonempty mail Hregex) as Hm.
  destruct mail as [|c mail]; [contradiction|].
  destruct password as [|c' password]; [contradiction|].
  cbn [truthy_opt truthy negb orb].
  replace (jslength (c' :: password) <? 1) with false.
  2:{ symmetry. apply Z.ltb_ge. unfold jslength. cbn [List.length]. lia. }
  unfold authenticateUser.
  destruct (user_findByEmail db (c :: mail)) as [u|]; [|left; reflexivity].
  destruct (compare (c' :: password) (user_password u)) eqn:Hcompare;
    cbn [negb]; [|left; reflexivity].
  destruct (tenant_findUnique db (user_tenantId u)) as [t|] eqn:Ht;
    [|left; reflexivity].
  unfold generateJWT, getJWTSecret.
  destruct secret as [[|k key]|]; try (left; reflexivity).
  right. exists u, t, (k :: key).
  repeat split; try reflexivity; try assumption. discriminate.
Qed.

(** X26 -- A login that succeeds is the login of the first user row with
    the address: the password matches that row's hash, and the token
    signs the id, address, role and tenant of that row and the slug of
    its tenant.  With these claims the note routes hand out notes of
    that row's tenant only. *)
Theorem login_issues_own_claims
  (compare : jsstring -> jsstring -> bool)
  (sign : UserContext -> jsstring -> Z -> jsstring)
  (secret : option jsstring) (db : Db) (requestBody : option value) (now : Z) :
  let r := POST_login compare sign secret db requestBody now in
  status r = 200 ->
  exists b mail password u t key,
    requestBody = Some b
    /\ prop b "email" = Some (JStr mail)
    /\ prop b "password" = Some (JStr password)
    /\ emailRegex_test mail = true
    /\ user_findByEmail db mail = Some u
    /\ compare password (user_password u) = true
    /\ tenant_findUnique db (user_tenantId u) = Some t
    /\ secret = Some key
    /\ jget ["data"; "token"] (body r)
       = Some (JStr (sign (loginClaims u t) key now))
    /\ jget ["data"; "user"; "tenantId"] (body r)
       = Some (JStr (user_tenantId u))
    /\ jget ["data"; "tenant"; "id"] (body r) = Some (JStr (user_tenantId u))
    /\ forall id v,
         In v (returnedNotes (GET_note db (Verified (loginClaims u t)) id)) ->
         exists row, In row (notes db)
                     /\ note_tenantId row = user_tenantId u
                     /\ v = noteJson db row.
Proof.
  intros r H200. subst r.
  destruct requestBody as [b|]; [|discriminate H200].
  assert (Hfields :
    exists mail password,
      prop b "email" = Some (JStr mail) /\ prop b "password" = Some (JStr password)
      /\ emailRegex_test mail = true /\ password <> []).
  { unfold POST_login in H200.
    destruct b as [| | | | | |fields]; try discriminate H200.
    all: destruct (prop _ "email") as [[| | |mail| | |]|];
      destruct (prop _ "password") as [[| | |password| | |]|];
      cbn [truthy_opt truthy negb orb] in H200;
      repeat match type of H200 with
             | context [match ?n with Fin _ => _ | Infinity => _ end] =>
                 destruct n as [[| |]|]
             | context [if ?c then _ else _] => destruct c eqn:?
             | context [match ?l with [] => _ | _ :: _ => _ end] =>
                 destruct l
             end; try discriminate H200.
    exists mail, password. split; [reflexivity|]. split; [reflexivity|].
    split; [apply negb_false_iff; assumption|].
    match goal with
    | H : _ || _ = false |- _ =>
        apply orb_false_iff in H as [_ H]; apply negb_false_iff in H;
        intros ->; discriminate H
    end. }
  destruct Hfields as (mail & password & Hmail & Hpassword & Hregex & Hne).
  destruct (POST_login_cases compare sign secret db b mail password now
              Hmail Hpassword Hregex Hne)
    as [E|(u & t & key & Hu & Hc & Ht & Hs & _ & _ & Htoken & Htid & Htenant)].
  { rewrite E in H200. discriminate H200. }
  exists b, mail, password, u, t, key.
  repeat (split; [first [reflexivity|assumption]|]).
  split.
  - rewrite Htenant. apply tenant_findUnique_some in Ht as [_ ->]. reflexivity.
  - intros id v Hv.
    destruct (GET_note_reads_own_tenant db _ id v Hv)
      as (context & row & [= <-] & Hrow & Htenant' & ->).
    exists row. auto.
Qed.

Lemma login_issues_own_claims_witness :
  let r := POST_login sample_compare sample_sign (Some (lit "secret")) sampleDb
             (Some (loginBody "user@acme.test" "hash")) 0 in
  status r = 200
  /\ jget ["data"; "tenant"; "id"] (body r) = Some (JStr (tenant_id acmeTenant)).
Proof.
  intros r. split; [reflexivity|].
  destruct (login_issues_own_claims sample_compare sample_sign
              (Some (lit "secret")) sampleDb
              (Some (loginBody "user@acme.test" "hash")) 0 eq_refl)
    as (b & mail & password & u & t & key & [= <-] & [= <-] & _ & _ & Hu & _
        & _ & _ & _ & _ & Htenant & _).
  injection Hu as <-. exact Htenant.
Defined.

(** X27 -- A failed login does not tell why.  For a well-formed address
    and a non-empty password, every answer other than 200 is the same 401
    "Invalid email or password": when no row has the address, and when
    the first row with the address has another password -- even if a
    later row, of another tenant, has the address and this password. *)
Theorem login_failures_indistinguishable
  (compare : jsstring -> jsstring -> bool)
  (sign : UserContext -> jsstring -> Z -> jsstring)
  (secret : option jsstring) (db : Db) (b : value) (mail password : jsstring)
  (now : Z) :
  prop b "email" = Some (JStr mail) ->
  prop b "password" = Some (JStr password) ->
  emailRegex_test mail = true ->
  password <> [] ->
  let r := POST_login compare sign secret db (Some b) now in
  (status r <> 200 -> r = createApiError "Invalid email or password" 401)
  /\ (user_findByEmail db mail = None ->
      r = createApiError "Invalid email or password" 401)
  /\ (forall u, user_findByEmail db mail = Some u ->
                compare password (user_password u) = false ->
                r = createApiError "Invalid email or password" 401).
Proof.
  intros Hmail Hpassword Hregex Hne r. subst r.
  destruct (POST_login_cases compare sign secret db b mail password now
              Hmail Hpassword Hregex Hne)
    as [E|(u & t & key & Hu & Hc & _ & _ & _ & H200 & _)].
  - rewrite E. auto.
  - split; [intros H; contradiction|]. split.
    + intros Hnone. congruence.
    + intros u' Hu' Hc'. congruence.
Qed.

Lemma login_failures_indistinguishable_witness :
  POST_login sample_compare sample_sign (Some (lit "secret")) sharedEmailDb
    (Some (loginBody "user@acme.test" "other")) 0
  = createApiError "Invalid email or password" 401
  /\ In globexTwin (users sharedEmailDb)
  /\ sample_compare "other" (user_password globexTwin) = true.
Proof.
  split; [|split; [cbn; tauto|reflexivity]].
  apply (login_failures_indistinguishable sample_compare sample_sign
           (Some (lit "secret")) sharedEmailDb
           (loginBody "user@acme.test" "other") "user@acme.test" "other" 0
           eq_refl eq_refl eq_refl ltac:(discriminate)) with (u := acmeUser);
    reflexivity.
Defined.

(** ** The middleware *)

Lemma header_set_other k k' v h :
  String.eqb k k' = false ->
  header k (Middleware.set k' v h) = header k h.
Proof.
  intros Hk. unfold Middleware.set.
  induction h as [|[k0 v0] h IH]; cbn.
  - rewrite Hk. reflexivity.
  - destruct (String.eqb k0 k') eqn:E0; cbn.
    + apply String.eqb_eq in E0. subst k0. rewrite Hk. exact IH.
    + destruct (String.eqb k k0); [reflexivity|exact IH].
Qed.

Lemma header_set_same k v h : header k (Middleware.set k v h) = Some v.
Proof.
  unfold Middleware.set. induction h as [|[k0 v0] h IH]; cbn.
  - rewrite String.eqb_refl. reflexivity.
  - destruct (String.eqb k0 k) eqn:E0; cbn; [exact IH|].
    rewrite String.eqb_sym, E0. exact IH.
Qed.

Lemma header_In k v h : header k h = Some v -> In (k, v) h.
Proof.
  induction h as [|[k0 v0] h IH]; cbn; [discriminate|].
  destruct (String.eqb k k0) eqn:E.
  - apply String.eqb_eq in E. subst k0. intros [= <-]. left. reflexivity.
  - intros H. right. exact (IH H).
Qed.

(** The headers of the response after the CORS headers have been set on
    [NextResponse.next()]. *)
Lemma setCors_headers CORS request :
  let h := Middleware.res_headers
             (Middleware.setCors CORS request Middleware.NextResponse_next) in
  header "x-middleware-next" h = Some (lit "1")
  /\ header "content-type" h = None
  /\ Middleware.has "content-type" h = false
  /\ header "location" h = None
  /\ header "x-user-id" h = None
  /\ header "x-user-email" h = None
  /\ header "x-user-role" h = None
  /\ header "x-tenant-id" h = None
  /\ header "x-tenant-slug" h = None
  /\ forall v, In ("access-control-allow-origin"%string, v) h ->
               In v (Middleware.corsOrigins CORS)
               /\ (v = lit "*" \/ Middleware.origin request = Some v).
Proof.
  unfold Middleware.setCors.
  assert (Hstar :
    forall v : jsstring,
      existsb (jseqb "*") (Middleware.corsOrigins CORS) = true ->
      v = lit "*" ->
      In v (Middleware.corsOrigins CORS)
      /\ (v = lit "*" \/ Middleware.origin request = Some v)).
  { intros v E ->. apply existsb_exists in E as (x & Hx & E).
    apply jseqb_eq in E. subst x. auto. }
  destruct (Middleware.origin request) as [[|c o]|] eqn:Horigin.
  1,3: destruct (existsb (jseqb "*") _) eqn:E; cbn;
       repeat (split; [reflexivity|]); intros v Hin;
       repeat (destruct Hin as [Hin|Hin];
               [try discriminate Hin|]); try contradiction;
       injection Hin as <-; apply Hstar; reflexivity.
  destruct (existsb (jseqb (c :: o)) _) eqn:Elisted.
  - cbn. repeat (split; [reflexivity|]). intros v Hin.
    repeat (destruct Hin as [Hin|Hin]; [try discriminate Hin|]);
      try contradiction.
    injection Hin as <-.
    apply existsb_exists in Elisted as (x & Hx & E).
    apply jseqb_eq in E. subst x. auto.
  - destruct (existsb (jseqb "*") _) eqn:E; cbn;
      repeat (split; [reflexivity|]); intros v Hin;
      repeat (destruct Hin as [Hin|Hin];
              [try discriminate Hin|]); try contradiction.
    injection Hin as <-. apply Hstar; reflexivity.
Qed.

Lemma In_set k v k' v' h :
  In (k, v) (Middleware.set k' v' h) -> (k, v) = (k', v') \/ In (k, v) h.
Proof.
  unfold Middleware.set. intros H. apply in_app_or in H as [H|[H|[]]].
  - apply filter_In in H as [H _]. auto.
  - auto.
Qed.

(** Copying headers onto a response: a header of the result was on the
    response or is one of those copied. *)
Lemma copied_header (p : string * jsstring -> bool) k v l r :
  header k
    (Middleware.res_headers
       (fold_left (fun r kv => if p kv
                               then Middleware.headers_set (fst kv) (snd kv) r
                               else r) l r)) = Some v ->
  header k (Middleware.res_headers r) = Some v \/ In (k, v) l.
Proof.
  revert r. induction l as [|[k0 v0] l IH]; intros r; cbn [fold_left];
    [auto|].
  intros H. apply IH in H as [H|H]; [|right; right; exact H].
  destruct (p (k0, v0)); [|left; exact H].
  cbn [Middleware.headers_set Middleware.res_headers fst snd] in H.
  destruct (String.eqb k k0) eqn:E.
  - apply String.eqb_eq in E. subst k0. rewrite header_set_same in H.
    injection H as <-. right. left. reflexivity.
  - rewrite header_set_other in H by exact E. left. exact H.
Qed.

(** X28 -- The middleware never reflects an origin that is not listed:
    whatever it answers, an [access-control-allow-origin] header it sends
    names an entry of the configured list, which is the request's own
    origin or the wildcard. *)
Theorem cors_origin_is_listed (CORS : option jsstring)
  (verify : jsstring -> option Middleware.JWTPayload)
  (request : Middleware.Request) (v : jsstring) :
  header "access-control-allow-origin"
    (headersOf (Middleware.middleware CORS verify request)) = Some v ->
  In v (Middleware.corsOrigins CORS)
  /\ (v = lit "*" \/ Middleware.origin request = Some v).
Proof.
  destruct (setCors_headers CORS request)
    as (_ & _ & Htype & _ & _ & _ & _ & _ & _ & Hcors).
  assert (Hresponse :
    header "access-control-allow-origin"
      (Middleware.res_headers
         (Middleware.setCors CORS request Middleware.NextResponse_next))
    = Some v ->
    In v (Middleware.corsOrigins CORS)
    /\ (v = lit "*" \/ Middleware.origin request = Some v)).
  { intros H. apply Hcors, header_In, H. }
  assert (Hjson : forall b st,
    header "access-control-allow-origin"
      (Middleware.res_headers
         (Middleware.NextResponse_json b st
            (Middleware.res_headers
               (Middleware.setCors CORS request Middleware.NextResponse_next))))
    = Some v ->
    In v (Middleware.corsOrigins CORS)
    /\ (v = lit "*" \/ Middleware.origin request = Some v)).
  { intros b st. unfold Middleware.NextResponse_json.
    cbn [Middleware.res_headers]. rewrite Htype.
    rewrite header_set_other by reflexivity. exact Hresponse. }
  unfold headersOf, Middleware.middleware.
  destruct (jseqb (Middleware.method request) "OPTIONS"); [exact Hresponse|].
  destruct (Middleware.isStatic _); [exact Hresponse|].
  destruct (Middleware.isPublic _); [exact Hresponse|].
  destruct (isPrefix "/api" _).
  - destruct (option_map _ _) as [[|c token]|]; try apply Hjson.
    destruct (verify (c :: token)); [|apply Hjson].
    cbn [Middleware.headers_set Middleware.res_headers].
    rewrite !header_set_other by reflexivity. exact Hresponse.
  - destruct (Middleware.auth_token request) as [[|c token]|];
      try (cbn; discriminate).
    destruct (verify (c :: token)); [exact Hresponse|].
    intros H. apply copied_header in H as [H|H].
    + cbn in H. discriminate H.
    + exact (Hcors v H).
Qed.

Lemma cors_origin_is_listed_witness :
  header "access-control-allow-origin"
    (headersOf (Middleware.middleware (Some (lit "https://a.test,https://b.test"))
                  sample_verify
                  (anonymous "/api/notes" "GET" (Some (lit "https://evil.test")))))
  = None.
Proof.
  destruct (header _ _) as [v|] eqn:E; [exfalso|reflexivity].
  apply cors_origin_is_listed in E as [Hin [->|Horigin]].
  - vm_compute in Hin. intuition discriminate.
  - injection Horigin as <-. vm_compute in Hin. intuition discriminate.
Defined.



(** X30 -- What a request with neither an authorization header nor a
    session cookie gets.  A preflight gets a response with status 200
    and no body; a request to a static path (under /_next, containing
    /favicon.ico, or ending in a static extension, also under /api) or
    a public path gets the NextResponse.next() object; any other request
    to an API path gets a JSON response with status 401 and the message
    Authentication required; any other request gets a redirect, status
    307, to /login on the host of the request, which drops no cookie.
    None of them carries a user id header.  All but the redirect carry
    the x-middleware-next: 1 of the NextResponse.next() object whose
    headers they are given, the preflight answer and the 401 among
    them. *)
Theorem anonymous_requests (CORS : option jsstring)
  (verify : jsstring -> option Middleware.JWTPayload)
  (request : Middleware.Request) :
  Middleware.authorization request = None ->
  Middleware.auth_token request = None ->
  let r := Middleware.middleware CORS verify request in
  let h := Middleware.res_headers r in
  let path := Middleware.pathname request in
  let preflight := jseqb (Middleware.method request) "OPTIONS" in
  let open := Middleware.isStatic path || Middleware.isPublic path in
  (preflight = true ->
   Middleware.res_status r = 200 /\ Middleware.res_body r = None)
  /\ (preflight = false -> open = true ->
      r = Middleware.setCors CORS request Middleware.NextResponse_next
      /\ Middleware.res_status r = 200 /\ Middleware.res_body r = None)
  /\ (preflight = false -> open = false -> isPrefix "/api" path = true ->
      Middleware.res_status r = 401
      /\ Middleware.res_body r
         = Some (JObj [("error", JStr "Authentication required")])
      /\ header "content-type" h = Some (lit "application/json"))
  /\ (preflight = false -> open = false -> isPrefix "/api" path = false ->
      Middleware.res_status r = 307
      /\ Middleware.res_body r = None
      /\ h = [("location"%string, Middleware.base request +++ "/login")]
      /\ Middleware.res_deleted r = [])
  /\ header "x-user-id" h = None
  /\ (header "x-middleware-next" h = Some (lit "1")
      \/ header "x-middleware-next" h = None)
  /\ (header "x-middleware-next" h = None
      <-> preflight = false /\ open = false /\ isPrefix "/api" path = false).
Proof.
  intros Hauth Hcookie r h path preflight open.
  subst h r path preflight open.
  destruct (setCors_headers CORS request)
    as (Hnext & _ & Htype & _ & Hid & _).
  assert (Hstatus :
    Middleware.res_status
      (Middleware.setCors CORS request Middleware.NextResponse_next) = 200
    /\ Middleware.res_body
         (Middleware.setCors CORS request Middleware.NextResponse_next)
       = None).
  { unfold Middleware.setCors.
    destruct (Middleware.origin request) as [[|c' o]|];
      repeat destruct (existsb _ _); split; reflexivity. }
  destruct Hstatus as [H200 Hbody].
  unfold Middleware.middleware. rewrite Hauth, Hcookie. cbn [option_map].
  destruct (jseqb (Middleware.method request) "OPTIONS").
  { cbn [Middleware.new_Response Middleware.res_headers Middleware.res_status
         Middleware.res_body].
    settle. }
  destruct (Middleware.isStatic (Middleware.pathname request));
    [|destruct (Middleware.isPublic (Middleware.pathname request))];
    cbn [orb].
  1,2: settle.
  destruct (isPrefix "/api" (Middleware.pathname request)).
  - unfold Middleware.NextResponse_json.
    cbn [Middleware.res_headers Middleware.res_status Middleware.res_body].
    rewrite Htype.
    assert (Hnext' :
      header "x-middleware-next"
        (Middleware.set "content-type" "application/json"
           (Middleware.res_headers
              (Middleware.setCors CORS request Middleware.NextResponse_next)))
      = Some (lit "1"))
      by (rewrite header_set_other by reflexivity; exact Hnext).
    assert (Hid' :
      header "x-user-id"
        (Middleware.set "content-type" "application/json"
           (Middleware.res_headers
              (Middleware.setCors CORS request Middleware.NextResponse_next)))
      = None)
      by (rewrite header_set_other by reflexivity; exact Hid).
    pose proof (header_set_same "content-type" "application/json"
                  (Middleware.res_headers
                     (Middleware.setCors CORS request
                        Middleware.NextResponse_next))) as Hcontent.
    settle.
  - cbn. settle.
Qed.

Lemma anonymous_requests_witness :
  let answer path verb :=
    Middleware.middleware None sample_verify (anonymous path verb None) in
  Middleware.res_status (answer "/api/notes/export.js" "GET") = 200
  /\ header "x-middleware-next"
       (Middleware.res_headers (answer "/api/notes" "GET")) = Some (lit "1")
  /\ Middleware.res_status (answer "/api/notes" "GET") = 401
  /\ Middleware.res_status (answer "/notes" "GET") = 307
  /\ header "location" (Middleware.res_headers (answer "/notes" "GET"))
     = Some (lit "http://localhost:3000/login")
  /\ header "x-middleware-next"
       (Middleware.res_headers (answer "/notes" "GET")) = None.
Proof.
  intros answer.
  pose proof (anonymous_requests None sample_verify
                (anonymous "/notes" "GET" None) eq_refl eq_refl)
    as (_ & _ & _ & Hpage & _ & _ & Hmark).
  pose proof (anonymous_requests None sample_verify
                (anonymous "/api/notes" "GET" None) eq_refl eq_refl)
    as (_ & _ & Hapi & _).
  destruct (Hpage eq_refl eq_refl eq_refl) as (H307 & _ & Hh & _).
  destruct (Hapi eq_refl eq_refl eq_refl) as (H401 & _).
  split; [reflexivity|]. split; [reflexivity|]. split; [exact H401|].
  split; [exact H307|]. split; [unfold answer; rewrite Hh; reflexivity|].
  apply Hmark. repeat split.
Defined.
